(** * Flask request lifecycle: contexts, dispatch, error handlers, responses

    A shallow embedding of the request-lifecycle core of Flask
    ([src/flask/ctx.py], [src/flask/app.py], [src/flask/wrappers.py]) and the
    properties of it stated in the specification.

    Python objects with identity (applications, application contexts, request
    contexts) live in a store indexed by [nat]; methods are actions of a
    state-and-exception monad [M] over that store.  User callables (hooks,
    views, error handlers), the session interface, signal receivers and the
    werkzeug response class are collaborators: they act on an abstract
    [World] and may raise.  The store carries a trace of the calls made, so
    that the order and number of calls can be stated. *)

From Stdlib Require Import ZArith List Bool Lia Ascii String.
From stdpp Require Import base option strings list gmap.

Set Warnings "-register-all".

Local Open Scope string_scope.
Local Open Scope list_scope.
Local Open Scope Z_scope.

(** ** Python values *)

(** A class, as far as [isinstance], [__mro__] and the [code] attribute of
    werkzeug's [HTTPException] classes are concerned.  Classes are identified
    by name; [cls_mro] starts with the class itself. *)
Record pyclass := PyClass {
  cls_name : string;
  cls_mro : list string;
  cls_code : option Z
}.

(** An exception instance: its class, its message, and the
    [original_exception] attribute that [handle_exception] sets. *)
Inductive exn := Exn (c : pyclass) (msg : string) (original : option exn).

Definition exn_class (e : exn) : pyclass := let 'Exn c _ _ := e in c.
Definition exn_msg (e : exn) : string := let 'Exn _ m _ := e in m.
Definition original_exception (e : exn) : option exn := let 'Exn _ _ o := e in o.

(** [issubclass(c, name)] and [isinstance(e, name)]. *)
Definition issubclass (c : pyclass) (name : string) : bool :=
  bool_decide (name ∈ cls_mro c).
Definition isinstance_exn (e : exn) (name : string) : bool :=
  issubclass (exn_class e) name.

(** The result of a call: a value or a raised exception. *)
Inductive result (A : Type) := Ok (a : A) | Raise (e : exn).
Arguments Ok {A} a.
Arguments Raise {A} e.

(** Builtin and werkzeug classes that the modelled code names. *)
Definition builtin (name : string) : pyclass :=
  PyClass name [name; "Exception"; "BaseException"; "object"] None.
Definition TypeError_cls : pyclass := builtin "TypeError".
Definition AssertionError_cls : pyclass := builtin "AssertionError".
Definition AttributeError_cls : pyclass := builtin "AttributeError".
Definition RuntimeError_cls : pyclass := builtin "RuntimeError".
Definition ValueError_cls : pyclass := builtin "ValueError".
Definition IndexError_cls : pyclass :=
  PyClass "IndexError" ["IndexError"; "LookupError"; "Exception"; "BaseException"; "object"] None.
Definition KeyError_cls : pyclass :=
  PyClass "KeyError" ["KeyError"; "LookupError"; "Exception"; "BaseException"; "object"] None.
Definition HTTPException_cls : pyclass :=
  PyClass "HTTPException" ["HTTPException"; "Exception"; "BaseException"; "object"] None.
Definition http_class (name : string) (code : Z) : pyclass :=
  PyClass name [name; "HTTPException"; "Exception"; "BaseException"; "object"] (Some code).
Definition NotFound_cls : pyclass := http_class "NotFound" 404.
Definition InternalServerError_cls : pyclass := http_class "InternalServerError" 500.

Definition TypeError (msg : string) : exn := Exn TypeError_cls msg None.
Definition AssertionError (msg : string) : exn := Exn AssertionError_cls msg None.
Definition AttributeError (msg : string) : exn := Exn AttributeError_cls msg None.
Definition RuntimeError (msg : string) : exn := Exn RuntimeError_cls msg None.
Definition ValueError (msg : string) : exn := Exn ValueError_cls msg None.
Definition IndexError (msg : string) : exn := Exn IndexError_cls msg None.
Definition KeyError (msg : string) : exn := Exn KeyError_cls msg None.

Definition nl : string := String (Ascii.ascii_of_nat 10) "".

(** A Python [list] used as a stack: [append] adds at the end, [pop()]
    removes the last item and raises [IndexError] on an empty list. *)
Definition py_append {A} (l : list A) (x : A) : list A := l ++ [x].
Definition py_pop {A} (l : list A) : option (A * list A) :=
  match rev l with
  | [] => None
  | x :: r => Some (x, rev r)
  end.

(** [s.rsplit(".", 1)[0]] when ["." in s], [None] otherwise. *)
Fixpoint rsplit_dot (s : string) : option string :=
  match s with
  | EmptyString => None
  | String c rest =>
      match rsplit_dot rest with
      | Some p => Some (String c p)
      | None => if Ascii.eqb c "."%char then Some "" else None
      end
  end.

(** Update of a store of objects at one identity. *)
Definition upd {A} (f : nat -> A) (i : nat) (a : A) : nat -> A :=
  fun j => if Nat.eqb j i then a else f j.

(** werkzeug's [LocalStack] of the current thread: [top] is [None] on an
    empty stack and [pop()] returns [None] there.  The head of the list is
    the top. *)
Definition ls_top (l : list nat) : option nat := head l.
Definition ls_push (x : nat) (l : list nat) : list nat := x :: l.
Definition ls_pop (l : list nat) : option nat * list nat :=
  match l with
  | [] => (None, [])
  | x :: r => (Some x, r)
  end.

Section Model.
Context {World Response Session : Type}.

(** Values a view function, a hook or an error handler can return, by the
    classes [make_response] tells apart. *)
Inductive pyval :=
| VNone
| VStr (s : string)
| VBytes (b : string)
| VBytearray (b : string)
| VInt (n : Z)
| VDict (d : list (string * pyval))
| VTuple (items : list pyval)
| VList (items : list pyval)
| VHeaders (h : list (string * string))
| VResponse (r : Response)
| VBaseResponse (name : string)
| VCallable (name : string)
| VExc (e : exn)
| VObject (cls : string).

(** [type(v).__name__]. *)
Definition py_type_name (v : pyval) : string :=
  match v with
  | VNone => "NoneType" | VStr _ => "str" | VBytes _ => "bytes"
  | VBytearray _ => "bytearray" | VInt _ => "int" | VDict _ => "dict"
  | VTuple _ => "tuple" | VList _ => "list" | VHeaders _ => "Headers"
  | VResponse _ => "Response" | VBaseResponse n => n | VCallable n => n
  | VExc e => cls_name (exn_class e) | VObject c => c
  end.

(** Truth value of an object ([if headers:]). *)
Definition truthy (v : pyval) : bool :=
  match v with
  | VNone | VStr "" | VBytes "" | VBytearray "" | VInt 0
  | VDict [] | VTuple [] | VList [] | VHeaders [] => false
  | _ => true
  end.

(** [isinstance(v, (Headers, dict, tuple, list))]. *)
Definition is_headers_like (v : pyval) : bool :=
  match v with
  | VHeaders _ | VDict _ | VTuple _ | VList _ => true
  | _ => false
  end.

(** [isinstance(v, (text_type, bytes, bytearray))]. *)
Definition is_text_or_bytes (v : pyval) : bool :=
  match v with
  | VStr _ | VBytes _ | VBytearray _ => true
  | _ => false
  end.

(** [isinstance(v, BaseResponse) or callable(v)]: werkzeug responses, WSGI
    callables, and [HTTPException] instances (which are WSGI applications). *)
Definition is_response_or_callable (v : pyval) : bool :=
  match v with
  | VBaseResponse _ | VCallable _ => true
  | VExc e => isinstance_exn e "HTTPException"
  | _ => false
  end.

(** ** Collaborators *)

(** Signals of [flask/signals.py] that the modelled code sends. *)
Inductive signal :=
| appcontext_pushed | appcontext_popped | appcontext_tearing_down
| request_tearing_down | request_started | request_finished
| got_request_exception.

(** What the model takes from outside [src/]: the werkzeug response class
    ([response_class_new] is its constructor, [set_status] and
    [set_status_code] its property setters), [jsonify], the session
    interface, the receivers connected to each signal, the request's [close]
    method and werkzeug's [default_exceptions] table. *)
Record externals := Externals {
  response_class_new : pyval -> option pyval -> option pyval -> result Response;
  jsonify : pyval -> result Response;
  force_type : pyval -> result Response;
  set_status : pyval -> Response -> result Response;
  set_status_code : pyval -> Response -> result Response;
  headers_extend : pyval -> Response -> result Response;
  open_session : World -> result (option Session) * World;
  make_null_session : Session;
  is_null_session : Session -> bool;
  save_session : Session -> Response -> World -> result unit * World;
  signal_send : signal -> World -> result unit * World;
  request_close : World -> result unit * World;
  default_options_response : World -> result Response * World;
  default_exceptions : Z -> option pyclass
}.

Variable X : externals.

(** ** Response coercion: [Flask.make_response] (app.py 2627-2786) *)

Definition invalid_tuple_msg : string :=
  "The view function did not return a valid response tuple."
  +:+ " The tuple must have the form (body, status, headers),"
  +:+ " (body, status), or (body, headers).".

Definition returned_none_msg : string :=
  "The view function did not return a valid response. The"
  +:+ " function either returned None or ended without a return"
  +:+ " statement.".

Definition invalid_type_msg (rv : pyval) : string :=
  "The view function did not return a valid"
  +:+ " response. The return type must be a string, dict, tuple,"
  +:+ " Response instance, or WSGI callable, but it was a "
  +:+ py_type_name rv +:+ ".".

(** Lines 2700-2725: unpacking of a tuple return value into
    [(rv, status, headers)]. *)
Definition unpack_rv (rv : pyval) : result (pyval * option pyval * option pyval) :=
  match rv with
  | VTuple items =>
      match items with
      | [body; status; headers] => Ok (body, Some status, Some headers)
      | [body; x] =>
          if is_headers_like x then Ok (body, None, Some x)
          else Ok (body, Some x, None)
      | _ => Raise (TypeError invalid_tuple_msg)
      end
  | _ => Ok (rv, None, None)
  end.

(** Lines 2727-2771: the body becomes an instance of the response class.
    Returns the response with the status and headers still to apply. *)
Definition coerce_body (rv : pyval) (status headers : option pyval)
  : result (Response * option pyval * option pyval) :=
  match rv with
  | VNone => Raise (TypeError returned_none_msg)
  | VResponse r => Ok (r, status, headers)
  | _ =>
      if is_text_or_bytes rv then
        match response_class_new X rv status headers with
        | Ok r => Ok (r, None, None)
        | Raise e => Raise e
        end
      else match rv with
      | VDict _ =>
          match jsonify X rv with
          | Ok r => Ok (r, status, headers)
          | Raise e => Raise e
          end
      | _ =>
          if is_response_or_callable rv then
            match force_type X rv with
            | Ok r => Ok (r, status, headers)
            | Raise e =>
                if isinstance_exn e "TypeError"
                then Raise (TypeError (exn_msg e +:+ nl +:+ invalid_type_msg rv))
                else Raise e
            end
          else Raise (TypeError (invalid_type_msg rv))
      end
  end.

(** Lines 2773-2786: an explicit status overrides, headers extend. *)
Definition apply_status_headers (r : Response) (status headers : option pyval)
  : result Response :=
  match
    match status with
    | Some st =>
        match st with
        | VNone => Ok r
        | _ => if is_text_or_bytes st then set_status X st r
               else set_status_code X st r
        end
    | None => Ok r
    end
  with
  | Raise e => Raise e
  | Ok r1 =>
      match headers with
      | Some h => if truthy h then headers_extend X h r1 else Ok r1
      | None => Ok r1
      end
  end.

Definition make_response (rv : pyval) : result Response :=
  match unpack_rv rv with
  | Raise e => Raise e
  | Ok (body, status, headers) =>
      match coerce_body body status headers with
      | Raise e => Raise e
      | Ok (r, status1, headers1) => apply_status_headers r status1 headers1
      end
  end.

(** ** Requests, contexts, applications *)

(** A werkzeug routing rule, as far as the dispatcher reads it. *)
Record Rule := MkRule {
  endpoint : string;
  provide_automatic_options : bool
}.

Definition view_args_t : Type := list (string * pyval).

(** A URL adapter bound to a request: its [match(return_rule=True)]. *)
Definition Adapter : Type := World -> result (Rule * view_args_t) * World.

(** The request object ([flask/wrappers.py], [Request]).
    [environ_preserve_context] is [environ.get("flask._preserve_context")],
    [environ_werkzeug_request] tells whether [environ["werkzeug.request"]]
    still refers to the request, [has_close] whether the request has a
    [close] attribute. *)
Record Request := MkRequest {
  environ_preserve_context : bool;
  environ_werkzeug_request : bool;
  path : string;
  method : string;
  url_rule : option Rule;
  view_args : option view_args_t;
  routing_exception : option exn;
  has_close : bool
}.

(** [Request.blueprint] (wrappers.py 107-114). *)
Definition blueprint (r : Request) : option string :=
  match url_rule r with
  | Some rule => rsplit_dot (endpoint rule)
  | None => None
  end.

(** A registered Python callable: a name, for the trace, and its behaviour
    on the world. *)
Record callable (A B : Type) := Callable {
  fn_name : string;
  fn_run : A -> World -> result B * World
}.
Arguments Callable {A B} fn_name fn_run.
Arguments fn_name {A B} c.
Arguments fn_run {A B} c a w.

(** A registry keyed by scope: [None] for the application, a blueprint's
    name otherwise. *)
Abbreviation scoped A := (gmap (option string) (list A)).

(** The application object ([Flask]), as far as the modelled methods read
    and write it.  [bind_to_environ] and [url_map_bind] are the werkzeug
    [Map] methods that [create_url_adapter] calls. *)
Record App := MkApp {
  debug : bool;
  testing : bool;
  PROPAGATE_EXCEPTIONS : option bool;
  PRESERVE_CONTEXT_ON_EXCEPTION : option bool;
  TRAP_HTTP_EXCEPTIONS : bool;
  TRAP_BAD_REQUEST_ERRORS : option bool;
  SERVER_NAME : option string;
  _got_first_request : bool;
  before_first_request_funcs : list (callable unit pyval);
  url_value_preprocessors :
    scoped (callable (option string * option view_args_t) (option view_args_t));
  before_request_funcs : scoped (callable unit pyval);
  after_request_funcs : scoped (callable Response Response);
  teardown_request_funcs : scoped (callable (option exn) pyval);
  teardown_appcontext_funcs : list (callable (option exn) pyval);
  error_handler_spec :
    gmap (option string) (gmap (option Z) (gmap string (callable exn pyval)));
  view_functions : gmap string (callable view_args_t pyval);
  bind_to_environ : Request -> result Adapter;
  url_map_bind : string -> result Adapter
}.

(** [AppContext] (ctx.py 243-299). *)
Record AppContext := MkAppContext {
  ac_app : nat;
  ac_url_adapter : option Adapter;
  ac_refcnt : Z
}.

(** [RequestContext] (ctx.py 302-578).  [rc_implicit_app_ctx_stack] holds,
    per push, the application context that push created, or [None]. *)
Record RequestContext := MkRequestContext {
  rc_app : nat;
  rc_request : Request;
  rc_url_adapter : option Adapter;
  rc_session : option Session;
  rc_implicit_app_ctx_stack : list (option nat);
  rc_preserved : bool;
  rc_preserved_exc : option exn;
  rc_after_request_functions : list (callable Response Response)
}.

(** ** The trace *)

Inductive hook_kind :=
| BeforeFirstRequest | UrlValuePreprocessor | BeforeRequest | ViewFunction
| AfterRequest | TeardownRequest | TeardownAppcontext | ErrorHandler.

(** [EvCall]: a registered callable is called.  [EvSignal]: a signal is
    sent.  [EvLog]: the application logger is written to.
    [EvRequestTeardown c exc]: [RequestContext.pop] of context [c] runs its
    teardown sequence with the error [exc].  [EvRequestClose c]: the request
    of [c] is closed.  [EvAppTeardown a exc]: [AppContext.pop] of [a] runs
    the application-context teardown. *)
Inductive event :=
| EvCall (k : hook_kind) (name : string)
| EvSignal (sg : signal)
| EvLog (msg : string)
| EvRequestTeardown (ctx : nat) (exc : option exn)
| EvRequestClose (ctx : nat)
| EvAppTeardown (actx : nat) (exc : option exn).

(** ** The store *)

(** [exc_info] is [sys.exc_info()[1]], the exception being handled.
    [app_ctx_stack] and [request_ctx_stack] are [_app_ctx_stack] and
    [_request_ctx_stack] of [flask/globals.py]. *)
Record State := MkState {
  world : World;
  exc_info : option exn;
  apps : nat -> App;
  app_ctxs : nat -> AppContext;
  next_app_ctx : nat;
  req_ctxs : nat -> RequestContext;
  next_req_ctx : nat;
  app_ctx_stack : list nat;
  request_ctx_stack : list nat;
  log : list event
}.

Definition set_world (w : World) (s : State) : State :=
  MkState w (exc_info s) (apps s) (app_ctxs s) (next_app_ctx s) (req_ctxs s)
    (next_req_ctx s) (app_ctx_stack s) (request_ctx_stack s) (log s).
Definition set_exc_info (e : option exn) (s : State) : State :=
  MkState (world s) e (apps s) (app_ctxs s) (next_app_ctx s) (req_ctxs s)
    (next_req_ctx s) (app_ctx_stack s) (request_ctx_stack s) (log s).
Definition set_app (i : nat) (a : App) (s : State) : State :=
  MkState (world s) (exc_info s) (upd (apps s) i a) (app_ctxs s) (next_app_ctx s)
    (req_ctxs s) (next_req_ctx s) (app_ctx_stack s) (request_ctx_stack s) (log s).
Definition set_app_ctx (i : nat) (c : AppContext) (s : State) : State :=
  MkState (world s) (exc_info s) (apps s) (upd (app_ctxs s) i c) (next_app_ctx s)
    (req_ctxs s) (next_req_ctx s) (app_ctx_stack s) (request_ctx_stack s) (log s).
Definition set_next_app_ctx (n : nat) (s : State) : State :=
  MkState (world s) (exc_info s) (apps s) (app_ctxs s) n
    (req_ctxs s) (next_req_ctx s) (app_ctx_stack s) (request_ctx_stack s) (log s).
Definition set_req_ctx (i : nat) (c : RequestContext) (s : State) : State :=
  MkState (world s) (exc_info s) (apps s) (app_ctxs s) (next_app_ctx s)
    (upd (req_ctxs s) i c) (next_req_ctx s) (app_ctx_stack s) (request_ctx_stack s)
    (log s).
Definition set_next_req_ctx (n : nat) (s : State) : State :=
  MkState (world s) (exc_info s) (apps s) (app_ctxs s) (next_app_ctx s)
    (req_ctxs s) n (app_ctx_stack s) (request_ctx_stack s) (log s).
Definition set_app_ctx_stack (l : list nat) (s : State) : State :=
  MkState (world s) (exc_info s) (apps s) (app_ctxs s) (next_app_ctx s)
    (req_ctxs s) (next_req_ctx s) l (request_ctx_stack s) (log s).
Definition set_request_ctx_stack (l : list nat) (s : State) : State :=
  MkState (world s) (exc_info s) (apps s) (app_ctxs s) (next_app_ctx s)
    (req_ctxs s) (next_req_ctx s) (app_ctx_stack s) l (log s).
Definition set_log (l : list event) (s : State) : State :=
  MkState (world s) (exc_info s) (apps s) (app_ctxs s) (next_app_ctx s)
    (req_ctxs s) (next_req_ctx s) (app_ctx_stack s) (request_ctx_stack s) l.

(** Field updates of the objects in the store. *)
Definition with_refcnt (n : Z) (c : AppContext) : AppContext :=
  MkAppContext (ac_app c) (ac_url_adapter c) n.
Definition with_request (r : Request) (c : RequestContext) : RequestContext :=
  MkRequestContext (rc_app c) r (rc_url_adapter c) (rc_session c)
    (rc_implicit_app_ctx_stack c) (rc_preserved c) (rc_preserved_exc c)
    (rc_after_request_functions c).
Definition with_session (x : option Session) (c : RequestContext) : RequestContext :=
  MkRequestContext (rc_app c) (rc_request c) (rc_url_adapter c) x
    (rc_implicit_app_ctx_stack c) (rc_preserved c) (rc_preserved_exc c)
    (rc_after_request_functions c).
Definition with_implicit (l : list (option nat)) (c : RequestContext) : RequestContext :=
  MkRequestContext (rc_app c) (rc_request c) (rc_url_adapter c) (rc_session c)
    l (rc_preserved c) (rc_preserved_exc c) (rc_after_request_functions c).
Definition with_preserved (b : bool) (e : option exn) (c : RequestContext)
  : RequestContext :=
  MkRequestContext (rc_app c) (rc_request c) (rc_url_adapter c) (rc_session c)
    (rc_implicit_app_ctx_stack c) b e (rc_after_request_functions c).
Definition with_match (rule : Rule) (args : view_args_t) (r : Request) : Request :=
  MkRequest (environ_preserve_context r) (environ_werkzeug_request r) (path r)
    (method r)
    (Some rule) (Some args) (routing_exception r) (has_close r).
Definition with_view_args (args : option view_args_t) (r : Request) : Request :=
  MkRequest (environ_preserve_context r) (environ_werkzeug_request r) (path r)
    (method r)
    (url_rule r) args (routing_exception r) (has_close r).
Definition with_routing_exception (e : exn) (r : Request) : Request :=
  MkRequest (environ_preserve_context r) (environ_werkzeug_request r) (path r)
    (method r)
    (url_rule r) (view_args r) (Some e) (has_close r).
Definition with_werkzeug_request_cleared (r : Request) : Request :=
  MkRequest (environ_preserve_context r) false (path r) (method r)
    (url_rule r) (view_args r) (routing_exception r) (has_close r).
Definition with_got_first_request (a : App) : App :=
  MkApp (debug a) (testing a) (PROPAGATE_EXCEPTIONS a)
    (PRESERVE_CONTEXT_ON_EXCEPTION a) (TRAP_HTTP_EXCEPTIONS a)
    (TRAP_BAD_REQUEST_ERRORS a) (SERVER_NAME a) true
    (before_first_request_funcs a) (url_value_preprocessors a)
    (before_request_funcs a) (after_request_funcs a) (teardown_request_funcs a)
    (teardown_appcontext_funcs a) (error_handler_spec a) (view_functions a)
    (bind_to_environ a) (url_map_bind a).
Definition with_error_handler_spec
    (sp : gmap (option string) (gmap (option Z) (gmap string (callable exn pyval))))
    (a : App) : App :=
  MkApp (debug a) (testing a) (PROPAGATE_EXCEPTIONS a)
    (PRESERVE_CONTEXT_ON_EXCEPTION a) (TRAP_HTTP_EXCEPTIONS a)
    (TRAP_BAD_REQUEST_ERRORS a) (SERVER_NAME a) (_got_first_request a)
    (before_first_request_funcs a) (url_value_preprocessors a)
    (before_request_funcs a) (after_request_funcs a) (teardown_request_funcs a)
    (teardown_appcontext_funcs a) sp (view_functions a)
    (bind_to_environ a) (url_map_bind a).
Definition with_before_request_funcs (m : scoped (callable unit pyval)) (a : App) : App :=
  MkApp (debug a) (testing a) (PROPAGATE_EXCEPTIONS a)
    (PRESERVE_CONTEXT_ON_EXCEPTION a) (TRAP_HTTP_EXCEPTIONS a)
    (TRAP_BAD_REQUEST_ERRORS a) (SERVER_NAME a) (_got_first_request a)
    (before_first_request_funcs a) (url_value_preprocessors a)
    m (after_request_funcs a) (teardown_request_funcs a)
    (teardown_appcontext_funcs a) (error_handler_spec a) (view_functions a)
    (bind_to_environ a) (url_map_bind a).
Definition with_after_request_funcs (m : scoped (callable Response Response)) (a : App)
  : App :=
  MkApp (debug a) (testing a) (PROPAGATE_EXCEPTIONS a)
    (PRESERVE_CONTEXT_ON_EXCEPTION a) (TRAP_HTTP_EXCEPTIONS a)
    (TRAP_BAD_REQUEST_ERRORS a) (SERVER_NAME a) (_got_first_request a)
    (before_first_request_funcs a) (url_value_preprocessors a)
    (before_request_funcs a) m (teardown_request_funcs a)
    (teardown_appcontext_funcs a) (error_handler_spec a) (view_functions a)
    (bind_to_environ a) (url_map_bind a).

(** ** The monad of methods *)

Definition M (A : Type) : Type := State -> result A * State.

Definition ret {A} (a : A) : M A := fun s => (Ok a, s).
Definition raise {A} (e : exn) : M A := fun s => (Raise e, s).
Definition bind {A B} (m : M A) (k : A -> M B) : M B :=
  fun s =>
    match m s with
    | (Ok a, s1) => k a s1
    | (Raise e, s1) => (Raise e, s1)
    end.

Notation "'let*' x := m 'in' k" := (bind m (fun x => k))
  (at level 10, x name, m at level 100, k at level 200).
Notation "'let*' ' p := m 'in' k" := (bind m (fun x => let 'p := x in k))
  (at level 10, p pattern, m at level 100, k at level 200).

Definition gets {A} (f : State -> A) : M A := fun s => (Ok (f s), s).
Definition modify (f : State -> State) : M unit := fun s => (Ok tt, f s).
Definition of_result {A} (r : result A) : M A := fun s => (r, s).

(** [try: body finally: fin]: [fin] always runs and sees what [body] did;
    an exception of [fin] replaces the one of [body]. *)
Definition try_finally {A B} (body : M A) (fin : result A -> M B) : M (A * B) :=
  fun s =>
    let (r, s1) := body s in
    match fin r s1 with
    | (Raise e, s2) => (Raise e, s2)
    | (Ok b, s2) =>
        match r with
        | Ok a => (Ok (a, b), s2)
        | Raise e => (Raise e, s2)
        end
    end.

(** [try: body except C as e: handler]: inside [handler] the exception
    caught is the one being handled ([sys.exc_info()]); the previous one is
    restored afterwards (Python 3). *)
Definition try_except {A} (body : M A) (catches : exn -> bool) (handler : exn -> M A)
  : M A :=
  fun s =>
    match body s with
    | (Raise e, s1) =>
        if catches e then
          let (r, s2) := handler e (set_exc_info (Some e) s1) in
          (r, set_exc_info (exc_info s1) s2)
        else (Raise e, s1)
    | (Ok a, s1) => (Ok a, s1)
    end.

Definition emit (ev : event) : M unit := modify (fun s => set_log (log s ++ [ev]) s).

(** A collaborator acts on the world only. *)
Definition lift_world {A} (f : World -> result A * World) : M A :=
  fun s => let (r, w) := f (world s) in (r, set_world w s).

Definition call {A B} (k : hook_kind) (f : callable A B) (a : A) : M B :=
  let* _ := emit (EvCall k (fn_name f)) in lift_world (fn_run f a).

Definition send (sg : signal) : M unit :=
  let* _ := emit (EvSignal sg) in lift_world (signal_send X sg).

Definition py_assert (b : bool) (msg : string) : M unit :=
  if b then ret tt else raise (AssertionError msg).

(** [for x in l: f(x)]. *)
Fixpoint for_each {A} (l : list A) (f : A -> M unit) : M unit :=
  match l with
  | [] => ret tt
  | x :: r => let* _ := f x in for_each r f
  end.

(** An [exc] argument that defaults to the module's [_sentinel]. *)
Inductive exc_arg := Sentinel | Given (e : option exn).

Definition resolve_exc (exc : exc_arg) : M (option exn) :=
  match exc with
  | Sentinel => gets exc_info
  | Given e => ret e
  end.

(** [d.get(key, ())] on a scoped registry. *)
Definition scoped_get {A} (d : scoped A) (key : option string) : list A :=
  default [] (d !! key).

(** [chain(funcs, f(d[bp]))] under [if bp is not None and bp in d]. *)
Definition chain_blueprint {A} (funcs : list A) (d : scoped A) (bp : option string)
    (f : list A -> list A) : list A :=
  match bp with
  | Some name =>
      match d !! Some name with
      | Some l => funcs ++ f l
      | None => funcs
      end
  | None => funcs
  end.

(** [_request_ctx_stack.top.request]; attribute access on [None] raises. *)
Definition top_request_context : M (nat * RequestContext) :=
  let* st := gets request_ctx_stack in
  match ls_top st with
  | None => raise (AttributeError "'NoneType' object has no attribute 'request'")
  | Some c => let* ctx := gets (fun s => req_ctxs s c) in ret (c, ctx)
  end.

(** ** [flask/app.py]: configuration properties and URL adapters *)

(** [Flask.propagate_exceptions] (app.py 825-837). *)
Definition propagate_exceptions (a : App) : bool :=
  match PROPAGATE_EXCEPTIONS a with
  | Some rv => rv
  | None => testing a || debug a
  end.

(** [Flask.preserve_context_on_exception] (app.py 839-852). *)
Definition preserve_context_on_exception (a : App) : bool :=
  match PRESERVE_CONTEXT_ON_EXCEPTION a with
  | Some rv => rv
  | None => debug a
  end.

(** [Flask.create_url_adapter] (app.py 2788-2832). *)
Definition create_url_adapter (app : nat) (request : option Request)
  : M (option Adapter) :=
  let* a := gets (fun s => apps s app) in
  match request with
  | Some r => let* ad := of_result (bind_to_environ a r) in ret (Some ad)
  | None =>
      match SERVER_NAME a with
      | Some name => let* ad := of_result (url_map_bind a name) in ret (Some ad)
      | None => ret None
      end
  end.

(** ** [flask/app.py]: teardown *)

(** [Flask.do_teardown_request] (app.py 2944-2983). *)
Definition do_teardown_request (app : nat) (exc : exc_arg) : M unit :=
  let* exc := resolve_exc exc in
  let* a := gets (fun s => apps s app) in
  let funcs := rev (scoped_get (teardown_request_funcs a) None) in
  let* '(_, top) := top_request_context in
  let bp := blueprint (rc_request top) in
  let funcs := chain_blueprint funcs (teardown_request_funcs a) bp (@rev _) in
  let* _ := for_each funcs
              (fun f => let* _ := call TeardownRequest f exc in ret tt) in
  send request_tearing_down.

(** [Flask.do_teardown_appcontext] (app.py 2985-3013). *)
Definition do_teardown_appcontext (app : nat) (exc : exc_arg) : M unit :=
  let* exc := resolve_exc exc in
  let* a := gets (fun s => apps s app) in
  let* _ := for_each (rev (teardown_appcontext_funcs a))
              (fun f => let* _ := call TeardownAppcontext f exc in ret tt) in
  send appcontext_tearing_down.

(** ** [flask/ctx.py]: [AppContext] *)

(** [Flask.app_context] and [AppContext.__init__] (app.py 3015-3042,
    ctx.py 256-264): a new context with reference count 0. *)
Definition app_context (app : nat) : M nat :=
  let* ad := create_url_adapter app None in
  let* i := gets next_app_ctx in
  let* _ := modify (fun s =>
              set_next_app_ctx (S i) (set_app_ctx i (MkAppContext app ad 0) s)) in
  ret i.

(** [AppContext.push] (ctx.py 266-274). *)
Definition AppContext_push (self : nat) : M unit :=
  let* _ := modify (fun s =>
              set_app_ctx self
                (with_refcnt (ac_refcnt (app_ctxs s self) + 1) (app_ctxs s self)) s) in
  let* _ := modify (fun s => set_app_ctx_stack (ls_push self (app_ctx_stack s)) s) in
  send appcontext_pushed.

(** [rv = stack.pop()] on one of the two context stacks. *)
Definition pop_app_ctx_stack : M (option nat) :=
  fun s => let (rv, st) := ls_pop (app_ctx_stack s) in (Ok rv, set_app_ctx_stack st s).
Definition pop_request_ctx_stack : M (option nat) :=
  fun s =>
    let (rv, st) := ls_pop (request_ctx_stack s) in (Ok rv, set_request_ctx_stack st s).

(** [AppContext.pop] (ctx.py 276-289). *)
Definition AppContext_pop (self : nat) (exc : exc_arg) : M unit :=
  let* '(_, rv) :=
    try_finally
      (let* _ := modify (fun s =>
                   set_app_ctx self
                     (with_refcnt (ac_refcnt (app_ctxs s self) - 1) (app_ctxs s self)) s) in
       let* c := gets (fun s => app_ctxs s self) in
       if ac_refcnt c <=? 0 then
         let* exc := resolve_exc exc in
         let* _ := emit (EvAppTeardown self exc) in
         do_teardown_appcontext (ac_app c) (Given exc)
       else ret tt)
      (fun _ => pop_app_ctx_stack) in
  let* _ := py_assert (bool_decide (rv = Some self)) "Popped wrong app context." in
  send appcontext_popped.

(** ** [flask/ctx.py]: [RequestContext] *)

Definition is_http_exception (e : exn) : bool := isinstance_exn e "HTTPException".

(** [RequestContext.__init__] (ctx.py 351-391); [request] is the request
    object given or built from the environment by [app.request_class]. *)
Definition RequestContext_init (app : nat) (request : Request) (session : option Session)
  : M nat :=
  let* '(ad, request) :=
    try_except
      (let* ad := create_url_adapter app (Some request) in ret (ad, request))
      is_http_exception
      (fun e => ret (None, with_routing_exception e request)) in
  let* i := gets next_req_ctx in
  let* _ := modify (fun s =>
              set_next_req_ctx (S i)
                (set_req_ctx i (MkRequestContext app request ad session [] false None []) s)) in
  ret i.

(** [RequestContext.match_request] (ctx.py 425-434). *)
Definition match_request (self : nat) : M unit :=
  try_except
    (let* ctx := gets (fun s => req_ctxs s self) in
     match rc_url_adapter ctx with
     | None => raise (AttributeError "'NoneType' object has no attribute 'match'")
     | Some adapter =>
         let* '(rule, args) := lift_world adapter in
         modify (fun s =>
           set_req_ctx self
             (with_request (with_match rule args (rc_request (req_ctxs s self)))
                (req_ctxs s self)) s)
     end)
    is_http_exception
    (fun e =>
       modify (fun s =>
         set_req_ctx self
           (with_request (with_routing_exception e (rc_request (req_ctxs s self)))
              (req_ctxs s self)) s)).

(** [RequestContext.pop] (ctx.py 491-543).  The error handed on to the
    application context in the [finally] block is the one resolved in the
    [try] block when this is the last level; nothing in the [try] block can
    raise before it is resolved, so it is computed first. *)
Definition RequestContext_pop (self : nat) (exc : exc_arg) : M unit :=
  let* ctx := gets (fun s => req_ctxs s self) in
  match py_pop (rc_implicit_app_ctx_stack ctx) with
  | None => raise (IndexError "pop from empty list")
  | Some (app_ctx, rest) =>
      let* _ := modify (fun s =>
                  set_req_ctx self (with_implicit rest (req_ctxs s self)) s) in
      let last := match rest with [] => true | _ => false end in
      let* exc := if last then (let* e := resolve_exc exc in ret (Given e))
                  else ret exc in
      let* _ :=
        try_finally
          (if last then
             let* _ := modify (fun s =>
                         set_req_ctx self (with_preserved false None (req_ctxs s self)) s) in
             let* e := resolve_exc exc in
             let* _ := emit (EvRequestTeardown self e) in
             let* _ := do_teardown_request (rc_app ctx) (Given e) in
             let* c := gets (fun s => req_ctxs s self) in
             let* _ := if has_close (rc_request c)
                       then let* _ := emit (EvRequestClose self) in
                            lift_world (request_close X)
                       else ret tt in
             ret true
           else ret false)
          (fun r =>
             let clear_request := match r with Ok b => b | Raise _ => false end in
             let* rv := pop_request_ctx_stack in
             let* _ :=
               if clear_request then
                 match rv with
                 | None =>
                     raise (AttributeError "'NoneType' object has no attribute 'request'")
                 | Some c =>
                     modify (fun s =>
                       set_req_ctx c
                         (with_request
                            (with_werkzeug_request_cleared (rc_request (req_ctxs s c)))
                            (req_ctxs s c)) s)
                 end
               else ret tt in
             let* _ := match app_ctx with
                       | Some a => AppContext_pop a exc
                       | None => ret tt
                       end in
             py_assert (bool_decide (rv = Some self)) "Popped wrong request context.") in
      ret tt
  end.

(** [RequestContext.push] (ctx.py 436-489). *)
Definition RequestContext_push (self : nat) : M unit :=
  let* st := gets request_ctx_stack in
  let* _ := match ls_top st with
            | Some top =>
                let* t := gets (fun s => req_ctxs s top) in
                if rc_preserved t
                then RequestContext_pop top (Given (rc_preserved_exc t))
                else ret tt
            | None => ret tt
            end in
  let* ctx := gets (fun s => req_ctxs s self) in
  let* ast := gets app_ctx_stack in
  let* same_app := match ls_top ast with
                   | None => ret false
                   | Some a =>
                       let* ac := gets (fun s => app_ctxs s a) in
                       ret (Nat.eqb (ac_app ac) (rc_app ctx))
                   end in
  let* _ :=
    if same_app then
      modify (fun s =>
        set_req_ctx self
          (with_implicit
             (py_append (rc_implicit_app_ctx_stack (req_ctxs s self)) None)
             (req_ctxs s self)) s)
    else
      let* a := app_context (rc_app ctx) in
      let* _ := AppContext_push a in
      modify (fun s =>
        set_req_ctx self
          (with_implicit
             (py_append (rc_implicit_app_ctx_stack (req_ctxs s self)) (Some a))
             (req_ctxs s self)) s) in
  let* _ := modify (fun s =>
              set_request_ctx_stack (ls_push self (request_ctx_stack s)) s) in
  let* ctx := gets (fun s => req_ctxs s self) in
  let* _ := match rc_session ctx with
            | None =>
                let* o := lift_world (open_session X) in
                let sess := match o with
                            | Some x => x
                            | None => make_null_session X
                            end in
                modify (fun s =>
                  set_req_ctx self (with_session (Some sess) (req_ctxs s self)) s)
            | Some _ => ret tt
            end in
  let* ctx := gets (fun s => req_ctxs s self) in
  match rc_url_adapter ctx with
  | Some _ => match_request self
  | None => ret tt
  end.

(** [RequestContext.auto_pop] (ctx.py 545-552). *)
Definition auto_pop (self : nat) (exc : option exn) : M unit :=
  let* ctx := gets (fun s => req_ctxs s self) in
  let* a := gets (fun s => apps s (rc_app ctx)) in
  if environ_preserve_context (rc_request ctx)
     || (bool_decide (is_Some exc) && preserve_context_on_exception a)
  then modify (fun s =>
         set_req_ctx self (with_preserved true exc (req_ctxs s self)) s)
  else RequestContext_pop self (Given exc).

(** ** [flask/app.py]: registration *)

Definition setup_msg : string :=
  "A setup function was called after the first request was handled.".

(** The [setupmethod] decorator (app.py 84-104). *)
Definition setupmethod {A} (app : nat) (body : M A) : M A :=
  let* a := gets (fun s => apps s app) in
  if debug a && _got_first_request a then raise (AssertionError setup_msg)
  else body.

(** [d.setdefault(key, []).append(f)]. *)
Definition setdefault_append {A} (d : scoped A) (key : option string) (f : A)
  : scoped A :=
  <[key := py_append (scoped_get d key) f]> d.

(** [Flask.before_request] (app.py 1977-1996) with [key = None];
    the function recorded by [Blueprint.before_request] (blueprints.py
    515-526) with [key = Some name]. *)
Definition before_request (app : nat) (key : option string) (f : callable unit pyval)
  : M unit :=
  setupmethod app
    (modify (fun s =>
       set_app app
         (with_before_request_funcs
            (setdefault_append (before_request_funcs (apps s app)) key f)
            (apps s app)) s)).

(** [Flask.after_request] (app.py 2015-2034) with [key = None];
    the function recorded by [Blueprint.after_request] (blueprints.py
    547-558) with [key = Some name]. *)
Definition after_request (app : nat) (key : option string)
    (f : callable Response Response) : M unit :=
  setupmethod app
    (modify (fun s =>
       set_app app
         (with_after_request_funcs
            (setdefault_append (after_request_funcs (apps s app)) key f)
            (apps s app)) s)).

(** The argument of [errorhandler]: a status code, an exception class or,
    by mistake, an exception instance. *)
Inductive code_or_exception :=
  ByCode (n : Z) | ByClass (c : pyclass) | ByInstance (e : exn).

(** [Flask._get_exc_class_and_code] (app.py 1745-1768).  [issubclass] of an
    object that is not a class raises [TypeError]. *)
Definition _get_exc_class_and_code (x : code_or_exception)
  : result (pyclass * option Z) :=
  match
    match x with
    | ByCode n =>
        match default_exceptions X n with
        | Some c => Ok c
        | None => Raise (KeyError "")
        end
    | ByClass c => Ok c
    | ByInstance _ => Raise (TypeError "issubclass() arg 1 must be a class")
    end
  with
  | Raise e => Raise e
  | Ok exc_class =>
      if issubclass exc_class "Exception" then
        if issubclass exc_class "HTTPException"
        then Ok (exc_class, cls_code exc_class)
        else Ok (exc_class, None)
      else Raise (AssertionError "")
  end.

Abbreviation handler_t := (callable exn pyval).
Abbreviation handler_spec_t :=
  (gmap (option string) (gmap (option Z) (gmap string handler_t))).

(** [spec.setdefault(key, {}).setdefault(code, {})[exc_class] = f]. *)
Definition spec_insert (sp : handler_spec_t) (key : option string) (code : option Z)
    (exc_class : pyclass) (f : handler_t) : handler_spec_t :=
  let scope := default ∅ (sp !! key) in
  let handlers := default ∅ (scope !! code) in
  <[key := <[code := <[cls_name exc_class := f]> handlers]> scope]> sp.

(** [Flask._register_error_handler] (app.py 1826-1854) ([key = None] for
    the application, the blueprint's name for [Blueprint.errorhandler]).
    The message of the [ValueError] is the source's without the [repr] of
    the instance. *)
Definition _register_error_handler (app : nat) (key : option string)
    (x : code_or_exception) (f : handler_t) : M unit :=
  setupmethod app
    (let* _ :=
       match x with
       | ByInstance e =>
           if isinstance_exn e "HTTPException"
           then raise (ValueError
                         ("Tried to register a handler for an exception instance."
                          +:+ " Handlers can only be registered for exception classes or"
                          +:+ " HTTP error codes."))
           else ret tt
       | _ => ret tt
       end in
     let* '(exc_class, code) :=
       try_except (of_result (_get_exc_class_and_code x))
         (fun e => isinstance_exn e "KeyError")
         (fun _ => raise (KeyError "not a recognized HTTP error code")) in
     modify (fun s =>
       set_app app
         (with_error_handler_spec
            (spec_insert (error_handler_spec (apps s app)) key code exc_class f)
            (apps s app)) s)).

(** ** [flask/app.py]: error handlers *)

(** Modelled from the spec: [flask/globals.py] is not among the sources.
    The [request] proxy is the request of the context on top of the request
    stack ("exactly one RequestContext may be active (top of stack)"); used
    outside of a request context it raises [RuntimeError]. *)
Definition current_request : M Request :=
  let* st := gets request_ctx_stack in
  match ls_top st with
  | None => raise (RuntimeError "Working outside of request context.")
  | Some c => gets (fun s => rc_request (req_ctxs s c))
  end.

(** [for cls in exc_class.__mro__: handler = handler_map.get(cls) ...]. *)
Fixpoint find_in_mro (handler_map : gmap string handler_t) (mro : list string)
  : option handler_t :=
  match mro with
  | [] => None
  | cls :: rest =>
      match handler_map !! cls with
      | Some h => Some h
      | None => find_in_mro handler_map rest
      end
  end.

(** The loop of [_find_error_handler] over the [(name, c)] pairs. *)
Fixpoint find_handler_loop (app : nat) (exc_class : pyclass)
    (keys : list (option string * option Z)) : M (option handler_t) :=
  match keys with
  | [] => ret None
  | (name, c) :: rest =>
      let* a := gets (fun s => apps s app) in
      let scope := default ∅ (error_handler_spec a !! name) in
      let* _ := modify (fun s =>
                  set_app app
                    (with_error_handler_spec
                       (<[name := scope]> (error_handler_spec (apps s app)))
                       (apps s app)) s) in
      match scope !! c with
      | None => find_handler_loop app exc_class rest
      | Some handler_map =>
          if Nat.eqb (size handler_map) 0 then find_handler_loop app exc_class rest
          else
            match find_in_mro handler_map (cls_mro exc_class) with
            | Some h => ret (Some h)
            | None => find_handler_loop app exc_class rest
            end
      end
  end.

(** [Flask._find_error_handler] (app.py 2197-2224). *)
Definition _find_error_handler (app : nat) (e : exn) : M (option handler_t) :=
  let* '(exc_class, code) :=
    of_result (_get_exc_class_and_code (ByClass (exn_class e))) in
  let* req := current_request in
  let bp := blueprint req in
  find_handler_loop app exc_class [(bp, code); (None, code); (bp, None); (None, None)].

(** [Flask.handle_http_exception] (app.py 2226-2264). *)
Definition handle_http_exception (app : nat) (e : exn) : M pyval :=
  match cls_code (exn_class e) with
  | None => ret (VExc e)
  | Some _ =>
      if isinstance_exn e "RoutingException" then ret (VExc e)
      else
        let* handler := _find_error_handler app e in
        match handler with
        | None => ret (VExc e)
        | Some h => call ErrorHandler h e
        end
  end.

(** [Flask.trap_http_exception] (app.py 2266-2308). *)
Definition trap_http_exception (a : App) (e : exn) : bool :=
  if TRAP_HTTP_EXCEPTIONS a then true
  else
    let trap_bad_request := TRAP_BAD_REQUEST_ERRORS a in
    if bool_decide (trap_bad_request = None) && debug a
       && isinstance_exn e "BadRequestKeyError"
    then true
    else if bool_decide (trap_bad_request = Some true)
    then isinstance_exn e "BadRequest"
    else false.

Definition pyclass_eqb (a b : pyclass) : bool :=
  bool_decide (cls_name a = cls_name b) && bool_decide (cls_mro a = cls_mro b)
  && bool_decide (cls_code a = cls_code b).

(** [a is b] on exceptions, as equality of what the model keeps of them. *)
Fixpoint exn_is (a b : exn) : bool :=
  match a, b with
  | Exn c1 m1 o1, Exn c2 m2 o2 =>
      pyclass_eqb c1 c2 && bool_decide (m1 = m2)
      && match o1, o2 with
         | Some x, Some y => exn_is x y
         | None, None => true
         | _, _ => false
         end
  end.

(** [Flask.handle_user_exception] (app.py 2310-2363).  The block that
    rewrites the description of a [BadRequestKeyError] changes no control
    flow and is left out. *)
Definition handle_user_exception (app : nat) (e : exn) : M pyval :=
  let* exc_value := gets exc_info in
  let* _ := py_assert (match exc_value with
                       | Some v => exn_is v e
                       | None => false
                       end) "" in
  let* a := gets (fun s => apps s app) in
  if isinstance_exn e "HTTPException" && negb (trap_http_exception a e)
  then handle_http_exception app e
  else
    let* handler := _find_error_handler app e in
    match handler with
    | None => raise e
    | Some h => call ErrorHandler h e
    end.

(** ** [flask/app.py]: the dispatcher *)

(** The loop over the URL value preprocessors in [preprocess_request]; a
    preprocessor changes [request.view_args] in place. *)
Definition run_url_value_preprocessors
    (funcs : list (callable (option string * option view_args_t) (option view_args_t)))
  : M unit :=
  for_each funcs (fun f =>
    let* st := gets request_ctx_stack in
    let* req := current_request in
    let* args := call UrlValuePreprocessor f
                   (option_map endpoint (url_rule req), view_args req) in
    match ls_top st with
    | Some c =>
        modify (fun s =>
          set_req_ctx c
            (with_request (with_view_args args (rc_request (req_ctxs s c)))
               (req_ctxs s c)) s)
    | None => ret tt
    end).

(** The loop over the before-request functions: the first value that is
    not [None] is returned. *)
Fixpoint run_before_request_funcs (funcs : list (callable unit pyval)) : M pyval :=
  match funcs with
  | [] => ret VNone
  | f :: rest =>
      let* rv := call BeforeRequest f tt in
      match rv with
      | VNone => run_before_request_funcs rest
      | _ => ret rv
      end
  end.

(** [Flask.preprocess_request] (app.py 2877-2908). *)
Definition preprocess_request (app : nat) : M pyval :=
  let* '(_, top) := top_request_context in
  let bp := blueprint (rc_request top) in
  let* a := gets (fun s => apps s app) in
  let funcs := scoped_get (url_value_preprocessors a) None in
  let funcs := chain_blueprint funcs (url_value_preprocessors a) bp id in
  let* _ := run_url_value_preprocessors funcs in
  let* a := gets (fun s => apps s app) in
  let funcs := scoped_get (before_request_funcs a) None in
  let funcs := chain_blueprint funcs (before_request_funcs a) bp id in
  run_before_request_funcs funcs.

(** [for handler in funcs: response = handler(response)]. *)
Fixpoint run_after_request_funcs (funcs : list (callable Response Response))
    (response : Response) : M Response :=
  match funcs with
  | [] => ret response
  | f :: rest =>
      let* response := call AfterRequest f response in
      run_after_request_funcs rest response
  end.

(** [Flask.process_response] (app.py 2910-2942). *)
Definition process_response (app : nat) (response : Response) : M Response :=
  let* '(_, ctx) := top_request_context in
  let bp := blueprint (rc_request ctx) in
  let* a := gets (fun s => apps s app) in
  let funcs := rc_after_request_functions ctx in
  let funcs := chain_blueprint funcs (after_request_funcs a) bp (@rev _) in
  let funcs := match after_request_funcs a !! None with
               | Some l => (funcs ++ rev l)%list
               | None => funcs
               end in
  let* response := run_after_request_funcs funcs response in
  let* _ := match rc_session ctx with
            | Some sess =>
                if negb (is_null_session X sess)
                then lift_world (save_session X sess response)
                else ret tt
            | None => raise (AttributeError "'NoneType' object has no attribute 'modified'")
            end in
  ret response.

Definition is_exception (e : exn) : bool := isinstance_exn e "Exception".

Definition finalize_failed_msg : string :=
  "Request finalizing failed with an error while handling an error".

(** [Flask.finalize_request] (app.py 2538-2567).  The [try] block has two
    statements; the [except] clause is the same for both and returns the
    value that [response] has when the exception is raised. *)
Definition finalize_request (app : nat) (rv : pyval) (from_error_handler : bool)
  : M Response :=
  let* response := of_result (make_response rv) in
  let on_exception (response : Response) (e : exn) : M Response :=
    if from_error_handler
    then let* _ := emit (EvLog finalize_failed_msg) in ret response
    else raise e in
  let* r :=
    try_except
      (let* r := process_response app response in ret (inl r))
      is_exception
      (fun e => let* r := on_exception response e in ret (inr r)) in
  match r with
  | inl response =>
      try_except (let* _ := send request_finished in ret response)
        is_exception (on_exception response)
  | inr response => ret response
  end.

(** [Flask.log_exception] (app.py 2448-2461). *)
Definition log_exception (app : nat) : M unit :=
  let* req := current_request in
  emit (EvLog ("Exception on " +:+ path req +:+ " [" +:+ method req +:+ "]")).

(** [Flask.handle_exception] (app.py 2365-2446). *)
Definition handle_exception (app : nat) (e : exn) : M Response :=
  let* _ := send got_request_exception in
  let* a := gets (fun s => apps s app) in
  if propagate_exceptions a then raise e
  else
    let* _ := log_exception app in
    let server_error := Exn InternalServerError_cls "" (Some e) in
    let* handler := _find_error_handler app server_error in
    let* rv := match handler with
               | Some h => call ErrorHandler h server_error
               | None => ret (VExc server_error)
               end in
    finalize_request app rv true.

Definition FormDataRoutingRedirect_cls : pyclass :=
  PyClass "FormDataRoutingRedirect"
    ["FormDataRoutingRedirect"; "AssertionError"; "Exception"; "BaseException"; "object"]
    None.

(** [Flask.raise_routing_exception] (app.py 2463-2483). *)
Definition raise_routing_exception {A} (a : App) (req : Request) (e : exn) : M A :=
  if negb (debug a) || negb (isinstance_exn e "RequestRedirect")
     || bool_decide (method req ∈ ["GET"; "HEAD"; "OPTIONS"])
  then raise e
  else raise (Exn FormDataRoutingRedirect_cls "" None).

(** [Flask.dispatch_request] (app.py 2485-2517). *)
Definition dispatch_request (app : nat) : M pyval :=
  let* '(_, top) := top_request_context in
  let req := rc_request top in
  let* a := gets (fun s => apps s app) in
  match routing_exception req with
  | Some e => raise_routing_exception a req e
  | None =>
      match url_rule req with
      | None => raise (AttributeError "'NoneType' object has no attribute 'endpoint'")
      | Some rule =>
          if provide_automatic_options rule && bool_decide (method req = "OPTIONS")
          then let* r := lift_world (default_options_response X) in ret (VResponse r)
          else
            match view_functions a !! endpoint rule with
            | None => raise (KeyError (endpoint rule))
            | Some view =>
                match view_args req with
                | None => raise (TypeError "argument after ** must be a mapping, not NoneType")
                | Some args => call ViewFunction view args
                end
            end
      end
  end.

(** [Flask.try_trigger_before_first_request_functions] (app.py 2569-2586);
    the lock orders threads and is not modelled. *)
Definition try_trigger_before_first_request_functions (app : nat) : M unit :=
  let* a := gets (fun s => apps s app) in
  if _got_first_request a then ret tt
  else
    let* _ := for_each (before_first_request_funcs a)
                (fun f => let* _ := call BeforeFirstRequest f tt in ret tt) in
    modify (fun s => set_app app (with_got_first_request (apps s app)) s).

(** [Flask.full_dispatch_request] (app.py 2519-2536). *)
Definition full_dispatch_request (app : nat) : M Response :=
  let* _ := try_trigger_before_first_request_functions app in
  let* rv :=
    try_except
      (let* _ := send request_started in
       let* rv := preprocess_request app in
       match rv with
       | VNone => dispatch_request app
       | _ => ret rv
       end)
      is_exception
      (handle_user_exception app) in
  finalize_request app rv false.

End Model.

Arguments Callable {World A B} fn_name fn_run.
Arguments fn_name {World A B} c.
Arguments fn_run {World A B} c a w.

#[global] Instance hook_kind_eq_dec : EqDecision hook_kind.
Proof. solve_decision. Defined.

(** ** Observations on the trace *)

Definition is_request_teardown (c : nat) (ev : event) : bool :=
  match ev with
  | EvRequestTeardown c' _ => Nat.eqb c' c
  | _ => false
  end.

Definition is_app_teardown (a : nat) (ev : event) : bool :=
  match ev with
  | EvAppTeardown a' _ => Nat.eqb a' a
  | _ => false
  end.

(** Events other than the two teardown markers. *)
Definition quiet (ev : event) : bool :=
  match ev with
  | EvRequestTeardown _ _ | EvAppTeardown _ _ => false
  | _ => true
  end.

Fixpoint count_events (p : event -> bool) (l : list event) : nat :=
  match l with
  | [] => 0%nat
  | ev :: r => ((if p ev then 1 else 0) + count_events p r)%nat
  end.

(** The names of the callables of kind [k] called, in order. *)
Fixpoint calls_of (ks : list hook_kind) (l : list event) : list (hook_kind * string) :=
  match l with
  | [] => []
  | EvCall k name :: r =>
      if bool_decide (k ∈ ks) then (k, name) :: calls_of ks r else calls_of ks r
  | _ :: r => calls_of ks r
  end.

(** The state a method leaves, whether it returns or raises. *)
Definition exec {World Response Session A}
    (m : @M World Response Session A) (s : State) : State := snd (m s).


(** [contains sub s]: [sub in s]. *)
Fixpoint contains (sub s : string) : bool :=
  String.prefix sub s ||
  match s with
  | EmptyString => false
  | String _ r => contains sub r
  end.

(** Return values that response coercion rejects: [None], a pair or triple
    with body [None], a tuple of any other length. *)
Inductive rejected_return {Response} : @pyval Response -> Prop :=
| rejected_none : rejected_return VNone
| rejected_body_none2 x : rejected_return (VTuple [VNone; x])
| rejected_body_none3 x y : rejected_return (VTuple [VNone; x; y])
| rejected_arity items :
    length items <> 2%nat -> length items <> 3%nat -> rejected_return (VTuple items).

(** * The rest of the request lifecycle

    The context managers and helpers of [flask/ctx.py], the WSGI entry point
    and the remaining registration methods of [flask/app.py]. *)

Section Lifecycle.
Context {World Response Session : Type}.
Variable X : @externals World Response Session.

Abbreviation pyval := (@pyval Response).
Abbreviation State := (@State World Response Session).
Abbreviation M := (@M World Response Session).
Abbreviation callable := (@callable World).
Abbreviation App := (@App World Response).
Abbreviation Request := (@Request Response).
Abbreviation RequestContext := (@RequestContext World Response Session).

(** ** [flask/ctx.py]: helpers *)

(** [has_request_context] (ctx.py 194-227). *)
Definition has_request_context : M bool :=
  bind (gets request_ctx_stack) (fun st => ret (bool_decide (is_Some (ls_top st)))).

(** [has_app_context] (ctx.py 230-240). *)
Definition has_app_context : M bool :=
  bind (gets app_ctx_stack) (fun st => ret (bool_decide (is_Some (ls_top st)))).

Definition with_after_request_functions (l : list (callable Response Response))
    (c : RequestContext) : RequestContext :=
  MkRequestContext (rc_app c) (rc_request c) (rc_url_adapter c) (rc_session c)
    (rc_implicit_app_ctx_stack c) (rc_preserved c) (rc_preserved_exc c) l.

(** [after_this_request] (ctx.py 119-147). *)
Definition after_this_request (f : callable Response Response)
  : M (callable Response Response) :=
  bind (gets request_ctx_stack) (fun st =>
    match ls_top st with
    | None =>
        raise (AttributeError
                 "'NoneType' object has no attribute '_after_request_functions'")
    | Some c =>
        bind (modify (fun s =>
                set_req_ctx c
                  (with_after_request_functions
                     (py_append (rc_after_request_functions (req_ctxs s c)) f)
                     (req_ctxs s c)) s)) (fun _ =>
        ret f)
    end).

(** ** Context managers *)

(** [BROKEN_PYPY_CTXMGR_EXIT] of [flask/_compat.py]: whether the
    interpreter is a PyPy that loses the exception of a [with] block. *)
Variable BROKEN_PYPY_CTXMGR_EXIT : bool.

(** [with cm: body], where [enter] and [leave] are [cm.__enter__] and
    [cm.__exit__] and [__exit__] returns [None]: the exception that [body]
    raises, if any, is handed to [leave], is the exception being handled
    while [leave] runs, and is raised again afterwards; an exception of
    [leave] replaces it. *)
Definition with_stmt {A} (enter : M unit) (leave : option exn -> M unit) (body : M A)
  : M A :=
  bind enter (fun _ s =>
    match body s with
    | (Ok a, s1) =>
        match leave None s1 with
        | (Ok _, s2) => (Ok a, s2)
        | (Raise e, s2) => (Raise e, s2)
        end
    | (Raise e, s1) =>
        match leave (Some e) (set_exc_info (Some e) s1) with
        | (Ok _, s2) => (Raise e, set_exc_info (exc_info s1) s2)
        | (Raise e', s2) => (Raise e', set_exc_info (exc_info s1) s2)
        end
    end).

(** [reraise(exc_type, exc_value, tb)] under
    [if BROKEN_PYPY_CTXMGR_EXIT and exc_type is not None]. *)
Definition reraise_if_broken (exc_value : option exn) : M unit :=
  match exc_value with
  | Some e => if BROKEN_PYPY_CTXMGR_EXIT then raise e else ret tt
  | None => ret tt
  end.

(** [AppContext.__enter__] and [AppContext.__exit__] (ctx.py 291-299). *)
Definition AppContext_enter (self : nat) : M unit := AppContext_push X self.

Definition AppContext_exit (self : nat) (exc_value : option exn) : M unit :=
  bind (AppContext_pop X self (Given exc_value)) (fun _ =>
  reraise_if_broken exc_value).

(** [RequestContext.__enter__] and [RequestContext.__exit__]
    (ctx.py 554-570). *)
Definition RequestContext_enter (self : nat) : M unit := RequestContext_push X self.

Definition RequestContext_exit (self : nat) (exc_value : option exn) : M unit :=
  bind (auto_pop X self exc_value) (fun _ =>
  reraise_if_broken exc_value).

(** [with app_ctx: body] and [with request_ctx: body]. *)
Definition with_app_context {A} (self : nat) (body : M A) : M A :=
  with_stmt (AppContext_enter self) (AppContext_exit self) body.

Definition with_request_context {A} (self : nat) (body : M A) : M A :=
  with_stmt (RequestContext_enter self) (RequestContext_exit self) body.

(** ** [flask/app.py]: the WSGI entry point *)



(** What calling the response object as a WSGI application gives:
    [response(environ, start_response)]. *)
Context {Body : Type}.
Variable respond : Response -> World -> result Body * World.


(** ** [flask/app.py]: the remaining registrations *)

Definition with_teardown_request_funcs
    (m : gmap (option string) (list (callable (option exn) pyval))) (a : App) : App :=
  MkApp (debug a) (testing a) (PROPAGATE_EXCEPTIONS a)
    (PRESERVE_CONTEXT_ON_EXCEPTION a) (TRAP_HTTP_EXCEPTIONS a)
    (TRAP_BAD_REQUEST_ERRORS a) (SERVER_NAME a) (_got_first_request a)
    (before_first_request_funcs a) (url_value_preprocessors a)
    (before_request_funcs a) (after_request_funcs a) m
    (teardown_appcontext_funcs a) (error_handler_spec a) (view_functions a)
    (bind_to_environ a) (url_map_bind a).


(** [Flask.teardown_request] (app.py 2036-2092). *)
Definition teardown_request (app : nat) (f : callable (option exn) pyval) : M unit :=
  setupmethod app
    (modify (fun s =>
       set_app app
         (with_teardown_request_funcs
            (setdefault_append (teardown_request_funcs (apps s app)) None f)
            (apps s app)) s)).


End Lifecycle.

(** * URL building hooks and the namespace object *)

Section Url_building.
Context {World Response Session : Type}.

Abbreviation pyval := (@pyval Response).
Abbreviation State := (@State World Response Session).
Abbreviation M := (@M World Response Session).
Abbreviation callable := (@callable World).
Abbreviation view_args_t := (@view_args_t Response).

(** [for func in funcs: func(endpoint, values)]; a function changes the
    dictionary [values] in place. *)
Fixpoint run_url_default_functions
    (funcs : list (callable (string * view_args_t) view_args_t))
    (endpoint : string) (values : view_args_t) : M view_args_t :=
  match funcs with
  | [] => ret values
  | func :: rest =>
      bind (lift_world (fn_run func (endpoint, values))) (fun values =>
      run_url_default_functions rest endpoint values)
  end.

(** [Flask.inject_url_defaults] (app.py 2834-2849); [url_default_functions]
    is the attribute of that name. *)
Definition inject_url_defaults
    (url_default_functions :
       gmap (option string) (list (callable (string * view_args_t) view_args_t)))
    (endpoint : string) (values : view_args_t) : M view_args_t :=
  let funcs := scoped_get url_default_functions None in
  let funcs :=
    match rsplit_dot endpoint with
    | Some bp => funcs ++ scoped_get url_default_functions (Some bp)
    | None => funcs
    end in
  run_url_default_functions funcs endpoint values.

(** [Flask.handle_url_build_error] (app.py 2851-2875), over the list
    [url_build_error_handlers].  After the loop both branches of the [if]
    raise [error]. *)
Fixpoint handle_url_build_error
    (url_build_error_handlers : list (callable (exn * string * view_args_t) pyval))
    (error : exn) (endpoint : string) (values : view_args_t) : M pyval :=
  match url_build_error_handlers with
  | [] => raise error
  | handler :: rest =>
      fun s =>
        match lift_world (fn_run handler (error, endpoint, values)) s with
        | (Ok rv, s1) =>
            match rv with
            | VNone => handle_url_build_error rest error endpoint values s1
            | _ => (Ok rv, s1)
            end
        | (Raise e, s1) =>
            if isinstance_exn e "BuildError"
            then handle_url_build_error rest e endpoint values s1
            else (Raise e, s1)
        end
  end.

End Url_building.

(** ** [_AppCtxGlobals] (ctx.py 31-116)

    The namespace object behind [g].  Its [__dict__] is a Python
    dictionary: the names are unique and keep the order in which they were
    first set. *)

Section AppCtxGlobals.
Context {V : Type}.

Fixpoint dict_get (d : list (string * V)) (name : string) : option V :=
  match d with
  | [] => None
  | (k, v) :: rest => if String.eqb k name then Some v else dict_get rest name
  end.

Fixpoint dict_del (d : list (string * V)) (name : string) : list (string * V) :=
  match d with
  | [] => []
  | (k, v) :: rest => if String.eqb k name then rest else (k, v) :: dict_del rest name
  end.

(** [_AppCtxGlobals.get] (ctx.py 55-68). *)
Definition _AppCtxGlobals_get (g : list (string * V)) (name : string) (default : V) : V :=
  match dict_get g name with
  | Some v => v
  | None => default
  end.

(** [_AppCtxGlobals.pop] (ctx.py 70-86); [default] is [None] for the
    sentinel.  Returns what the call returns and the object afterwards. *)
Definition _AppCtxGlobals_pop (g : list (string * V)) (name : string)
    (default : option V) : result V * list (string * V) :=
  match dict_get g name with
  | Some v => (Ok v, dict_del g name)
  | None =>
      match default with
      | Some v => (Ok v, g)
      | None => (Raise (KeyError name), g)
      end
  end.

(** [_AppCtxGlobals.setdefault] (ctx.py 88-104). *)
Definition _AppCtxGlobals_setdefault (g : list (string * V)) (name : string)
    (default : V) : V * list (string * V) :=
  match dict_get g name with
  | Some v => (v, g)
  | None => (default, g ++ [(name, default)])
  end.

(** [_AppCtxGlobals.__contains__] (ctx.py 106-107). *)
Definition _AppCtxGlobals_contains (g : list (string * V)) (item : string) : bool :=
  bool_decide (is_Some (dict_get g item)).

(** [_AppCtxGlobals.__iter__] (ctx.py 109-110). *)
Definition _AppCtxGlobals_iter (g : list (string * V)) : list string := map fst g.

(** The names of a dictionary are unique. *)
Definition names_unique (g : list (string * V)) : Prop := NoDup (map fst g).

End AppCtxGlobals.

(** * Setting up an application: URL rules and blueprints

    [Flask.add_url_rule], [Flask.register_blueprint] and
    [Flask.iter_blueprints] of [flask/app.py], and [flask/blueprints.py].  At setup time functions are
    stored and compared, never called: they are values of a type [Func] with
    decidable equality, for Python's identity of function objects. *)

(** [s.lstrip("/")] and [s.rstrip("/")]. *)
Fixpoint lstrip_slash (s : string) : string :=
  match s with
  | String c rest => if Ascii.eqb c "/"%char then lstrip_slash rest else s
  | EmptyString => EmptyString
  end.

Fixpoint rstrip_slash (s : string) : string :=
  match s with
  | EmptyString => EmptyString
  | String c rest =>
      match rstrip_slash rest with
      | EmptyString => if Ascii.eqb c "/"%char then EmptyString else String c EmptyString
      | r => String c r
      end
  end.

(** A run of [n] slashes. *)
Fixpoint slashes (n : nat) : string :=
  match n with
  | O => ""
  | S n => String "/" (slashes n)
  end.

(** The value of a [methods] option or attribute: a string, or an iterable
    of strings. *)
Inductive methods_arg := MethodsStr (s : string) | MethodsIter (l : list string).

(** Truth value of such a value ([methods or ("GET",)]). *)
Definition methods_truthy (m : methods_arg) : bool :=
  match m with
  | MethodsStr "" | MethodsIter [] => false
  | _ => true
  end.

(** The registries of functions keyed by scope that blueprints fill:
    [before_request_funcs], [after_request_funcs], [teardown_request_funcs],
    [url_value_preprocessors], [url_default_functions] and
    [template_context_processors]. *)
Inductive registry :=
| R_before_request_funcs | R_after_request_funcs | R_teardown_request_funcs
| R_url_value_preprocessors | R_url_default_functions
| R_template_context_processors.

#[global] Instance registry_eq_dec : EqDecision registry.
Proof. solve_decision. Defined.

Section Setup.
Context {Func : Type} `{EqDecision Func} {Val : Type}.

(** Python's [str.upper]. *)
Variable upper : string -> string.

(** The attributes of a function object that the setup reads: [__name__],
    [methods], [required_methods] and [provide_automatic_options], each
    possibly absent. *)
Variable func_name : Func -> option string.
Variable func_methods : Func -> option methods_arg.
Variable func_required_methods : Func -> option (list string).
Variable func_provide_automatic_options : Func -> option bool.

(** The keyword options of [add_url_rule] that the modelled code reads,
    and the others. *)
Record rule_options := RuleOptions {
  opt_methods : option methods_arg;
  opt_defaults : option (gmap string Val);
  opt_subdomain : option (option string);
  opt_other : gmap string Val
}.

(** A rule as it is handed to [url_rule_class] and added to the URL map.
    The rule class and the map are werkzeug's: creating a rule and adding
    it to the map are taken to succeed. *)
Record UrlRule := MkUrlRule {
  ur_rule : string;
  ur_methods : gset string;
  ur_endpoint : string;
  ur_defaults : option (gmap string Val);
  ur_subdomain : option (option string);
  ur_other : gmap string Val;
  ur_provide_automatic_options : bool
}.

(** The application object, as far as the setup reads and writes it.
    [su_url_map] lists the rules added to [url_map], in order; [su_registry]
    gives each of the registries keyed by scope; [su_blueprints] maps a name
    to the identity of the blueprint registered under it. *)
Record Setup := MkSetup {
  su_debug : bool;
  su_got_first_request : bool;
  su_url_map : list UrlRule;
  su_view_functions : gmap string Func;
  su_registry : registry -> gmap (option string) (list Func);
  su_before_first_request_funcs : list Func;
  su_blueprints : gmap string nat;
  su_blueprint_order : list nat
}.

Definition with_url_map (m : list UrlRule) (a : Setup) : Setup :=
  MkSetup (su_debug a) (su_got_first_request a) m (su_view_functions a)
    (su_registry a) (su_before_first_request_funcs a) (su_blueprints a)
    (su_blueprint_order a).

Definition with_view_functions (m : gmap string Func) (a : Setup) : Setup :=
  MkSetup (su_debug a) (su_got_first_request a) (su_url_map a) m
    (su_registry a) (su_before_first_request_funcs a) (su_blueprints a)
    (su_blueprint_order a).

Definition with_registry (r : registry) (m : gmap (option string) (list Func))
    (a : Setup) : Setup :=
  MkSetup (su_debug a) (su_got_first_request a) (su_url_map a) (su_view_functions a)
    (fun r' => if decide (r' = r) then m else su_registry a r')
    (su_before_first_request_funcs a) (su_blueprints a) (su_blueprint_order a).

Definition with_first_request_funcs (l : list Func) (a : Setup) : Setup :=
  MkSetup (su_debug a) (su_got_first_request a) (su_url_map a) (su_view_functions a)
    (su_registry a) l (su_blueprints a) (su_blueprint_order a).

Definition with_blueprint (name : string) (b : nat) (a : Setup) : Setup :=
  MkSetup (su_debug a) (su_got_first_request a) (su_url_map a) (su_view_functions a)
    (su_registry a) (su_before_first_request_funcs a)
    (<[name := b]> (su_blueprints a)) (su_blueprint_order a ++ [b]).

(** The [setupmethod] decorator (app.py 84-104) on this view of the
    application. *)
Definition setup_guard {A} (a : Setup) (body : result A * Setup) : result A * Setup :=
  if su_debug a && su_got_first_request a
  then (Raise (AssertionError setup_msg), a)
  else body.

(** [_endpoint_from_view_func] (helpers.py 107-114). *)
Definition _endpoint_from_view_func (view_func : option Func) : result string :=
  match view_func with
  | None => Raise (AssertionError "expected view func if endpoint is not provided.")
  | Some f =>
      match func_name f with
      | Some n => Ok n
      | None => Raise (AttributeError "__name__")
      end
  end.

Definition methods_type_error : string :=
  let quote := String (Ascii.ascii_of_nat 34) EmptyString in
  "Allowed methods have to be iterables of strings, "
  +:+ "for example: @app.route(..., methods=[" +:+ quote +:+ "POST" +:+ quote +:+ "])".

(** [Flask.add_url_rule] (app.py 1536-1678). *)
Definition Flask_add_url_rule (rule : string) (endpoint : option string)
    (view_func : option Func) (provide_automatic_options : option bool)
    (options : rule_options) (a : Setup) : result unit * Setup :=
  setup_guard a
    match
      match endpoint with
      | None => _endpoint_from_view_func view_func
      | Some e => Ok e
      end
    with
    | Raise e => (Raise e, a)
    | Ok endpoint =>
        let methods :=
          match opt_methods options with
          | Some m => m
          | None =>
              match view_func ≫= func_methods with
              | Some m => if methods_truthy m then m else MethodsIter ["GET"]
              | None => MethodsIter ["GET"]
              end
          end in
        match methods with
        | MethodsStr _ => (Raise (TypeError methods_type_error), a)
        | MethodsIter items =>
            let methods : gset string := list_to_set (map upper items) in
            let required_methods : gset string :=
              list_to_set (default [] (view_func ≫= func_required_methods)) in
            let provide_automatic_options :=
              match provide_automatic_options with
              | Some b => Some b
              | None => view_func ≫= func_provide_automatic_options
              end in
            let '(provide_automatic_options, required_methods) :=
              match provide_automatic_options with
              | Some b => (b, required_methods)
              | None =>
                  if bool_decide ("OPTIONS" ∈ methods)
                  then (false, required_methods)
                  else (true, required_methods ∪ {["OPTIONS"]})
              end in
            let methods := methods ∪ required_methods in
            let r := MkUrlRule rule methods endpoint (opt_defaults options)
                       (opt_subdomain options) (opt_other options)
                       provide_automatic_options in
            let a := with_url_map (su_url_map a ++ [r]) a in
            match view_func with
            | None => (Ok tt, a)
            | Some f =>
                match su_view_functions a !! endpoint with
                | Some old_func =>
                    if bool_decide (old_func = f)
                    then (Ok tt, with_view_functions (<[endpoint := f]> (su_view_functions a)) a)
                    else (Raise (AssertionError
                                   ("View function mapping is overwriting an "
                                    +:+ "existing endpoint function: " +:+ endpoint)), a)
                | None =>
                    (Ok tt, with_view_functions (<[endpoint := f]> (su_view_functions a)) a)
                end
            end
        end
    end.

(** ** [flask/blueprints.py] *)

(** What a deferred function of a blueprint does to the setup state it is
    given: the bodies of the lambdas that the methods of [Blueprint] record.
    [A_add_url_rule]: [s.add_url_rule(rule, endpoint, view_func, **options)];
    [A_scoped r key f]: [s.app.<r>.setdefault(key, []).append(f)];
    [A_before_first_request f]: [s.app.before_first_request_funcs.append(f)];
    [A_endpoint e f]: [s.app.view_functions[e] = f]. *)
Inductive action :=
| A_add_url_rule (rule : string) (endpoint : option string) (view_func : option Func)
    (options : rule_options)
| A_scoped (r : registry) (key : option string) (f : Func)
| A_before_first_request (f : Func)
| A_endpoint (endpoint : string) (f : Func).

(** A deferred function: [d_once] tells whether it is wrapped by
    [record_once]. *)
Record deferred := Deferred {
  d_once : bool;
  d_action : action
}.

(** [Blueprint] (blueprints.py 114-720).  [bp_static] is, for a blueprint
    with a static folder, its [static_url_path] and its [send_static_file]
    method. *)
Record Blueprint := MkBlueprint {
  bp_name : string;
  bp_url_prefix : option string;
  bp_subdomain : option string;
  bp_url_values_defaults : gmap string Val;
  bp_static : option (string * Func);
  bp_deferred_functions : list deferred;
  bp_got_registered_once : bool
}.

Definition with_deferred_functions (l : list deferred) (b : Blueprint) : Blueprint :=
  MkBlueprint (bp_name b) (bp_url_prefix b) (bp_subdomain b) (bp_url_values_defaults b)
    (bp_static b) l (bp_got_registered_once b).

Definition with_got_registered_once (b : Blueprint) : Blueprint :=
  MkBlueprint (bp_name b) (bp_url_prefix b) (bp_subdomain b) (bp_url_values_defaults b)
    (bp_static b) (bp_deferred_functions b) true.

(** [Blueprint.record] (blueprints.py 259-278); the warning is not
    modelled. *)
Definition record (d : deferred) (b : Blueprint) : Blueprint :=
  with_deferred_functions (bp_deferred_functions b ++ [d]) b.

(** [Blueprint.record_once] (blueprints.py 280-294). *)
Definition record_once (act : action) (b : Blueprint) : Blueprint :=
  record (Deferred true act) b.

(** [Blueprint.add_url_rule] (blueprints.py 367-379). *)
Definition Blueprint_add_url_rule (rule : string) (endpoint : option string)
    (view_func : option Func) (options : rule_options) (b : Blueprint)
  : result Blueprint :=
  let endpoint_ok :=
    match endpoint with
    | Some e => if bool_decide (e = "") then true else negb (contains "." e)
    | None => true
    end in
  if negb endpoint_ok
  then Raise (AssertionError "Blueprint endpoints should not contain dots")
  else
    let name_ok :=
      match view_func ≫= func_name with
      | Some n => negb (contains "." n)
      | None => true
      end in
    if negb name_ok
    then Raise (AssertionError "Blueprint view function name should not contain dots")
    else Ok (record (Deferred false (A_add_url_rule rule endpoint view_func options)) b).

(** [Blueprint.endpoint] (blueprints.py 381-399), applied to [f]. *)
Definition Blueprint_endpoint (endpoint : string) (f : Func) (b : Blueprint) : Blueprint :=
  record_once (A_endpoint endpoint f) b.

(** [Blueprint.before_request], [before_app_request],
    [before_app_first_request], [after_request], [after_app_request],
    [teardown_request], [teardown_app_request], [context_processor],
    [app_context_processor], [url_value_preprocessor], [url_defaults],
    [app_url_value_preprocessor] and [app_url_defaults] (blueprints.py
    516-679).  The recorded functions read the blueprint's name when they
    run; no method modelled here changes it, so the name is taken when the
    function is recorded. *)
Definition Blueprint_before_request (f : Func) (b : Blueprint) : Blueprint :=
  record_once (A_scoped R_before_request_funcs (Some (bp_name b)) f) b.
Definition Blueprint_before_app_request (f : Func) (b : Blueprint) : Blueprint :=
  record_once (A_scoped R_before_request_funcs None f) b.
Definition Blueprint_before_app_first_request (f : Func) (b : Blueprint) : Blueprint :=
  record_once (A_before_first_request f) b.
Definition Blueprint_after_request (f : Func) (b : Blueprint) : Blueprint :=
  record_once (A_scoped R_after_request_funcs (Some (bp_name b)) f) b.
Definition Blueprint_after_app_request (f : Func) (b : Blueprint) : Blueprint :=
  record_once (A_scoped R_after_request_funcs None f) b.
Definition Blueprint_teardown_request (f : Func) (b : Blueprint) : Blueprint :=
  record_once (A_scoped R_teardown_request_funcs (Some (bp_name b)) f) b.
Definition Blueprint_teardown_app_request (f : Func) (b : Blueprint) : Blueprint :=
  record_once (A_scoped R_teardown_request_funcs None f) b.
Definition Blueprint_context_processor (f : Func) (b : Blueprint) : Blueprint :=
  record_once (A_scoped R_template_context_processors (Some (bp_name b)) f) b.
Definition Blueprint_app_context_processor (f : Func) (b : Blueprint) : Blueprint :=
  record_once (A_scoped R_template_context_processors None f) b.
Definition Blueprint_url_value_preprocessor (f : Func) (b : Blueprint) : Blueprint :=
  record_once (A_scoped R_url_value_preprocessors (Some (bp_name b)) f) b.
Definition Blueprint_url_defaults (f : Func) (b : Blueprint) : Blueprint :=
  record_once (A_scoped R_url_default_functions (Some (bp_name b)) f) b.
Definition Blueprint_app_url_value_preprocessor (f : Func) (b : Blueprint) : Blueprint :=
  record_once (A_scoped R_url_value_preprocessors None f) b.
Definition Blueprint_app_url_defaults (f : Func) (b : Blueprint) : Blueprint :=
  record_once (A_scoped R_url_default_functions None f) b.

(** The keyword options of [register_blueprint] that the setup state
    reads. *)
Record register_options := RegisterOptions {
  ro_subdomain : option string;
  ro_url_prefix : option string;
  ro_url_defaults : gmap string Val
}.

(** [BlueprintSetupState] (blueprints.py 24-110). *)
Record BlueprintSetupState := MkBlueprintSetupState {
  st_blueprint_name : string;
  st_first_registration : bool;
  st_subdomain : option string;
  st_url_prefix : option string;
  st_url_defaults : gmap string Val
}.

(** [BlueprintSetupState.__init__] (blueprints.py 34-84), through
    [Blueprint.make_setup_state] (blueprints.py 296-304). *)
Definition make_setup_state (b : Blueprint) (options : register_options)
    (first_registration : bool) : BlueprintSetupState :=
  MkBlueprintSetupState (bp_name b) first_registration
    (match ro_subdomain options with Some x => Some x | None => bp_subdomain b end)
    (match ro_url_prefix options with Some x => Some x | None => bp_url_prefix b end)
    (ro_url_defaults options ∪ bp_url_values_defaults b).

(** The rule that a blueprint's rule becomes under a URL prefix
    (blueprints.py 93-97). *)
Definition prefixed_rule (url_prefix : option string) (rule : string) : string :=
  match url_prefix with
  | Some p =>
      if bool_decide (rule = "") then p
      else rstrip_slash p +:+ ("/" +:+ lstrip_slash rule)
  | None => rule
  end.

(** The endpoint under which a blueprint's rule is added:
    ["%s.%s" % (self.blueprint.name, endpoint)]. *)
Definition blueprint_endpoint (name endpoint : string) : string :=
  name +:+ ("." +:+ endpoint).

(** [BlueprintSetupState.add_url_rule] (blueprints.py 86-110). *)
Definition BlueprintSetupState_add_url_rule (state : BlueprintSetupState)
    (rule : string) (endpoint : option string) (view_func : option Func)
    (options : rule_options) (a : Setup) : result unit * Setup :=
  let rule := prefixed_rule (st_url_prefix state) rule in
  let subdomain :=
    match opt_subdomain options with
    | Some x => Some x
    | None => Some (st_subdomain state)
    end in
  match
    match endpoint with
    | None => _endpoint_from_view_func view_func
    | Some e => Ok e
    end
  with
  | Raise e => (Raise e, a)
  | Ok endpoint =>
      let defaults :=
        match opt_defaults options with
        | Some d => d ∪ st_url_defaults state
        | None => st_url_defaults state
        end in
      Flask_add_url_rule rule
        (Some (blueprint_endpoint (st_blueprint_name state) endpoint)) view_func None
        (RuleOptions (opt_methods options) (Some defaults) subdomain (opt_other options))
        a
  end.

(** [s.app.<r>.setdefault(key, []).append(f)]. *)
Definition registry_append (r : registry) (key : option string) (f : Func) (a : Setup)
  : Setup :=
  with_registry r (<[key := default [] (su_registry a r !! key) ++ [f]]> (su_registry a r)) a.

(** What a recorded action does. *)
Definition run_action (state : BlueprintSetupState) (act : action) (a : Setup)
  : result unit * Setup :=
  match act with
  | A_add_url_rule rule endpoint view_func options =>
      BlueprintSetupState_add_url_rule state rule endpoint view_func options a
  | A_scoped r key f => (Ok tt, registry_append r key f a)
  | A_before_first_request f =>
      (Ok tt, with_first_request_funcs (su_before_first_request_funcs a ++ [f]) a)
  | A_endpoint e f =>
      (Ok tt, with_view_functions (<[e := f]> (su_view_functions a)) a)
  end.

(** [deferred(state)], with the wrapper of [record_once]. *)
Definition run_deferred (state : BlueprintSetupState) (d : deferred) (a : Setup)
  : result unit * Setup :=
  if d_once d && negb (st_first_registration state) then (Ok tt, a)
  else run_action state (d_action d) a.

(** [for deferred in self.deferred_functions: deferred(state)]. *)
Fixpoint run_deferred_functions (state : BlueprintSetupState) (l : list deferred)
    (a : Setup) : result unit * Setup :=
  match l with
  | [] => (Ok tt, a)
  | d :: rest =>
      match run_deferred state d a with
      | (Ok _, a1) => run_deferred_functions state rest a1
      | (Raise e, a1) => (Raise e, a1)
      end
  end.

(** [Blueprint.register] (blueprints.py 306-351); the registration of
    command-line commands that ends it is not modelled.  Returns the
    blueprint and the application afterwards. *)
Definition Blueprint_register (b : Blueprint) (options : register_options)
    (first_registration : bool) (a : Setup) : result unit * (Blueprint * Setup) :=
  let b := with_got_registered_once b in
  let state := make_setup_state b options first_registration in
  let (r, a) :=
    match bp_static b with
    | Some (static_url_path, send_static_file) =>
        BlueprintSetupState_add_url_rule state (static_url_path +:+ "/<path:filename>")
          (Some "static") (Some send_static_file)
          (RuleOptions None None None ∅) a
    | None => (Ok tt, a)
    end in
  match r with
  | Raise e => (Raise e, (b, a))
  | Ok _ =>
      let (r, a) := run_deferred_functions state (bp_deferred_functions b) a in
      (r, (b, a))
  end.

(** The blueprint objects, by identity, and the application. *)
Record Heap := MkHeap {
  hp_blueprints : nat -> Blueprint;
  hp_app : Setup
}.

(** [Flask.register_blueprint] (app.py 1477-1526). *)
Definition Flask_register_blueprint (blueprint : nat) (options : register_options)
    (h : Heap) : result unit * Heap :=
  let a := hp_app h in
  let b := hp_blueprints h blueprint in
  if su_debug a && su_got_first_request a
  then (Raise (AssertionError setup_msg), h)
  else
    match
      match su_blueprints a !! bp_name b with
      | Some other =>
          if bool_decide (other = blueprint) then Ok (false, a)
          else Raise (AssertionError
                        ("A name collision occurred between blueprints. Both"
                         +:+ " share the same name. Blueprints that are created on the"
                         +:+ " fly need unique names."))
      | None => Ok (true, with_blueprint (bp_name b) blueprint a)
      end
    with
    | Raise e => (Raise e, h)
    | Ok (first_registration, a) =>
        let '(r, (b, a)) := Blueprint_register b options first_registration a in
        (r, MkHeap (upd (hp_blueprints h) blueprint b) a)
    end.

(** [Flask.iter_blueprints] (app.py 1528-1534). *)
Definition Flask_iter_blueprints (a : Setup) : list nat := su_blueprint_order a.

(** ** Vocabulary of the statements about blueprints *)

(** One call of a recording method of [Blueprint] takes the blueprint [b]
    to the blueprint [b']. *)
Inductive records (b : Blueprint) : Blueprint -> Prop :=
| records_add_url_rule rule endpoint view_func options b' :
    Blueprint_add_url_rule rule endpoint view_func options b = Ok b' -> records b b'
| records_endpoint endpoint f : records b (Blueprint_endpoint endpoint f b)
| records_before_request f : records b (Blueprint_before_request f b)
| records_before_app_request f : records b (Blueprint_before_app_request f b)
| records_before_app_first_request f : records b (Blueprint_before_app_first_request f b)
| records_after_request f : records b (Blueprint_after_request f b)
| records_after_app_request f : records b (Blueprint_after_app_request f b)
| records_teardown_request f : records b (Blueprint_teardown_request f b)
| records_teardown_app_request f : records b (Blueprint_teardown_app_request f b)
| records_context_processor f : records b (Blueprint_context_processor f b)
| records_app_context_processor f : records b (Blueprint_app_context_processor f b)
| records_url_value_preprocessor f : records b (Blueprint_url_value_preprocessor f b)
| records_url_defaults f : records b (Blueprint_url_defaults f b)
| records_app_url_value_preprocessor f :
    records b (Blueprint_app_url_value_preprocessor f b)
| records_app_url_defaults f : records b (Blueprint_app_url_defaults f b).

(** The functions that the deferred functions [l] append to the registry
    [reg] under [key], in order. *)
Definition recorded_scoped (reg : registry) (key : option string) (l : list deferred)
  : list Func :=
  flat_map (fun d => match d_action d with
                     | A_scoped r k f =>
                         if bool_decide (r = reg /\ k = key) then [f] else []
                     | _ => []
                     end) l.

(** The functions that the deferred functions [l] append to
    [before_first_request_funcs], in order. *)
Definition recorded_first_request (l : list deferred) : list Func :=
  flat_map (fun d => match d_action d with
                     | A_before_first_request f => [f]
                     | _ => []
                     end) l.

(** A deferred function that adds a URL rule does it with arguments that
    [Blueprint.add_url_rule] accepts. *)
Definition accepted (d : deferred) : Prop :=
  forall rule endpoint view_func options (b : Blueprint),
    d_action d = A_add_url_rule rule endpoint view_func options ->
    exists b', Blueprint_add_url_rule rule endpoint view_func options b = Ok b'.

(** A deferred function that is not wrapped by [record_once] adds a URL
    rule. *)
Definition once_or_rule (d : deferred) : Prop :=
  d_once d = false ->
  exists rule endpoint view_func options,
    d_action d = A_add_url_rule rule endpoint view_func options.

(** What adding URL rules leaves alone, and what it adds: rules at the end
    of the URL map whose endpoints satisfy [P]. *)
Definition rules_added (P : string -> Prop) (a a' : Setup) (new : list UrlRule) : Prop :=
  su_debug a' = su_debug a /\
  su_got_first_request a' = su_got_first_request a /\
  su_registry a' = su_registry a /\
  su_before_first_request_funcs a' = su_before_first_request_funcs a /\
  su_blueprints a' = su_blueprints a /\
  su_blueprint_order a' = su_blueprint_order a /\
  su_url_map a' = su_url_map a ++ new /\
  Forall (fun u => P (ur_endpoint u)) new.

End Setup.

(** * A concrete application

    A small application with a blueprint, used to run the model on
    concrete requests. *)

Module Example.

(** The world is the list of the names of the callables that have run: an
    order-recording collaborator. *)
Definition world_t : Type := list string.

Record response := MkResponse {
  body : string;
  status_code : Z;
  headers : list (string * string)
}.

(** A null session is [true]. *)
Definition session_t : Type := bool.

Definition X0 : @externals world_t response session_t := {|
  response_class_new := fun b st _ =>
    match b with
    | VStr s | VBytes s | VBytearray s =>
        Ok (MkResponse s (match st with Some (VInt n) => n | _ => 200 end) [])
    | _ => Raise (TypeError "")
    end;
  jsonify := fun _ => Ok (MkResponse "{}" 200 [("Content-Type", "application/json")]);
  force_type := fun v =>
    match v with
    | VExc e => Ok (MkResponse (cls_name (exn_class e))
                      (default 500 (cls_code (exn_class e))) [])
    | _ => Ok (MkResponse "" 200 [])
    end;
  set_status := fun _ r => Ok r;
  set_status_code := fun st r =>
    match st with
    | VInt n => Ok (MkResponse (body r) n (headers r))
    | _ => Raise (TypeError "")
    end;
  headers_extend := fun h r =>
    match h with
    | VHeaders l => Ok (MkResponse (body r) (status_code r) (headers r ++ l))
    | _ => Ok r
    end;
  open_session := fun w => (Ok None, w);
  make_null_session := true;
  is_null_session := fun b => b;
  save_session := fun _ _ w => (Ok tt, w);
  signal_send := fun _ w => (Ok tt, w);
  request_close := fun w => (Ok tt, w);
  default_options_response := fun w => (Ok (MkResponse "" 200 []), w);
  default_exceptions := fun n =>
    if n =? 404 then Some NotFound_cls
    else if n =? 500 then Some InternalServerError_cls
    else None
|}.

(** A callable that records its name and returns [rv]. *)
Definition recorder {A B} (name : string) (rv : B) : @callable world_t A B :=
  Callable name (fun _ w => (Ok rv, w ++ [name])).

(** An after-request function that records its name and returns the
    response it is given. *)
Definition after_recorder (name : string) : @callable world_t response response :=
  Callable name (fun r w => (Ok r, w ++ [name])).

(** A callable that records its name and raises [e]. *)
Definition raiser {A B} (name : string) (e : exn) : @callable world_t A B :=
  Callable name (fun _ w => (Raise e, w ++ [name])).

(** The router: ["/"] is the endpoint [index], ["/bp/"] the endpoint
    [bp.index] of the blueprint [bp], any other path is not found. *)
Definition route (p : string) : @Adapter world_t response :=
  fun w =>
    if String.eqb p "/" then (Ok (MkRule "index" true, []), w)
    else if String.eqb p "/bp/" then (Ok (MkRule "bp.index" true, []), w)
    else (Raise (Exn NotFound_cls "" None), w).

Definition app0 : @App world_t response :=
  MkApp false false None None false None None false [] ∅ ∅ ∅ ∅ [] ∅
    (<["index" := recorder "index" (VStr "Hello")]>
       (<["bp.index" := recorder "bp.index" (VStr "Hello from bp")]> ∅))
    (fun r => Ok (route (path r)))
    (fun _ => Ok (route "/")).

Definition get (p : string) : @Request response :=
  MkRequest false true p "GET" None None None false.

Definition s0 : @State world_t response session_t :=
  MkState [] None (fun _ => app0) (fun _ => MkAppContext 0 None 0) 0
    (fun _ => MkRequestContext 0 (get "/") None None [] false None []) 0 [] [] [].

(** The state after a request context for [GET p] is created (as context
    [0]) and pushed. *)
Definition with_request_to (p : string) (s : @State world_t response session_t)
  : @State world_t response session_t :=
  exec (bind (RequestContext_init 0 (get p) None) (RequestContext_push X0)) s.

(** *** Further states of the example *)

Definition boom : exn := RuntimeError "boom".

Definition not_found : exn := Exn NotFound_cls "" None.

(** A subclass of [NotFound] with a status code of its own. *)
Definition Teapot_cls : pyclass :=
  PyClass "Teapot"
    ["Teapot"; "NotFound"; "HTTPException"; "Exception"; "BaseException"; "object"]
    (Some 418).

Definition teapot : exn := Exn Teapot_cls "" None.

Definition being_handled (e : exn) (s : @State world_t response session_t)
  : @State world_t response session_t := set_exc_info (Some e) s.

(** P6: a handler for code 404 in the blueprint, a handler for the class
    [NotFound] in the application, a request inside the blueprint. *)
Definition s_p6 : @State world_t response session_t :=
  being_handled not_found
    (exec (_register_error_handler X0 0 None (ByClass NotFound_cls)
             (recorder "app_not_found" (VStr "app")))
       (exec (_register_error_handler X0 0 (Some "bp") (ByCode 404)
                (recorder "bp_404" (VStr "bp")))
          (with_request_to "/bp/" s0))).

(** A handler for the class [NotFound] in the blueprint, and a [Teapot]
    raised inside the blueprint. *)
Definition s_teapot : @State world_t response session_t :=
  being_handled teapot
    (exec (_register_error_handler X0 0 (Some "bp") (ByClass NotFound_cls)
             (recorder "bp_not_found" (VStr "bp")))
       (with_request_to "/bp/" s0)).

(** Before-request functions A, B and after-request functions C, D,
    registered in that order. *)
Definition s_hooks : @State world_t response session_t :=
  exec (after_request 0 None (after_recorder "D"))
    (exec (after_request 0 None (after_recorder "C"))
       (exec (before_request 0 None (recorder "B" VNone))
          (exec (before_request 0 None (recorder "A" VNone))
             (with_request_to "/" s0)))).

(** An after-request function that raises. *)
Definition s_failing_after : @State world_t response session_t :=
  exec (after_request 0 None (raiser "failing_after" boom)) (with_request_to "/" s0).

(** A handler for code 500 that returns [None]. *)
Definition s_500 : @State world_t response session_t :=
  exec (_register_error_handler X0 0 None (ByCode 500) (recorder "on_500" VNone))
    (with_request_to "/" s0).

(** An application that preserves the context on exceptions. *)
Definition app_preserving : @App world_t response :=
  MkApp false false None (Some true) false None None false [] ∅ ∅ ∅ ∅ [] ∅
    (view_functions app0) (bind_to_environ app0) (url_map_bind app0).

Definition s_preserving : @State world_t response session_t :=
  MkState [] None (fun _ => app_preserving) (fun _ => MkAppContext 0 None 0) 0
    (fun _ => MkRequestContext 0 (get "/") None None [] false None []) 0 [] [] [].

(** Context 0 pushed once, preserved with the error [boom]; context 1
    created. *)
Definition s_preserved_once : @State world_t response session_t :=
  exec (RequestContext_init 0 (get "/") None)
    (exec (auto_pop X0 0 (Some boom)) (with_request_to "/" s_preserving)).

(** Context 0 pushed twice, preserved with the error [boom]; context 1
    created. *)
Definition s_preserved_twice : @State world_t response session_t :=
  exec (RequestContext_init 0 (get "/") None)
    (exec (auto_pop X0 0 (Some boom))
       (exec (RequestContext_push X0 0) (with_request_to "/" s_preserving))).

(** A request context for a path that the router does not know, created
    and not yet pushed. *)
Definition s_missing : @State world_t response session_t :=
  exec (RequestContext_init 0 (get "/missing") None) s0.

(** *** Requests served through [wsgi_app], and [with] blocks *)




(** The body of a [with] block: it records its name. *)
Definition with_body : @M world_t response session_t unit :=
  lift_world (fun w => (Ok tt, w ++ ["body"])).

(** A request context for [GET /], created and not yet pushed. *)
Definition s_created : @State world_t response session_t :=
  exec (RequestContext_init 0 (get "/") None) s0.

(** Teardown functions T1 and T2, registered in that order. *)
Definition s_teardown : @State world_t response session_t :=
  exec (teardown_request 0 (recorder "T2" VNone))
    (exec (teardown_request 0 (recorder "T1" VNone)) (with_request_to "/" s0)).

(** Before-request functions A, stop and B, registered in that order;
    stop returns a value. *)
Definition s_short_circuit : @State world_t response session_t :=
  exec (before_request 0 None (recorder "B" VNone))
    (exec (before_request 0 None (recorder "stop" (VStr "stopped")))
       (exec (before_request 0 None (recorder "A" VNone)) (with_request_to "/" s0))).

(** Application contexts 0 and 1 pushed, 1 on top. *)
Definition s_two_app_contexts : @State world_t response session_t :=
  exec (AppContext_push X0 1) (exec (AppContext_push X0 0) s0).

(** *** Setting up: functions are identified by their names *)

Definition ascii_upper (c : ascii) : ascii :=
  let n := nat_of_ascii c in
  if (97 <=? n)%nat && (n <=? 122)%nat then ascii_of_nat (n - 32) else c.

Fixpoint upper0 (s : string) : string :=
  match s with
  | EmptyString => EmptyString
  | String c r => String (ascii_upper c) (upper0 r)
  end.

Definition func_name0 (f : string) : option string := Some f.
Definition func_methods0 (f : string) : option methods_arg := None.
Definition func_required_methods0 (f : string) : option (list string) := None.
Definition func_provide_automatic_options0 (f : string) : option bool := None.

(** An application with nothing registered. *)
Definition setup0 : @Setup string Z :=
  MkSetup false false [] ∅ (fun _ => ∅) [] ∅ [].

Definition no_options : @rule_options Z := RuleOptions None None None ∅.

Definition no_register_options : @register_options Z := RegisterOptions None None ∅.

(** The blueprint [bp] under the prefix [/bp/], with the rule [/] for the
    endpoint [index], a before-request function, a function to run before
    the first request and a teardown function. *)
Definition bp_empty : @Blueprint string Z :=
  MkBlueprint "bp" (Some "/bp/") None ∅ None [] false.

Definition bp_example : @Blueprint string Z :=
  match Blueprint_add_url_rule func_name0 "/" (Some "index") (Some "bp_index")
          no_options bp_empty with
  | Ok b =>
      Blueprint_teardown_request "close"
        (Blueprint_before_app_first_request "warm_up"
           (Blueprint_before_request "auth" b))
  | Raise _ => bp_empty
  end.

Definition heap0 : @Heap string Z := MkHeap (fun _ => bp_example) setup0.

(** The blueprint registered once. *)
Definition heap1 : @Heap string Z :=
  snd (Flask_register_blueprint upper0 func_name0 func_methods0 func_required_methods0
         func_provide_automatic_options0 0 no_register_options heap0).

End Example.

(** * Properties *)

Section Properties.
Context {World Response Session : Type}.
Variable X : @externals World Response Session.

Abbreviation pyval := (@pyval Response).
Abbreviation State := (@State World Response Session).
Abbreviation M := (@M World Response Session).
Abbreviation handler_t := (@callable World exn pyval).
Abbreviation handler_spec_t :=
  (gmap (option string) (gmap (option Z) (gmap string handler_t))).
Abbreviation callable := (@callable World).
Abbreviation view_args_t := (@view_args_t Response).
Abbreviation App := (@App World Response).
Abbreviation RequestContext := (@RequestContext World Response Session).

(** ** Vocabulary of the statements *)

(** A step that only lets collaborators act: the world changes and quiet
    events are appended. *)
Definition world_log_step (s s' : State) : Prop :=
  exists w d, s' = set_log (log s ++ d) (set_world w s) /\
              Forall (fun ev => quiet ev = true) d.

Definition quiet_m {A} (m : M A) : Prop := forall s, world_log_step s (exec m s).

Definition app_pushes (a : nat) (n : nat) (s : State) : State :=
  Nat.iter n (exec (AppContext_push X a)) s.

Definition app_pops (a : nat) (excs : list exc_arg) (s : State) : State :=
  fold_left (fun st e => exec (AppContext_pop X a e) st) excs s.

(** Steps that leave the request contexts alone. *)
Definition no_request_teardown (d : list event) : Prop :=
  forall c, count_events (is_request_teardown c) d = 0%nat.

Definition req_frame (s s' : State) : Prop :=
  req_ctxs s' = req_ctxs s /\
  request_ctx_stack s' = request_ctx_stack s /\
  apps s' = apps s /\
  exc_info s' = exc_info s /\
  exists d, log s' = log s ++ d /\ no_request_teardown d.

(** The first statement of [RequestContext.push]: a preserved context on
    top of the stack is popped with its stored error. *)
Definition reclaim_preserved : M unit :=
  bind (gets request_ctx_stack) (fun st =>
    match ls_top st with
    | Some top =>
        bind (gets (fun s => req_ctxs s top)) (fun t =>
          if rc_preserved t
          then RequestContext_pop X top (Given (rc_preserved_exc t))
          else ret tt)
    | None => ret tt
    end).

(** The statements of [RequestContext.push] after the first. *)
Definition push_rest (self : nat) : M unit :=
  bind (gets (fun s => req_ctxs s self)) (fun ctx =>
  bind (gets app_ctx_stack) (fun ast =>
  bind (match ls_top ast with
        | None => ret false
        | Some a =>
            bind (gets (fun s => app_ctxs s a)) (fun ac =>
              ret (Nat.eqb (ac_app ac) (rc_app ctx)))
        end) (fun same_app =>
  bind (if same_app then
          modify (fun s =>
            set_req_ctx self
              (with_implicit
                 (py_append (rc_implicit_app_ctx_stack (req_ctxs s self)) None)
                 (req_ctxs s self)) s)
        else
          bind (app_context (rc_app ctx)) (fun a =>
          bind (AppContext_push X a) (fun _ =>
          modify (fun s =>
            set_req_ctx self
              (with_implicit
                 (py_append (rc_implicit_app_ctx_stack (req_ctxs s self)) (Some a))
                 (req_ctxs s self)) s)))) (fun _ =>
  bind (modify (fun s =>
          set_request_ctx_stack (ls_push self (request_ctx_stack s)) s)) (fun _ =>
  bind (gets (fun s => req_ctxs s self)) (fun ctx =>
  bind (match rc_session ctx with
        | None =>
            bind (lift_world (open_session X)) (fun o =>
              let sess := match o with
                          | Some x => x
                          | None => make_null_session X
                          end in
              modify (fun s =>
                set_req_ctx self (with_session (Some sess) (req_ctxs s self)) s))
        | Some _ => ret tt
        end) (fun _ =>
  bind (gets (fun s => req_ctxs s self)) (fun ctx =>
  match rc_url_adapter ctx with
  | Some _ => match_request self
  | None => ret tt
  end)))))))).

(** The same-application test of [RequestContext.push]. *)
Definition app_on_top (app : nat) (s : State) : Prop :=
  exists a rest, app_ctx_stack s = a :: rest /\ ac_app (app_ctxs s a) = app.



(** The handler found under one [(name, c)] pair: the handlers registered
    in scope [name] under code [c], searched along the MRO. *)
Definition bucket_lookup (sp : handler_spec_t) (mro : list string)
    (key : option string * option Z) : option handler_t :=
  match default ∅ (sp !! key.1) !! key.2 with
  | Some handler_map => find_in_mro handler_map mro
  | None => None
  end.

(** The first pair under which a handler is found. *)
Fixpoint first_handler (sp : handler_spec_t) (mro : list string)
    (keys : list (option string * option Z)) : option handler_t :=
  match keys with
  | [] => None
  | key :: rest =>
      match bucket_lookup sp mro key with
      | Some h => Some h
      | None => first_handler sp mro rest
      end
  end.

(** The code [_get_exc_class_and_code] gives for a class. *)
Definition error_code (c : pyclass) : option Z :=
  if issubclass c "HTTPException" then cls_code c else None.

Definition lookup_keys (bp : option string) (code : option Z)
  : list (option string * option Z) :=
  [(bp, code); (None, code); (bp, None); (None, None)].

(** The lookup as the specification words it: in the blueprint and then in
    the application a handler for the exact code, then in the blueprint and
    in the application a handler "matched by walking the exception's class
    hierarchy from most to least specific, ignoring code", that is, under
    whatever code it is registered. *)
Definition handler_of_class (scope : gmap (option Z) (gmap string handler_t))
    (cls : string) : option handler_t :=
  head (omap (fun kv => snd kv !! cls) (map_to_list scope)).

Fixpoint walk_ignoring_code (scope : gmap (option Z) (gmap string handler_t))
    (mro : list string) : option handler_t :=
  match mro with
  | [] => None
  | cls :: rest =>
      match handler_of_class scope cls with
      | Some h => Some h
      | None => walk_ignoring_code scope rest
      end
  end.

Definition spec_find_error_handler (sp : handler_spec_t) (bp : option string) (e : exn)
  : option handler_t :=
  let code := error_code (exn_class e) in
  let mro := cls_mro (exn_class e) in
  match bucket_lookup sp mro (bp, code) with
  | Some h => Some h
  | None =>
      match bucket_lookup sp mro (None, code) with
      | Some h => Some h
      | None =>
          match walk_ignoring_code (default ∅ (sp !! bp)) mro with
          | Some h => Some h
          | None => walk_ignoring_code (default ∅ (sp !! None)) mro
          end
      end
  end.

Definition spec_equiv (sp' sp : handler_spec_t) : Prop :=
  forall name, default ∅ (sp' !! name) = default ∅ (sp !! name).

(** The hooks registered in a blueprint's scope. *)
Definition in_blueprint {A} (d : gmap (option string) (list A)) (bp : option string)
  : list A :=
  match bp with
  | Some name => default [] (d !! Some name)
  | None => []
  end.

(** Before-request functions in calling order: the application's,
    then the blueprint's, each in registration order. *)
Definition pre_request_order (a : App) (bp : option string)
  : list (callable unit pyval) :=
  default [] (before_request_funcs a !! None) ++ in_blueprint (before_request_funcs a) bp.

(** After-request functions in calling order: those of the request
    context, then the blueprint's and the application's, each in reverse
    registration order. *)
Definition post_request_order (a : App) (ctx : RequestContext) (bp : option string)
  : list (callable Response Response) :=
  rc_after_request_functions ctx ++ rev (in_blueprint (after_request_funcs a) bp)
  ++ rev (default [] (after_request_funcs a !! None)).

Definition call_events {A B} (k : hook_kind) (funcs : list (callable A B)) : list event :=
  map (fun f => EvCall k (fn_name f)) funcs.

(** [m] returns from [s] with a value satisfying [P], having let the
    collaborators act and appended [evs] to the trace. *)
Definition runs_ok {A} (m : M A) (s : State) (evs : list event) (P : A -> Prop) : Prop :=
  exists a w', m s = (Ok a, set_log (log s ++ evs) (set_world w' s)) /\ P a.

(** ** Vocabulary of the further properties *)

(** What the push and pop of contexts read of a request context and of an
    application. *)
Definition ctx_view (c : RequestContext) :=
  (rc_app c, rc_implicit_app_ctx_stack c, rc_preserved c, rc_preserved_exc c,
   environ_preserve_context (rc_request c)).

Definition app_view (a : App) := (debug a, PRESERVE_CONTEXT_ON_EXCEPTION a).

(** A step that leaves the two stacks and the contexts' bookkeeping alone
    and runs no teardown. *)
Definition dispatch_frame (s s' : State) : Prop :=
  request_ctx_stack s' = request_ctx_stack s /\
  app_ctx_stack s' = app_ctx_stack s /\
  app_ctxs s' = app_ctxs s /\
  (forall c, ctx_view (req_ctxs s' c) = ctx_view (req_ctxs s c)) /\
  (forall a, app_view (apps s' a) = app_view (apps s a)) /\
  exists d, log s' = log s ++ d /\ Forall (fun ev => quiet ev = true) d.

Definition frame_m {A} (m : M A) : Prop := forall s, dispatch_frame s (exec m s).

(** The world after each of [funcs] has been called with [a], when none of
    them raises. *)
Definition run_all {A B} (a : A) (funcs : list (callable A B)) (w : World) : World :=
  fold_left (fun w f => snd (fn_run f a w)) funcs w.

(** Teardown functions in calling order: the application's in reverse
    registration order, then the blueprint's in reverse registration
    order. *)
Definition teardown_request_order (a : App) (bp : option string)
  : list (callable (option exn) pyval) :=
  rev (default [] (teardown_request_funcs a !! None))
  ++ rev (in_blueprint (teardown_request_funcs a) bp).
(** The handler that the table of error handlers holds for a scope, a
    code and the name of a class. *)
Definition handler_entry (sp : handler_spec_t) (key : option string) (code : option Z)
    (name : string) : option handler_t :=
  default ∅ (default ∅ (sp !! key) !! code) !! name.

(** ** Response coercion *)

Lemma unpack_rv_arity (items : list pyval) :
  length items <> 2%nat -> length items <> 3%nat ->
  unpack_rv (VTuple items) = Raise (TypeError invalid_tuple_msg).
Proof.
  intros H2 H3.
  destruct items as [|a [|b [|c [|d r]]]]; simpl in *; try reflexivity; congruence.
Qed.

(** C6: [make_response] raises [TypeError] for [None], for a 2- or 3-tuple
    whose body is [None], and for a tuple of any other length; for the
    latter the message names the three accepted shapes. *)
Theorem make_response_type_errors (rv : pyval) :
  rejected_return rv ->
  exists msg,
    make_response X rv = Raise (TypeError msg) /\
    (forall items, rv = VTuple items ->
       length items <> 2%nat -> length items <> 3%nat ->
       msg = invalid_tuple_msg /\
       contains "(body, status, headers)" msg = true /\
       contains "(body, status)" msg = true /\
       contains "(body, headers)" msg = true).
Proof.
  intros H. destruct H as [ | x | x y | items H2 H3].
  - exists returned_none_msg. split; [reflexivity|]. intros items Heq. discriminate.
  - exists returned_none_msg. split.
    + unfold make_response. simpl. destruct (is_headers_like x); reflexivity.
    + intros items Heq H2. injection Heq as <-. simpl in H2. congruence.
  - exists returned_none_msg. split; [reflexivity|].
    intros items Heq _ H3. injection Heq as <-. simpl in H3. congruence.
  - exists invalid_tuple_msg. split.
    + unfold make_response. rewrite unpack_rv_arity by assumption. reflexivity.
    + intros _ _ _ _. repeat split; vm_compute; reflexivity.
Qed.

(** C10: for a pair [(body, x)], [x] is taken as the headers exactly when
    it is a [Headers], [dict], [tuple] or [list], whatever it holds, and as
    the status otherwise; with a text body it reaches the response class as
    its [headers], respectively [status], argument. *)
Theorem make_response_pair (body x : pyval) :
  unpack_rv (VTuple [body; x]) =
    match x with
    | VHeaders _ | VDict _ | VTuple _ | VList _ => Ok (body, None, Some x)
    | _ => Ok (body, Some x, None)
    end /\
  forall s : string,
    make_response X (VTuple [VStr s; x]) =
      match x with
      | VHeaders _ | VDict _ | VTuple _ | VList _ =>
          response_class_new X (VStr s) None (Some x)
      | _ => response_class_new X (VStr s) (Some x) None
      end.
Proof.
  split.
  - destruct x; reflexivity.
  - intros s. unfold make_response.
    destruct x; simpl;
      match goal with
      | |- context [response_class_new X ?a ?b ?c] =>
          destruct (response_class_new X a b c); reflexivity
      end.
Qed.

(** ** Collaborators leave no teardown in the trace *)

Lemma count_events_app p (l1 l2 : list event) :
  count_events p (l1 ++ l2) = (count_events p l1 + count_events p l2)%nat.
Proof. induction l1 as [|ev l1 IH]; simpl; [reflexivity|]. rewrite IH. lia. Qed.

Lemma count_events_quiet p (d : list event) :
  (forall ev, quiet ev = true -> p ev = false) ->
  Forall (fun ev => quiet ev = true) d -> count_events p d = 0%nat.
Proof.
  intros Hp Hd. induction Hd as [|ev d Hev _ IH]; simpl; [reflexivity|].
  rewrite (Hp _ Hev), IH. reflexivity.
Qed.

Lemma world_log_step_refl s : world_log_step s s.
Proof.
  exists (world s), []. split; [|constructor].
  destruct s; unfold set_log, set_world; simpl. rewrite app_nil_r. reflexivity.
Qed.

Lemma world_log_step_trans s1 s2 s3 :
  world_log_step s1 s2 -> world_log_step s2 s3 -> world_log_step s1 s3.
Proof.
  intros (w1 & d1 & -> & H1) (w2 & d2 & -> & H2).
  exists w2, (d1 ++ d2). split; [|apply Forall_app; auto].
  destruct s1; unfold set_log, set_world; simpl. rewrite app_assoc. reflexivity.
Qed.

Lemma quiet_ret {A} (a : A) : quiet_m (ret a).
Proof. intros s. apply world_log_step_refl. Qed.

Lemma quiet_raise {A} e : quiet_m (@raise _ _ _ A e).
Proof. intros s. apply world_log_step_refl. Qed.

Lemma quiet_gets {A} (f : State -> A) : quiet_m (gets f).
Proof. intros s. apply world_log_step_refl. Qed.

Lemma quiet_of_result {A} (r : result A) : quiet_m (of_result r).
Proof. intros s. apply world_log_step_refl. Qed.

Lemma quiet_bind {A B} (m : M A) (k : A -> M B) :
  quiet_m m -> (forall a, quiet_m (k a)) -> quiet_m (bind m k).
Proof.
  intros Hm Hk s. specialize (Hm s). unfold exec, bind in *.
  destruct (m s) as [[a|e] s1]; simpl in *; [|exact Hm].
  eapply world_log_step_trans; [exact Hm|]. apply Hk.
Qed.

Lemma quiet_emit ev : quiet ev = true -> quiet_m (emit ev).
Proof.
  intros H s. exists (world s), [ev]. split; [|repeat constructor; exact H].
  destruct s; reflexivity.
Qed.

Lemma quiet_lift_world {A} (f : World -> result A * World) : quiet_m (lift_world f).
Proof.
  intros s. unfold exec, lift_world. destruct (f (world s)) as [r w]. simpl.
  exists w, []. split; [|constructor].
  destruct s; unfold set_log, set_world; simpl. rewrite app_nil_r. reflexivity.
Qed.

Lemma quiet_call {A B} k (f : callable A B) a : quiet_m (call k f a).
Proof.
  apply quiet_bind; [apply quiet_emit; reflexivity|]. intros _. apply quiet_lift_world.
Qed.

Lemma quiet_send sg : quiet_m (send X sg).
Proof.
  apply quiet_bind; [apply quiet_emit; reflexivity|]. intros _. apply quiet_lift_world.
Qed.

Lemma quiet_for_each {A} (l : list A) (f : A -> M unit) :
  (forall a, quiet_m (f a)) -> quiet_m (for_each l f).
Proof.
  intros Hf. induction l as [|x l IH]; simpl; [apply quiet_ret|].
  apply quiet_bind; [apply Hf|]. intros _. exact IH.
Qed.

Lemma quiet_resolve_exc exc : quiet_m (resolve_exc exc).
Proof. destruct exc; [apply quiet_gets|apply quiet_ret]. Qed.

Lemma quiet_top_request_context : quiet_m top_request_context.
Proof.
  apply quiet_bind; [apply quiet_gets|]. intros st.
  destruct (ls_top st); [|apply quiet_raise].
  apply quiet_bind; [apply quiet_gets|]. intros c. apply quiet_ret.
Qed.

Lemma quiet_do_teardown_appcontext app exc : quiet_m (do_teardown_appcontext X app exc).
Proof.
  unfold do_teardown_appcontext.
  apply quiet_bind; [apply quiet_resolve_exc|]. intros e.
  apply quiet_bind; [apply quiet_gets|]. intros a.
  apply quiet_bind; [|intros _; apply quiet_send].
  apply quiet_for_each. intros f.
  apply quiet_bind; [apply quiet_call|]. intros _. apply quiet_ret.
Qed.

Lemma quiet_do_teardown_request app exc : quiet_m (do_teardown_request X app exc).
Proof.
  unfold do_teardown_request.
  apply quiet_bind; [apply quiet_resolve_exc|]. intros e.
  apply quiet_bind; [apply quiet_gets|]. intros a.
  apply quiet_bind; [apply quiet_top_request_context|]. intros [c top].
  apply quiet_bind; [|intros _; apply quiet_send].
  apply quiet_for_each. intros f.
  apply quiet_bind; [apply quiet_call|]. intros _. apply quiet_ret.
Qed.

(** ** Application contexts *)

Ltac state_eq s :=
  repeat match goal with x := _ |- _ => subst x end;
  destruct s as [w_ ei_ ap_ ac_ na_ rc_ nr_ as_ rs_ lg_];
  cbn; rewrite <- ?app_assoc, ?app_nil_r; reflexivity.

Lemma AppContext_push_exec (a : nat) (s : State) :
  exec (AppContext_push X a) s =
    set_world (snd (signal_send X appcontext_pushed (world s)))
      (set_log (log s ++ [EvSignal appcontext_pushed])
         (set_app_ctx_stack (a :: app_ctx_stack s)
            (set_app_ctx a
               (with_refcnt (ac_refcnt (app_ctxs s a) + 1) (app_ctxs s a)) s))).
Proof.
  unfold exec, AppContext_push, send, bind, modify, emit, lift_world. simpl.
  destruct (signal_send X appcontext_pushed (world s)) as [[[]|e] w]; reflexivity.
Qed.

Lemma upd_same {A} (f : nat -> A) i a : upd f i a i = a.
Proof. unfold upd. rewrite Nat.eqb_refl. reflexivity. Qed.

Lemma upd_other {A} (f : nat -> A) i j a : j <> i -> upd f i a j = f j.
Proof. intros H. unfold upd. destruct (Nat.eqb_spec j i); congruence. Qed.

(** What [AppContext.pop] leaves: the count is lowered, the top entry of
    the stack is gone, and the teardown has run exactly when the count
    reached zero. *)
Lemma AppContext_pop_exec (a : nat) (exc : exc_arg) (s : State) :
  exists w d,
    exec (AppContext_pop X a exc) s =
      set_log (log s ++ d)
        (set_world w
           (set_app_ctx_stack (snd (ls_pop (app_ctx_stack s)))
              (set_app_ctx a
                 (with_refcnt (ac_refcnt (app_ctxs s a) - 1) (app_ctxs s a)) s))) /\
    (if ac_refcnt (app_ctxs s a) - 1 <=? 0
     then exists e d', d = EvAppTeardown a e :: d' /\
                       Forall (fun ev => quiet ev = true) d'
     else Forall (fun ev => quiet ev = true) d).
Proof.
  unfold exec, AppContext_pop, try_finally, pop_app_ctx_stack, py_assert, resolve_exc,
    bind, modify, gets, ret, raise, emit.
  simpl. rewrite upd_same. simpl.
  set (s1 := set_app_ctx a _ s).
  destruct (ls_pop (app_ctx_stack s)) as [rv st] eqn:Hpop.
  destruct (ac_refcnt (app_ctxs s a) - 1 <=? 0) eqn:Hle.
  - assert (Hfin : forall e w0 d0 (s' : State),
      Forall (fun ev => quiet ev = true) d0 ->
      s' = set_log (log s ++ EvAppTeardown a e :: d0)
             (set_world w0 (set_app_ctx_stack st s1)) ->
      exists w1 d1, s' = set_log (log s ++ d1)
                           (set_world w1 (set_app_ctx_stack st s1)) /\
        exists e' d', d1 = EvAppTeardown a e' :: d' /\
                      Forall (fun ev => quiet ev = true) d').
    { intros e w0 d0 s' Hd0 ->. exists w0, (EvAppTeardown a e :: d0). eauto. }
    destruct exc as [|e0]; simpl.
    all: match goal with |- context [do_teardown_appcontext X ?ap ?ex ?st] =>
      destruct (quiet_do_teardown_appcontext ap ex st) as (w & d & Hs3 & Hd);
      unfold exec in Hs3;
      destruct (do_teardown_appcontext X ap ex st) as [r s3] end.
    all: simpl in Hs3; subst s3; simpl; rewrite Hpop.
    all: destruct r as [[]|e1]; simpl.
    all: try destruct (bool_decide (rv = Some a)); simpl.
    all: try match goal with |- context [send X appcontext_popped ?st] =>
          destruct (quiet_send appcontext_popped st) as (w' & d2 & Hs4 & Hd2);
          unfold exec in Hs4; rewrite Hs4 end.
    all: match goal with |- context [EvAppTeardown _ ?e] =>
           first [ apply (Hfin e w' (d ++ d2)); [apply Forall_app; auto|]
                 | apply (Hfin e w d); [assumption|] ] end.
    all: state_eq s.
  - simpl. rewrite Hpop. simpl.
    destruct (bool_decide (rv = Some a)).
    + match goal with |- context [send X appcontext_popped ?st] =>
        destruct (quiet_send appcontext_popped st) as (w' & d2 & Hs4 & Hd2);
        unfold exec in Hs4; rewrite Hs4 end.
      exists w', d2. split; [|assumption]. state_eq s.
    + simpl. exists (world s), []. split; [|constructor]. state_eq s.
Qed.

Lemma quiet_not_app_teardown a ev : quiet ev = true -> is_app_teardown a ev = false.
Proof. destruct ev; simpl; congruence. Qed.

Lemma quiet_not_request_teardown c ev :
  quiet ev = true -> is_request_teardown c ev = false.
Proof. destruct ev; simpl; congruence. Qed.

(** One push of an application context. *)
Lemma AppContext_push_step (a : nat) (s : State) :
  app_ctx_stack (exec (AppContext_push X a) s) = a :: app_ctx_stack s /\
  ac_refcnt (app_ctxs (exec (AppContext_push X a) s) a) = ac_refcnt (app_ctxs s a) + 1 /\
  log (exec (AppContext_push X a) s) = log s ++ [EvSignal appcontext_pushed].
Proof.
  rewrite AppContext_push_exec. simpl. rewrite upd_same. auto.
Qed.

(** One pop of an application context. *)
Lemma AppContext_pop_step (a : nat) (exc : exc_arg) (s : State) :
  app_ctx_stack (exec (AppContext_pop X a exc) s) = tail (app_ctx_stack s) /\
  ac_refcnt (app_ctxs (exec (AppContext_pop X a exc) s) a) = ac_refcnt (app_ctxs s a) - 1 /\
  exists d, log (exec (AppContext_pop X a exc) s) = log s ++ d /\
    count_events (is_app_teardown a) d =
      if ac_refcnt (app_ctxs s a) - 1 <=? 0 then 1%nat else 0%nat.
Proof.
  destruct (AppContext_pop_exec a exc s) as (w & d & -> & Hd). simpl.
  rewrite upd_same. simpl. split; [|split; [reflexivity|]].
  - destruct (app_ctx_stack s); reflexivity.
  - exists d. split; [reflexivity|].
    destruct (ac_refcnt (app_ctxs s a) - 1 <=? 0).
    + destruct Hd as (e & d' & -> & Hd'). simpl. rewrite Nat.eqb_refl.
      rewrite (count_events_quiet (is_app_teardown a) d'); auto.
      intros ev. apply quiet_not_app_teardown.
    + apply count_events_quiet; auto. intros ev. apply quiet_not_app_teardown.
Qed.

Lemma app_pushes_spec (a : nat) (n : nat) (s : State) :
  app_ctx_stack (app_pushes a n s) = repeat a n ++ app_ctx_stack s /\
  ac_refcnt (app_ctxs (app_pushes a n s) a) = ac_refcnt (app_ctxs s a) + Z.of_nat n /\
  count_events (is_app_teardown a) (log (app_pushes a n s)) =
    count_events (is_app_teardown a) (log s).
Proof.
  induction n as [|n (IH1 & IH2 & IH3)]; simpl.
  - repeat split; lia.
  - destruct (AppContext_push_step a (app_pushes a n s)) as (H1 & H2 & H3).
    unfold app_pushes in *. rewrite H1, H2, H3, IH1, IH2.
    rewrite count_events_app, IH3. simpl. repeat split; lia.
Qed.



(** ** Request contexts *)

Lemma no_request_teardown_quiet d :
  Forall (fun ev => quiet ev = true) d -> no_request_teardown d.
Proof.
  intros H c. apply count_events_quiet; auto.
  intros ev. apply quiet_not_request_teardown.
Qed.

Lemma no_request_teardown_app d1 d2 :
  no_request_teardown d1 -> no_request_teardown d2 -> no_request_teardown (d1 ++ d2).
Proof. intros H1 H2 c. rewrite count_events_app, H1, H2. reflexivity. Qed.

Lemma no_request_teardown_nil : no_request_teardown [].
Proof. intros c. reflexivity. Qed.

Lemma req_frame_refl s : req_frame s s.
Proof.
  repeat split. exists []. rewrite app_nil_r. split; [reflexivity|].
  apply no_request_teardown_nil.
Qed.

Lemma req_frame_trans s1 s2 s3 : req_frame s1 s2 -> req_frame s2 s3 -> req_frame s1 s3.
Proof.
  intros (A1 & A2 & A3 & A4 & d1 & A5 & A6) (B1 & B2 & B3 & B4 & d2 & B5 & B6).
  repeat split; try congruence.
  exists (d1 ++ d2). rewrite B5, A5, app_assoc. split; [reflexivity|].
  apply no_request_teardown_app; assumption.
Qed.

Lemma world_log_step_req_frame s s' : world_log_step s s' -> req_frame s s'.
Proof.
  intros (w & d & -> & Hd). repeat split.
  exists d. split; [reflexivity|]. apply no_request_teardown_quiet, Hd.
Qed.

Lemma req_frame_AppContext_pop a exc s : req_frame s (exec (AppContext_pop X a exc) s).
Proof.
  destruct (AppContext_pop_exec a exc s) as (w & d & -> & Hd). repeat split.
  exists d. split; [reflexivity|].
  destruct (ac_refcnt (app_ctxs s a) - 1 <=? 0).
  - destruct Hd as (e & d' & -> & Hd'). intros c. simpl.
    apply (no_request_teardown_quiet _ Hd').
  - apply no_request_teardown_quiet, Hd.
Qed.

Lemma req_frame_AppContext_push a s : req_frame s (exec (AppContext_push X a) s).
Proof.
  rewrite AppContext_push_exec. repeat split.
  exists [EvSignal appcontext_pushed]. split; [reflexivity|]. intros c. reflexivity.
Qed.

Lemma req_frame_do_teardown_request app exc s :
  req_frame s (exec (do_teardown_request X app exc) s).
Proof. apply world_log_step_req_frame, quiet_do_teardown_request. Qed.

Ltac frame_call Hrun :=
  match type of Hrun with
  | context [do_teardown_request X ?a ?e ?st] =>
      let H := fresh "Hfr" in
      pose proof (req_frame_do_teardown_request a e st) as H;
      unfold exec in H;
      destruct (do_teardown_request X a e st) as [? ?];
      simpl in H; destruct H as (? & ? & ? & ? & ? & ? & ?); simpl in *
  | context [AppContext_pop X ?a ?e ?st] =>
      let H := fresh "Hfr" in
      pose proof (req_frame_AppContext_pop a e st) as H;
      unfold exec in H;
      destruct (AppContext_pop X a e st) as [? ?];
      simpl in H; destruct H as (? & ? & ? & ? & ? & ? & ?); simpl in *
  end.

Lemma no_request_teardown_cons ev d :
  quiet ev = true -> no_request_teardown d -> no_request_teardown (ev :: d).
Proof.
  intros Hq Hd c. simpl. rewrite (quiet_not_request_teardown c ev Hq). apply Hd.
Qed.

(** [RequestContext.pop] at the last level of a context on top of the
    stack. *)
Lemma RequestContext_pop_last t exc s rs x r s' :
  request_ctx_stack s = t :: rs ->
  rc_implicit_app_ctx_stack (req_ctxs s t) = [x] ->
  RequestContext_pop X t exc s = (r, s') ->
  request_ctx_stack s' = rs /\
  (forall c, c <> t -> req_ctxs s' c = req_ctxs s c) /\
  rc_implicit_app_ctx_stack (req_ctxs s' t) = [] /\
  rc_preserved (req_ctxs s' t) = false /\
  exists d, log s' =
              log s ++ EvRequestTeardown t
                         (match exc with Sentinel => exc_info s | Given e0 => e0 end) :: d /\
            no_request_teardown d.
Proof.
  intros Hst Himp Hrun.
  unfold RequestContext_pop, try_finally, pop_request_ctx_stack, py_assert, resolve_exc,
    bind, modify, gets, ret, raise, emit in Hrun.
  rewrite Himp in Hrun. simpl in Hrun.
  destruct exc as [|e0]; simpl in Hrun; rewrite !upd_same in Hrun; simpl in Hrun.
  all: frame_call Hrun.
  all: destruct r0 as [[]|er]; simpl in Hrun.
  all: try (destruct (has_close _); simpl in Hrun; unfold lift_world in Hrun; simpl in Hrun;
            try destruct (request_close X _) as [[[]|ec] wc]; simpl in Hrun).
  all: repeat match goal with H : request_ctx_stack _ = _ |- _ => rewrite H in Hrun end;
       rewrite ?Hst in Hrun; simpl in Hrun.
  all: destruct x as [a1|]; simpl in Hrun.
  all: try frame_call Hrun.
  all: rewrite ?bool_decide_eq_true_2 in Hrun by reflexivity.
  all: repeat match type of Hrun with
       | context [match ?r with Ok _ => _ | Raise _ => _ end] => destruct r as [[]|?]
       end; simpl in Hrun.
  all: injection Hrun as <- <-.
  all: simpl;
    repeat match goal with
    | H : req_ctxs _ = _ |- _ => rewrite H; clear H
    | H : log _ = _ |- _ => rewrite H; clear H
    | H : request_ctx_stack _ = _ |- _ => rewrite H; clear H
    end; simpl.
  all: rewrite ?upd_same; simpl.
  all: split; [reflexivity|]; split;
    [intros c Hc; rewrite ?upd_other by exact Hc; reflexivity|].
  all: split; [reflexivity|]; split; [reflexivity|].
  all: eexists; split; [rewrite <- ?app_assoc; simpl; reflexivity|].
  all: repeat first [ assumption
                    | apply no_request_teardown_nil
                    | apply no_request_teardown_app
                    | apply no_request_teardown_cons; [reflexivity|] ].
Qed.






Lemma RequestContext_push_unfold (self : nat) :
  RequestContext_push X self = bind reclaim_preserved (fun _ => push_rest self).
Proof. reflexivity. Qed.

Ltac run_step Hrun :=
  match type of Hrun with
  | context [match ?e with _ => _ end] =>
      lazymatch e with
      | context [match _ with _ => _ end] => fail
      | _ => destruct e eqn:?
      end
  end; simpl in Hrun; try discriminate Hrun.

Lemma app_on_top_inv app (s : State) a :
  app_on_top app s -> ls_top (app_ctx_stack s) = Some a -> ac_app (app_ctxs s a) = app.
Proof.
  intros (a' & rest & Hs & Ha) Ht. rewrite Hs in Ht. simpl in Ht. congruence.
Qed.

(** What [RequestContext.push] does after reclaiming a preserved context. *)
Lemma push_rest_spec (c : nat) (s s' : State) :
  push_rest c s = (Ok tt, s') ->
  request_ctx_stack s' = c :: request_ctx_stack s /\
  (exists y,
     rc_implicit_app_ctx_stack (req_ctxs s' c) =
       rc_implicit_app_ctx_stack (req_ctxs s c) ++ [y] /\
     (app_on_top (rc_app (req_ctxs s c)) s -> y = None)) /\
  rc_preserved (req_ctxs s' c) = rc_preserved (req_ctxs s c) /\
  rc_app (req_ctxs s' c) = rc_app (req_ctxs s c) /\
  app_on_top (rc_app (req_ctxs s c)) s' /\
  (forall c', c' <> c -> req_ctxs s' c' = req_ctxs s c') /\
  exists d, log s' = log s ++ d /\ no_request_teardown d.
Proof.
  intros Hrun.
  unfold push_rest in Hrun.
  unfold app_context, AppContext_push, create_url_adapter, match_request, try_except,
    send, lift_world, of_result, py_append, ls_push,
    bind, modify, gets, ret, raise, emit in Hrun.
  simpl in Hrun.
  repeat run_step Hrun.
  all: injection Hrun as <-; simpl; rewrite ?upd_same; simpl; rewrite ?upd_same; simpl.
  all: split; [reflexivity|]; split;
    [eexists; split; [reflexivity|];
     intros Hon; first
       [ reflexivity
       | exfalso;
         match goal with
         | H : ls_top (app_ctx_stack _) = Some _ |- _ =>
             pose proof (app_on_top_inv _ _ _ Hon H) as Ha;
             match goal with
             | H2 : (_ =? _)%nat = false |- _ => apply Nat.eqb_neq in H2; congruence
             end
         | H : ls_top (app_ctx_stack _) = None |- _ =>
             destruct Hon as (a' & rest' & Hs & _); rewrite Hs in H; discriminate H
         end ]
    |].
  all: split; [reflexivity|]; split; [reflexivity|]; split;
    [ first
        [ match goal with
          | H : ls_top (app_ctx_stack ?s0) = Some ?n,
            H2 : (_ =? _)%nat = true |- _ =>
              apply Nat.eqb_eq in H2;
              destruct (app_ctx_stack s0) as [|a' rest'] eqn:Hs; simpl in H;
              [discriminate H|]; injection H as ->;
              exists n, rest'; split; [simpl; exact Hs|simpl; exact H2]
          end
        | eexists _, _; split; [reflexivity|]; simpl; rewrite ?upd_same; reflexivity ]
    |].
  all: split; [intros c' Hc'; rewrite ?upd_other by exact Hc'; reflexivity|].
  all: first [ exists []; split; [rewrite app_nil_r; reflexivity|];
               apply no_request_teardown_nil
             | exists [EvSignal appcontext_pushed]; split; [reflexivity|];
               apply no_request_teardown_cons;
               [reflexivity|apply no_request_teardown_nil] ].
Qed.









(** C8, for a preserved context with a single outstanding push: when
    [RequestContext.push] of a context [new] runs while the top of the
    request stack is another context [old] that is preserved and has a
    single outstanding push, and the push returns, then the first thing the
    push does is the teardown sequence of [old] with its stored error, no
    other teardown sequence of [old] runs, and afterwards [old] is neither
    on the stack nor preserved. *)
Theorem preserved_context_reclaimed (new old : nat) (s s' : State)
    (rest : list nat) (x : option nat) :
  request_ctx_stack s = old :: rest ->
  rc_preserved (req_ctxs s old) = true ->
  rc_implicit_app_ctx_stack (req_ctxs s old) = [x] ->
  old <> new ->
  (old ∉ rest) ->
  RequestContext_push X new s = (Ok tt, s') ->
  (exists d,
     log s' = log s ++ EvRequestTeardown old (rc_preserved_exc (req_ctxs s old)) :: d /\
     count_events (is_request_teardown old) d = 0%nat) /\
  (old ∉ request_ctx_stack s') /\
  rc_preserved (req_ctxs s' old) = false.
Proof.
  intros Hst Hp Hi Hne Hnotin Hrun.
  rewrite RequestContext_push_unfold in Hrun. unfold bind in Hrun.
  destruct (reclaim_preserved s) as [[[]|e] s0] eqn:Er; [|discriminate].
  unfold reclaim_preserved, bind, gets in Er. rewrite Hst in Er. simpl in Er.
  rewrite Hp in Er.
  destruct (RequestContext_pop_last old _ s rest x _ s0 Hst Hi Er)
    as (P1 & P2 & P3 & P4 & d & P5 & P6).
  destruct (push_rest_spec new s0 s' Hrun)
    as (H1 & _ & _ & _ & _ & H6 & d' & H7 & H8).
  split; [|split].
  - exists (d ++ d'). rewrite H7, P5. split.
    + rewrite <- app_assoc. reflexivity.
    + rewrite count_events_app, P6, H8. reflexivity.
  - rewrite H1, P1. intros Hin. apply elem_of_cons in Hin as [->|Hin]; contradiction.
  - rewrite H6 by exact Hne. exact P4.
Qed.

(** ** The application context stack *)

Lemma app_pops_stack (a : nat) (excs : list exc_arg) (s : State) :
  app_ctx_stack (app_pops a excs s) = drop (length excs) (app_ctx_stack s).
Proof.
  revert s. induction excs as [|e excs IH]; intros s; simpl.
  - rewrite drop_0. reflexivity.
  - unfold app_pops in *. simpl. rewrite IH.
    destruct (AppContext_pop_step a e s) as (-> & _).
    destruct (app_ctx_stack s); simpl; [rewrite drop_nil|]; reflexivity.
Qed.

(** C3 (amended): [AppContext.push], at every reference count, puts the
    context on top of the stack, adds one to the count and emits the pushed
    notification; [AppContext.pop], at every count, removes the top entry
    of the stack and takes one from the count, and runs the teardown exactly
    when the count reaches zero or less; after [n] pushes and [k <= n] pops
    [n - k] entries of the context remain on top of the stack. *)
Theorem appcontext_stack_discipline (a : nat) (exc : exc_arg) (s : State) :
  (app_ctx_stack (exec (AppContext_push X a) s) = a :: app_ctx_stack s /\
   ac_refcnt (app_ctxs (exec (AppContext_push X a) s) a) = ac_refcnt (app_ctxs s a) + 1 /\
   log (exec (AppContext_push X a) s) = log s ++ [EvSignal appcontext_pushed]) /\
  (app_ctx_stack (exec (AppContext_pop X a exc) s) = tail (app_ctx_stack s) /\
   ac_refcnt (app_ctxs (exec (AppContext_pop X a exc) s) a) = ac_refcnt (app_ctxs s a) - 1 /\
   exists d, log (exec (AppContext_pop X a exc) s) = log s ++ d /\
     count_events (is_app_teardown a) d =
       if ac_refcnt (app_ctxs s a) - 1 <=? 0 then 1%nat else 0%nat) /\
  (forall (n : nat) (excs : list exc_arg),
     (length excs <= n)%nat ->
     app_ctx_stack (app_pops a excs (app_pushes a n s)) =
       repeat a (n - length excs) ++ app_ctx_stack s).
Proof.
  split; [apply AppContext_push_step|]. split; [apply AppContext_pop_step|].
  intros n excs Hle. rewrite app_pops_stack.
  destruct (app_pushes_spec a n s) as (-> & _).
  rewrite drop_app_le by (rewrite repeat_length; exact Hle).
  f_equal. clear s exc.
  revert n Hle. induction (length excs) as [|k IH]; intros n Hle.
  - rewrite drop_0, Nat.sub_0_r. reflexivity.
  - destruct n as [|n]; [lia|]. simpl. apply IH. lia.
Qed.

(** ** Route matching *)

(** C9: with a router whose failures are HTTP exceptions, route matching
    never raises: [match_request] returns, and has stored the matched rule
    and view arguments on the request, or the routing failure in the
    request's [routing_exception]; the constructor returns, with the URL
    adapter or with the failure of its creation stored in the same field;
    and [dispatch_request] raises the stored routing exception. *)
Theorem match_request_never_raises (c : nat) (s : State) (adapter : Adapter) :
  rc_url_adapter (req_ctxs s c) = Some adapter ->
  (forall e, fst (adapter (world s)) = Raise e -> is_http_exception e = true) ->
  (exists s', match_request c s = (Ok tt, s') /\
     match fst (adapter (world s)) with
     | Ok (rule, args) =>
         url_rule (rc_request (req_ctxs s' c)) = Some rule /\
         view_args (rc_request (req_ctxs s' c)) = Some args /\
         routing_exception (rc_request (req_ctxs s' c)) =
           routing_exception (rc_request (req_ctxs s c))
     | Raise e =>
         routing_exception (rc_request (req_ctxs s' c)) = Some e /\
         url_rule (rc_request (req_ctxs s' c)) = url_rule (rc_request (req_ctxs s c))
     end) /\
  (forall app request session,
     (forall e, bind_to_environ (apps s app) request = Raise e ->
                is_http_exception e = true) ->
     exists i s', RequestContext_init app request session s = (Ok i, s') /\
       match bind_to_environ (apps s app) request with
       | Ok ad => rc_url_adapter (req_ctxs s' i) = Some ad /\
                  rc_request (req_ctxs s' i) = request
       | Raise e => rc_url_adapter (req_ctxs s' i) = None /\
                    routing_exception (rc_request (req_ctxs s' i)) = Some e
       end) /\
  (forall app e,
     ls_top (request_ctx_stack s) = Some c ->
     routing_exception (rc_request (req_ctxs s c)) = Some e ->
     exists e', dispatch_request X app s = (Raise e', s) /\
                (debug (apps s app) = false -> e' = e)).
Proof.
  intros Had Hhttp. split; [|split].
  - unfold match_request, try_except, bind, gets, modify, lift_world.
    rewrite Had. destruct (adapter (world s)) as [[[rule args]|e] w] eqn:Ea; simpl in *.
    + eexists. split; [reflexivity|]. simpl. rewrite upd_same. simpl. auto.
    + rewrite (Hhttp e eq_refl). eexists. split; [reflexivity|].
      simpl. rewrite upd_same. simpl. auto.
  - intros app request session Hb.
    unfold RequestContext_init, try_except, create_url_adapter, of_result,
      bind, gets, modify, ret.
    destruct (bind_to_environ (apps s app) request) as [ad|e] eqn:Eb; simpl.
    + eexists _, _. split; [reflexivity|]. simpl. rewrite upd_same. simpl. auto.
    + rewrite (Hb e eq_refl). simpl. eexists _, _. split; [reflexivity|].
      simpl. rewrite upd_same. simpl. auto.
  - intros app e Htop Hre.
    unfold dispatch_request, top_request_context, bind, gets, ret.
    rewrite Htop. simpl. rewrite Hre. unfold raise_routing_exception, raise.
    destruct (debug (apps s app)); simpl.
    + destruct (_ || _); eexists; (split; [reflexivity|]); intros; congruence.
    + eexists. split; [reflexivity|]. reflexivity.
Qed.

(** ** Finalizing a request *)

(** C5 (amended): once the response is built, an [Exception] raised by a
    post-request hook or by saving the session is logged and suppressed,
    the built response being returned, when [finalize_request] was entered
    from the error handler, and is raised otherwise; so is a failure of the
    [request_finished] notification; a failure of the response coercion is
    always raised and nothing is logged; an exception that is not an
    [Exception] is always raised. *)
Theorem finalize_request_failures (app : nat) (rv : pyval)
    (from_error_handler : bool) (s s1 : State) (response : Response) (e : exn) :
  make_response X rv = Ok response ->
  process_response X app response s = (Raise e, s1) ->
  is_exception e = true ->
  (fst (finalize_request X app rv from_error_handler s) =
     (if from_error_handler then Ok response else Raise e) /\
   log (exec (finalize_request X app rv from_error_handler) s) =
     (if from_error_handler then log s1 ++ [EvLog finalize_failed_msg] else log s1)) /\
  (forall rv' e' flag s0,
     make_response X rv' = Raise e' ->
     finalize_request X app rv' flag s0 = (Raise e', s0)) /\
  (forall rv' r0 r1 e' flag s0 s2 s3,
     make_response X rv' = Ok r0 ->
     process_response X app r0 s0 = (Ok r1, s2) ->
     send X request_finished s2 = (Raise e', s3) ->
     is_exception e' = true ->
     fst (finalize_request X app rv' flag s0) = (if flag then Ok r1 else Raise e')) /\
  (forall rv' r0 e' flag s0 s2,
     make_response X rv' = Ok r0 ->
     process_response X app r0 s0 = (Raise e', s2) ->
     is_exception e' = false ->
     finalize_request X app rv' flag s0 = (Raise e', s2)).
Proof.
  intros Hmk Hpr He. split; [|split; [|split]].
  - unfold exec, finalize_request, try_except, of_result, bind, emit, modify, ret, raise.
    rewrite Hmk, Hpr, He. destruct from_error_handler; simpl; auto.
  - intros rv' e' flag s0 Hm.
    unfold finalize_request, of_result, bind. rewrite Hm. reflexivity.
  - intros rv' r0 r1 e' flag s0 s2 s3 Hm Hp Hs Hex.
    unfold finalize_request, try_except, of_result, bind, emit, modify, ret, raise.
    rewrite Hm, Hp. simpl. rewrite Hs, Hex. destruct flag; reflexivity.
  - intros rv' r0 e' flag s0 s2 Hm Hp Hex.
    unfold finalize_request, try_except, of_result, bind, ret.
    rewrite Hm, Hp, Hex. reflexivity.
Qed.

(** ** Error handlers *)

Lemma find_in_mro_empty (hm : gmap string handler_t) mro :
  size hm = 0%nat -> find_in_mro hm mro = None.
Proof.
  intros H. apply map_size_empty_inv in H. subst hm.
  induction mro as [|cls mro IH]; simpl; [reflexivity|].
  rewrite lookup_empty. exact IH.
Qed.

Lemma spec_equiv_setdefault (sp : handler_spec_t) name :
  spec_equiv (<[name := default ∅ (sp !! name)]> sp) sp.
Proof.
  intros n.
  destruct (decide (name = n)) as [->|Hne].
  - rewrite lookup_insert_eq. reflexivity.
  - rewrite lookup_insert_ne by exact Hne. reflexivity.
Qed.

Lemma first_handler_equiv sp' sp mro keys :
  spec_equiv sp' sp -> first_handler sp' mro keys = first_handler sp mro keys.
Proof.
  intros H. induction keys as [|key keys IH]; simpl; [reflexivity|].
  unfold bucket_lookup. rewrite H, IH. reflexivity.
Qed.

(** The loop of [_find_error_handler] returns the first handler found and
    changes nothing but the handler registry, to which it adds empty
    scopes. *)
Lemma find_handler_loop_spec app cls keys (s : State) :
  exists s',
    find_handler_loop app cls keys s =
      (Ok (first_handler (error_handler_spec (apps s app)) (cls_mro cls) keys), s') /\
    spec_equiv (error_handler_spec (apps s' app)) (error_handler_spec (apps s app)) /\
    log s' = log s /\ world s' = world s /\
    TRAP_HTTP_EXCEPTIONS (apps s' app) = TRAP_HTTP_EXCEPTIONS (apps s app).
Proof.
  revert s. induction keys as [|[name c] keys IH]; intros s; simpl.
  - exists s. repeat split.
  - unfold bind, gets, modify.
    set (s1 := set_app app _ s).
    assert (Hsp : error_handler_spec (apps s1 app) =
                  <[name := default ∅ (error_handler_spec (apps s app) !! name)]>
                    (error_handler_spec (apps s app))).
    { unfold s1. simpl. rewrite upd_same. reflexivity. }
    assert (Heq : spec_equiv (error_handler_spec (apps s1 app))
                             (error_handler_spec (apps s app))).
    { rewrite Hsp. apply spec_equiv_setdefault. }
    assert (Htr : TRAP_HTTP_EXCEPTIONS (apps s1 app) = TRAP_HTTP_EXCEPTIONS (apps s app)).
    { unfold s1. simpl. rewrite upd_same. reflexivity. }
    destruct (IH s1) as (s' & Hrun & He & Hl & Hw & Ht).
    rewrite (first_handler_equiv _ _ _ _ Heq) in Hrun.
    assert (Hrest : exists s', find_handler_loop app cls keys s1 =
        (Ok (first_handler (error_handler_spec (apps s app)) (cls_mro cls) keys), s') /\
        spec_equiv (error_handler_spec (apps s' app)) (error_handler_spec (apps s app)) /\
        log s' = log s /\ world s' = world s /\
        TRAP_HTTP_EXCEPTIONS (apps s' app) = TRAP_HTTP_EXCEPTIONS (apps s app)).
    { exists s'. repeat split; try assumption.
      - intros n. rewrite He. apply Heq.
      - congruence. }
    unfold bucket_lookup. simpl.
    destruct (default ∅ (error_handler_spec (apps s app) !! name) !! c)
      as [hm|] eqn:Eb; [|exact Hrest].
    destruct (Nat.eqb_spec (size hm) 0) as [Hz|Hz].
    + rewrite (find_in_mro_empty hm _ Hz). exact Hrest.
    + destruct (find_in_mro hm (cls_mro cls)) as [h|]; [|exact Hrest].
      exists s1. unfold ret. repeat split; assumption.
Qed.

Lemma pyclass_eqb_refl c : pyclass_eqb c c = true.
Proof. unfold pyclass_eqb. rewrite !bool_decide_eq_true_2 by reflexivity. reflexivity. Qed.

Lemma exn_is_refl (e : exn) : exn_is e e = true.
Proof.
  revert e. fix exn_is_refl 1.
  intros [c m [o|]]; simpl.
  - rewrite pyclass_eqb_refl, bool_decide_eq_true_2 by reflexivity. apply exn_is_refl.
  - rewrite pyclass_eqb_refl, bool_decide_eq_true_2 by reflexivity. reflexivity.
Qed.

Lemma _find_error_handler_spec app c (e : exn) (s : State) :
  ls_top (request_ctx_stack s) = Some c ->
  issubclass (exn_class e) "Exception" = true ->
  exists s',
    _find_error_handler X app e s =
      (Ok (first_handler (error_handler_spec (apps s app)) (cls_mro (exn_class e))
             (lookup_keys (blueprint (rc_request (req_ctxs s c)))
                (error_code (exn_class e)))), s') /\
    log s' = log s /\ world s' = world s.
Proof.
  intros Htop Hex.
  unfold _find_error_handler, _get_exc_class_and_code, current_request, of_result,
    bind, gets, error_code.
  rewrite Hex.
  destruct (issubclass (exn_class e) "HTTPException"); simpl; rewrite Htop.
  - destruct (find_handler_loop_spec app (exn_class e)
                (lookup_keys (blueprint (rc_request (req_ctxs s c)))
                   (cls_code (exn_class e))) s)
      as (s' & Hrun & _ & Hl & Hw & _).
    exists s'. auto.
  - destruct (find_handler_loop_spec app (exn_class e)
                (lookup_keys (blueprint (rc_request (req_ctxs s c))) None) s)
      as (s' & Hrun & _ & Hl & Hw & _).
    exists s'. auto.
Qed.

(** C2 (amended): with a request active, the handler of an exception is the
    first one found under the keys (blueprint, code), (application, code),
    (blueprint, no code), (application, no code), where the code is the
    exception class's own when it is an HTTP exception, and where under each
    key only the handlers registered under exactly that key are searched,
    along the MRO of the exception's class; [handle_user_exception] calls
    no other handler, returns what the handler returns when it calls it,
    calls none when none is found, and calls the one found whenever the
    exception is not an untrapped HTTP exception, or has a code and is not a
    routing exception. *)
Theorem error_handler_precedence (app c : nat) (e : exn) (s : State) :
  ls_top (request_ctx_stack s) = Some c ->
  issubclass (exn_class e) "Exception" = true ->
  exc_info s = Some e ->
  let found :=
    first_handler (error_handler_spec (apps s app)) (cls_mro (exn_class e))
      (lookup_keys (blueprint (rc_request (req_ctxs s c)))
         (error_code (exn_class e))) in
  fst (_find_error_handler X app e s) = Ok found /\
  exists d,
    log (exec (handle_user_exception X app e) s) = log s ++ d /\
    (d = [] \/
     exists h, found = Some h /\ d = [EvCall ErrorHandler (fn_name h)] /\
               fst (handle_user_exception X app e s) = fst (fn_run h e (world s))) /\
    (found = None -> d = []) /\
    (forall h, found = Some h ->
       isinstance_exn e "HTTPException" && negb (trap_http_exception (apps s app) e)
         = false \/
       (cls_code (exn_class e) <> None /\ isinstance_exn e "RoutingException" = false) ->
       d = [EvCall ErrorHandler (fn_name h)]).
Proof.
  intros Htop Hex Hei found.
  destruct (_find_error_handler_spec app c e s Htop Hex) as (s' & Hfind & Hl & Hw).
  fold found in Hfind. split; [rewrite Hfind; reflexivity|].
  unfold exec, handle_user_exception, handle_http_exception, py_assert, call,
    bind, gets, ret, raise, emit, modify, lift_world.
  rewrite Hei, exn_is_refl. simpl.
  destruct (isinstance_exn e "HTTPException" && negb (trap_http_exception (apps s app) e))
    eqn:Eb.
  - destruct (cls_code (exn_class e)) as [code|] eqn:Ec.
    + destruct (isinstance_exn e "RoutingException") eqn:Er.
      * exists []. rewrite app_nil_r. simpl. repeat split; auto.
        intros h _ [Hf|[_ Hf]]; discriminate Hf.
      * rewrite Hfind. destruct found as [h|] eqn:Ef.
        -- simpl. rewrite Hw, Hl.
           destruct (fn_run h e (world s)) as [r w] eqn:Eh. simpl.
           exists [EvCall ErrorHandler (fn_name h)].
           repeat split; try congruence; try discriminate.
           right. exists h. repeat split; rewrite ?Eh; reflexivity.
        -- simpl. exists []. rewrite app_nil_r, Hl. repeat split; auto.
           intros h Hf. discriminate Hf.
    + exists []. rewrite app_nil_r. simpl. repeat split; auto.
      intros h _ [Hf|[Hf _]]; [discriminate Hf|congruence].
  - rewrite Hfind. destruct found as [h|] eqn:Ef.
    + simpl. rewrite Hw, Hl.
      destruct (fn_run h e (world s)) as [r w] eqn:Eh. simpl.
      exists [EvCall ErrorHandler (fn_name h)].
      repeat split; try congruence; try discriminate.
      right. exists h. repeat split; rewrite ?Eh; reflexivity.
    + simpl. exists []. rewrite app_nil_r, Hl. repeat split; auto.
      intros h Hf. discriminate Hf.
Qed.

(** ** Order of the hooks *)

Lemma chain_blueprint_app {A} (funcs : list A) d bp (f : list A -> list A) :
  f [] = [] -> chain_blueprint funcs d bp f = funcs ++ f (in_blueprint d bp).
Proof.
  intros Hf. unfold chain_blueprint, in_blueprint.
  destruct bp as [name|]; [|rewrite Hf, app_nil_r; reflexivity].
  destruct (d !! Some name); simpl; [reflexivity|].
  rewrite Hf, app_nil_r. reflexivity.
Qed.

Lemma set_log_set_world (s : State) w1 l1 w2 l2 :
  set_world w2 (set_log l2 (set_log l1 (set_world w1 s))) = set_log l2 (set_world w2 s).
Proof. destruct s; reflexivity. Qed.

Lemma set_log_world_id (s : State) : set_log (log s) (set_world (world s) s) = s.
Proof. destruct s; reflexivity. Qed.

Lemma run_before_request_funcs_ok funcs (s : State) :
  (forall f, f ∈ funcs -> forall w, fst (fn_run f tt w) = Ok VNone) ->
  exists w', run_before_request_funcs funcs s =
    (Ok VNone, set_log (log s ++ call_events BeforeRequest funcs) (set_world w' s)).
Proof.
  intros H. 
  assert (G : forall w0 l0, exists w',
    run_before_request_funcs funcs (set_log l0 (set_world w0 s)) =
      (Ok VNone, set_log (l0 ++ call_events BeforeRequest funcs) (set_world w' s))).
  { induction funcs as [|f funcs IH]; intros w0 l0; simpl.
    - exists w0. rewrite app_nil_r. reflexivity.
    - unfold bind, call, emit, modify, lift_world. unfold bind. simpl.
      pose proof (H f ltac:(left) w0) as Hf.
      destruct (fn_run f () w0) as [r w1]. simpl in Hf. subst r.
      rewrite set_log_set_world.
      destruct (IH ltac:(intros g Hg; apply H; right; exact Hg) w1
                  (l0 ++ [EvCall BeforeRequest (fn_name f)])) as [w' Hw'].
      exists w'. rewrite Hw', <- app_assoc. reflexivity. }
  destruct (G (world s) (log s)) as [w' Hw']. rewrite set_log_world_id in Hw'. eauto.
Qed.

Lemma run_after_request_funcs_ok funcs (response : Response) (s : State) :
  (forall f, f ∈ funcs -> forall r w, exists r', fst (fn_run f r w) = Ok r') ->
  exists r' w', run_after_request_funcs funcs response s =
    (Ok r', set_log (log s ++ call_events AfterRequest funcs) (set_world w' s)).
Proof.
  intros H.
  assert (G : forall r0 w0 l0, exists r' w',
    run_after_request_funcs funcs r0 (set_log l0 (set_world w0 s)) =
      (Ok r', set_log (l0 ++ call_events AfterRequest funcs) (set_world w' s))).
  { induction funcs as [|f funcs IH]; intros r0 w0 l0; simpl.
    - exists r0, w0. rewrite app_nil_r. reflexivity.
    - unfold bind, call, emit, modify, lift_world. unfold bind. simpl.
      destruct (H f ltac:(left) r0 w0) as [r1 Hf].
      destruct (fn_run f r0 w0) as [r w1]. simpl in Hf. subst r.
      rewrite set_log_set_world.
      destruct (IH ltac:(intros g Hg; apply H; right; exact Hg) r1 w1
                  (l0 ++ [EvCall AfterRequest (fn_name f)])) as (r' & w' & Hw').
      exists r', w'. rewrite Hw', <- app_assoc. reflexivity. }
  destruct (G response (world s) (log s)) as (r' & w' & Hw').
  rewrite set_log_world_id in Hw'. eauto.
Qed.

Lemma set_log_world_twice (s : State) w1 l1 w2 l2 :
  set_log l2 (set_world w2 (set_log l1 (set_world w1 s))) = set_log l2 (set_world w2 s).
Proof. destruct s; reflexivity. Qed.

Lemma runs_ok_bind {A B} (m : M A) (k : A -> M B) s e1 e2 P Q :
  runs_ok m s e1 P ->
  (forall a w', P a -> runs_ok (k a) (set_log (log s ++ e1) (set_world w' s)) e2 Q) ->
  runs_ok (bind m k) s (e1 ++ e2) Q.
Proof.
  intros (a & w1 & Hm & Ha) Hk.
  destruct (Hk a w1 Ha) as (b & w2 & Hkb & Hb).
  exists b, w2. unfold bind. rewrite Hm, Hkb. split; [|exact Hb].
  rewrite set_log_world_twice. simpl. rewrite app_assoc. reflexivity.
Qed.

Lemma runs_ok_try_except {A} (m : M A) catches handler s evs P :
  runs_ok m s evs P -> runs_ok (try_except m catches handler) s evs P.
Proof.
  intros (a & w1 & Hm & Ha). exists a, w1. unfold try_except. rewrite Hm. auto.
Qed.

Lemma runs_ok_weaken {A} (m : M A) s evs (P Q : A -> Prop) :
  runs_ok m s evs P -> (forall a, P a -> Q a) -> runs_ok m s evs Q.
Proof. intros (a & w1 & Hm & Ha) H. exists a, w1. auto. Qed.

Lemma send_ok sg (s : State) :
  (forall w, fst (signal_send X sg w) = Ok tt) ->
  runs_ok (send X sg) s [EvSignal sg] (fun _ => True).
Proof.
  intros H. unfold runs_ok, send, bind, emit, modify, lift_world. simpl.
  specialize (H (world s)). destruct (signal_send X sg (world s)) as [r w].
  simpl in H. subst r. exists tt, w. split; [|exact I]. destruct s; reflexivity.
Qed.

Lemma preprocess_request_ok app c (s : State) :
  ls_top (request_ctx_stack s) = Some c ->
  url_value_preprocessors (apps s app) = ∅ ->
  (forall f, f ∈ pre_request_order (apps s app)
                    (blueprint (rc_request (req_ctxs s c))) ->
             forall w, fst (fn_run f tt w) = Ok VNone) ->
  runs_ok (preprocess_request app) s
    (call_events BeforeRequest
       (pre_request_order (apps s app) (blueprint (rc_request (req_ctxs s c)))))
    (fun rv => rv = VNone).
Proof.
  intros Htop Hu Hpre.
  unfold runs_ok, preprocess_request, top_request_context, run_url_value_preprocessors,
    bind, gets, ret.
  rewrite Htop. simpl. rewrite Hu.
  unfold scoped_get at 1. rewrite lookup_empty. simpl.
  assert (Hc : chain_blueprint []
            (∅ : gmap (option string)
                   (list (callable (option string * option view_args_t)
                            (option view_args_t))))
            (blueprint (rc_request (req_ctxs s c))) id = []).
  { unfold chain_blueprint. destruct (blueprint _); [|reflexivity].
    rewrite lookup_empty. reflexivity. }
  rewrite Hc. simpl. unfold ret.
  rewrite chain_blueprint_app by reflexivity. unfold scoped_get, id.
  destruct (run_before_request_funcs_ok _ s Hpre) as [w' Hw'].
  exists VNone, w'. auto.
Qed.

Lemma dispatch_request_ok app c (s : State) rule args view :
  ls_top (request_ctx_stack s) = Some c ->
  routing_exception (rc_request (req_ctxs s c)) = None ->
  url_rule (rc_request (req_ctxs s c)) = Some rule ->
  provide_automatic_options rule
    && bool_decide (method (rc_request (req_ctxs s c)) = "OPTIONS") = false ->
  view_functions (apps s app) !! endpoint rule = Some view ->
  view_args (rc_request (req_ctxs s c)) = Some args ->
  (forall w, exists v r, fst (fn_run view args w) = Ok v /\ make_response X v = Ok r) ->
  runs_ok (dispatch_request X app) s [EvCall ViewFunction (fn_name view)]
    (fun v => exists r, make_response X v = Ok r).
Proof.
  intros Htop Hroute Hrule Hopt Hview Hargs Hok.
  unfold runs_ok, dispatch_request, top_request_context, call, bind, gets, ret,
    emit, modify, lift_world.
  rewrite Htop. simpl. rewrite Hroute, Hrule, Hopt, Hview, Hargs. simpl.
  destruct (Hok (world s)) as (v & r & Hv & Hr).
  destruct (fn_run view args (world s)) as [r0 w]. simpl in Hv. subst r0.
  exists v, w. split; [|eauto]. destruct s; reflexivity.
Qed.

Lemma process_response_ok app c (s : State) (response : Response) sess :
  ls_top (request_ctx_stack s) = Some c ->
  rc_session (req_ctxs s c) = Some sess ->
  (forall f, f ∈ post_request_order (apps s app) (req_ctxs s c)
                    (blueprint (rc_request (req_ctxs s c))) ->
             forall r w, exists r', fst (fn_run f r w) = Ok r') ->
  (forall r w, fst (save_session X sess r w) = Ok tt) ->
  runs_ok (process_response X app response) s
    (call_events AfterRequest
       (post_request_order (apps s app) (req_ctxs s c)
          (blueprint (rc_request (req_ctxs s c)))))
    (fun _ => True).
Proof.
  intros Htop Hsess Hpost Hsave.
  unfold runs_ok, process_response, top_request_context, bind, gets, ret.
  rewrite Htop. simpl. rewrite Hsess.
  rewrite chain_blueprint_app by reflexivity.
  assert (Hfun : match after_request_funcs (apps s app) !! None with
                 | Some l =>
                     (rc_after_request_functions (req_ctxs s c) ++
                      rev (in_blueprint (after_request_funcs (apps s app))
                             (blueprint (rc_request (req_ctxs s c))))) ++ rev l
                 | None =>
                     rc_after_request_functions (req_ctxs s c) ++
                     rev (in_blueprint (after_request_funcs (apps s app))
                            (blueprint (rc_request (req_ctxs s c))))
                 end =
                 post_request_order (apps s app) (req_ctxs s c)
                   (blueprint (rc_request (req_ctxs s c)))).
  { unfold post_request_order.
    destruct (after_request_funcs (apps s app) !! None); simpl.
    - rewrite <- app_assoc. reflexivity.
    - rewrite app_nil_r. reflexivity. }
  rewrite Hfun.
  destruct (run_after_request_funcs_ok _ response s Hpost) as (r' & w' & Hrun).
  rewrite Hrun.
  destruct (is_null_session X sess); simpl.
  - exists r', w'. auto.
  - unfold lift_world. simpl. specialize (Hsave r' w').
    destruct (save_session X sess r' w') as [r0 w2]. simpl in Hsave. subst r0.
    exists r', w2. split; [|exact I]. destruct s; reflexivity.
Qed.

Lemma finalize_request_ok app c (s : State) (rv : pyval) sess :
  ls_top (request_ctx_stack s) = Some c ->
  rc_session (req_ctxs s c) = Some sess ->
  (exists r, make_response X rv = Ok r) ->
  (forall w, fst (signal_send X request_finished w) = Ok tt) ->
  (forall f, f ∈ post_request_order (apps s app) (req_ctxs s c)
                    (blueprint (rc_request (req_ctxs s c))) ->
             forall r w, exists r', fst (fn_run f r w) = Ok r') ->
  (forall r w, fst (save_session X sess r w) = Ok tt) ->
  runs_ok (finalize_request X app rv false) s
    (call_events AfterRequest
       (post_request_order (apps s app) (req_ctxs s c)
          (blueprint (rc_request (req_ctxs s c))))
     ++ [EvSignal request_finished])
    (fun _ => True).
Proof.
  intros Htop Hsess [r Hr] Hsig Hpost Hsave.
  unfold finalize_request. unfold bind at 1, of_result. rewrite Hr.
  apply runs_ok_bind with (P := fun x => exists r1 : Response, x = inl r1).
  - apply runs_ok_try_except.
    rewrite <- (app_nil_r (call_events _ _)).
    apply runs_ok_bind with (P := fun _ => True).
    + apply (process_response_ok app c s r sess Htop Hsess Hpost Hsave).
    + intros r1 w' _. exists (inl r1), w'. unfold ret. simpl.
      rewrite app_nil_r. split; [destruct s; reflexivity|eauto].
  - intros x w' [r1 ->]. apply runs_ok_try_except.
    rewrite <- (app_nil_r [EvSignal request_finished]).
    apply runs_ok_bind with (P := fun _ => True).
    + apply send_ok, Hsig.
    + intros _ w2 _. eexists r1, w2. unfold ret. simpl. rewrite !app_nil_r.
      split; [destruct s; reflexivity|exact I].
Qed.

(** The dispatch after the first-request gate. *)
Lemma dispatch_core_ok (app c : nat) (s : State) (rule : Rule) (args : view_args_t)
    (view : callable view_args_t pyval) (sess : Session) :
  let a := apps s app in
  let ctx := req_ctxs s c in
  let req := rc_request ctx in
  let pre := pre_request_order a (blueprint req) in
  let post := post_request_order a ctx (blueprint req) in
  ls_top (request_ctx_stack s) = Some c ->
  url_value_preprocessors a = ∅ ->
  routing_exception req = None ->
  url_rule req = Some rule ->
  provide_automatic_options rule && bool_decide (method req = "OPTIONS") = false ->
  view_functions a !! endpoint rule = Some view ->
  view_args req = Some args ->
  rc_session ctx = Some sess ->
  (forall sg w, fst (signal_send X sg w) = Ok tt) ->
  (forall f, f ∈ pre -> forall w, fst (fn_run f tt w) = Ok VNone) ->
  (forall w, exists v r, fst (fn_run view args w) = Ok v /\ make_response X v = Ok r) ->
  (forall f, f ∈ post -> forall r w, exists r', fst (fn_run f r w) = Ok r') ->
  (forall r w, fst (save_session X sess r w) = Ok tt) ->
  runs_ok
    (bind
       (try_except
          (bind (send X request_started) (fun _ =>
             bind (preprocess_request app) (fun rv =>
               match rv with
               | VNone => dispatch_request X app
               | _ => ret rv
               end)))
          is_exception (handle_user_exception X app))
       (fun rv => finalize_request X app rv false)) s
    (([EvSignal request_started] ++ call_events BeforeRequest pre
      ++ [EvCall ViewFunction (fn_name view)])
     ++ call_events AfterRequest post ++ [EvSignal request_finished])
    (fun _ => True).
Proof.
  intros a ctx req pre post Htop Hu Hroute Hrule Hopt Hview Hargs Hsess
    Hsig Hpre Hviewok Hpost Hsave.
  apply runs_ok_bind with (P := fun v => exists r, make_response X v = Ok r).
  - apply runs_ok_try_except.
    apply runs_ok_bind with (P := fun _ => True); [apply send_ok, Hsig|].
    intros _ w1 _.
    apply runs_ok_bind with (P := fun rv => rv = VNone).
    + apply (preprocess_request_ok app c); assumption.
    + intros rv w2 ->.
      apply (dispatch_request_ok app c _ rule args view); assumption.
  - intros rv w1 Hrv.
    match goal with |- runs_ok _ ?st _ _ =>
      pose proof (finalize_request_ok app c st rv sess) as Hfin end.
    simpl in Hfin. apply Hfin; try assumption. apply Hsig.
Qed.

(** C7: in a request whose before-request functions return [None] and
    whose view and after-request functions return, [full_dispatch_request]
    calls, in this order, the before-request functions of the application
    and then those of the blueprint, each in registration order, the view
    function, and the after-request functions of the request context, of
    the blueprint and of the application, the latter two in reverse
    registration order. *)
Theorem hook_order (app c : nat) (s : State) (rule : Rule) (args : view_args_t)
    (view : callable view_args_t pyval) (sess : Session) :
  let a := apps s app in
  let ctx := req_ctxs s c in
  let req := rc_request ctx in
  let pre := pre_request_order a (blueprint req) in
  let post := post_request_order a ctx (blueprint req) in
  ls_top (request_ctx_stack s) = Some c ->
  before_first_request_funcs a = [] ->
  url_value_preprocessors a = ∅ ->
  routing_exception req = None ->
  url_rule req = Some rule ->
  provide_automatic_options rule && bool_decide (method req = "OPTIONS") = false ->
  view_functions a !! endpoint rule = Some view ->
  view_args req = Some args ->
  rc_session ctx = Some sess ->
  (forall sg w, fst (signal_send X sg w) = Ok tt) ->
  (forall f, f ∈ pre -> forall w, fst (fn_run f tt w) = Ok VNone) ->
  (forall w, exists v r, fst (fn_run view args w) = Ok v /\ make_response X v = Ok r) ->
  (forall f, f ∈ post -> forall r w, exists r', fst (fn_run f r w) = Ok r') ->
  (forall r w, fst (save_session X sess r w) = Ok tt) ->
  exists response s',
    full_dispatch_request X app s = (Ok response, s') /\
    log s' =
      log s ++ [EvSignal request_started] ++ call_events BeforeRequest pre
      ++ [EvCall ViewFunction (fn_name view)] ++ call_events AfterRequest post
      ++ [EvSignal request_finished].
Proof.
  intros a ctx req pre post Htop Hbfr Hu Hroute Hrule Hopt Hview Hargs Hsess
    Hsig Hpre Hviewok Hpost Hsave.
  unfold full_dispatch_request. unfold bind at 1.
  unfold try_trigger_before_first_request_functions, bind, gets, ret, modify.
  fold a. rewrite Hbfr. simpl.
  destruct (_got_first_request a) eqn:Eg.
  - destruct (dispatch_core_ok app c s rule args view sess Htop Hu Hroute Hrule Hopt
                Hview Hargs Hsess Hsig Hpre Hviewok Hpost Hsave)
      as (r & w' & Hrun & _).
    unfold bind in Hrun. exists r. eexists. split; [exact Hrun|].
    simpl. rewrite <- !app_assoc. reflexivity.
  - set (s1 := set_app app (with_got_first_request a) s).
    destruct (dispatch_core_ok app c s1 rule args view sess) as (r & w' & Hrun & _);
      try assumption.
    all: try (unfold s1; simpl; rewrite upd_same; simpl; assumption).
    unfold bind in Hrun. exists r. eexists. split; [exact Hrun|].
    unfold s1. simpl. rewrite !upd_same.
    unfold pre, post, pre_request_order, post_request_order. simpl.
    rewrite <- !app_assoc. reflexivity.
Qed.

End Properties.

(** * The life of a request context around a dispatch *)

Section Lifecycle_properties.
Context {World Response Session : Type}.
Variable X : @externals World Response Session.

Abbreviation pyval := (@pyval Response).
Abbreviation State := (@State World Response Session).
Abbreviation M := (@M World Response Session).
Abbreviation callable := (@callable World).
Abbreviation App := (@App World Response).
Abbreviation Request := (@Request Response).
Abbreviation RequestContext := (@RequestContext World Response Session).
Abbreviation dispatch_frame :=
  (dispatch_frame (World:=World) (Response:=Response) (Session:=Session)).
Abbreviation frame_m := (frame_m (World:=World) (Response:=Response) (Session:=Session)).

Lemma dispatch_frame_refl (s : State) : dispatch_frame s s.
Proof.
  do 5 (split; [reflexivity|]).
  exists []. rewrite app_nil_r. split; [reflexivity|constructor].
Qed.

Lemma dispatch_frame_trans (s1 s2 s3 : State) :
  dispatch_frame s1 s2 -> dispatch_frame s2 s3 -> dispatch_frame s1 s3.
Proof.
  intros (A1 & A2 & A3 & A4 & A5 & d1 & A6 & A7) (B1 & B2 & B3 & B4 & B5 & d2 & B6 & B7).
  split; [congruence|]. split; [congruence|]. split; [congruence|].
  split; [intros c; rewrite B4; apply A4|].
  split; [intros a; rewrite B5; apply A5|].
  exists (d1 ++ d2). rewrite B6, A6, app_assoc. split; [reflexivity|].
  apply Forall_app; auto.
Qed.

Lemma world_log_step_dispatch_frame (s s' : State) : world_log_step s s' -> dispatch_frame s s'.
Proof.
  intros (w & d & -> & Hd). destruct s; simpl.
  do 5 (split; [reflexivity|]). exists d. auto.
Qed.

Lemma dispatch_frame_exc_info_l (s s' : State) e :
  dispatch_frame s s' -> dispatch_frame (set_exc_info e s) s'.
Proof. destruct s; exact id. Qed.


Lemma frame_quiet {A} (m : M A) : quiet_m m -> frame_m m.
Proof. intros H s. apply world_log_step_dispatch_frame, H. Qed.

Lemma frame_ret {A} (a : A) : frame_m (ret a).
Proof. intros s. apply dispatch_frame_refl. Qed.

Lemma frame_raise {A} e : frame_m (@raise _ _ _ A e).
Proof. intros s. apply dispatch_frame_refl. Qed.

Lemma frame_gets {A} (f : State -> A) : frame_m (gets f).
Proof. intros s. apply dispatch_frame_refl. Qed.

Lemma frame_of_result {A} (r : result A) : frame_m (of_result r).
Proof. intros s. apply dispatch_frame_refl. Qed.

Lemma frame_bind {A B} (m : M A) (k : A -> M B) :
  frame_m m -> (forall a, frame_m (k a)) -> frame_m (bind m k).
Proof.
  intros Hm Hk s. specialize (Hm s). unfold exec, bind in *.
  destruct (m s) as [[a|e] s1]; simpl in *; [|exact Hm].
  eapply dispatch_frame_trans; [exact Hm|]. apply Hk.
Qed.


Lemma frame_call {A B} k (f : callable A B) a : frame_m (call k f a).
Proof. apply frame_quiet, quiet_call. Qed.



Lemma frame_lift_world {A} (f : World -> result A * World) : frame_m (lift_world f).
Proof. apply frame_quiet, quiet_lift_world. Qed.


(** An update of an application that keeps what [app_view] shows. *)
Lemma frame_modify_app app (f : State -> App) :
  (forall s, app_view (f s) = app_view (apps s app)) ->
  frame_m (modify (fun s => set_app app (f s) s)).
Proof.
  intros Hf s. unfold exec, modify. simpl.
  do 4 (split; [reflexivity|]).
  split; [intros a; simpl; unfold upd; destruct (Nat.eqb_spec a app) as [->|]; auto|].
  exists []. rewrite app_nil_r. split; [reflexivity|constructor].
Qed.



Lemma frame_current_request : frame_m current_request.
Proof.
  apply frame_bind; [apply frame_gets|]. intros st.
  destruct (ls_top st); [apply frame_gets|apply frame_raise].
Qed.


Lemma frame_find_handler_loop app cls keys : frame_m (find_handler_loop app cls keys).
Proof.
  induction keys as [|[name c] keys IH]; simpl; [apply frame_ret|].
  apply frame_bind; [apply frame_gets|]. intros a.
  apply frame_bind; [apply frame_modify_app; intros s; reflexivity|]. intros _.
  destruct (_ !! c) as [hm|]; [|exact IH].
  destruct (Nat.eqb (size hm) 0); [exact IH|].
  destruct (find_in_mro hm (cls_mro cls)); [apply frame_ret|exact IH].
Qed.

Lemma frame_find_error_handler app e : frame_m (_find_error_handler X app e).
Proof.
  unfold _find_error_handler.
  apply frame_bind; [apply frame_of_result|]. intros [cls code].
  apply frame_bind; [apply frame_current_request|]. intros req.
  apply frame_find_handler_loop.
Qed.














(** ** Creating, pushing and popping around a body *)

Ltac step_run Hrun :=
  match type of Hrun with
  | context [match ?e with _ => _ end] =>
      lazymatch e with
      | context [match _ with _ => _ end] => fail
      | _ => destruct e eqn:?
      end
  end; simpl in Hrun; try discriminate Hrun.


Lemma reclaim_preserved_skip (s : State) :
  (forall t, ls_top (request_ctx_stack s) = Some t ->
             rc_preserved (req_ctxs s t) = false) ->
  reclaim_preserved X s = (Ok tt, s).
Proof.
  intros H. unfold reclaim_preserved, bind, gets, ret.
  destruct (ls_top (request_ctx_stack s)) as [t|]; [|reflexivity].
  rewrite (H t eq_refl). reflexivity.
Qed.

(** What [RequestContext.push] does to the application context stack. *)
Lemma push_rest_app_stack (c : nat) (s s' : State) :
  push_rest X c s = (Ok tt, s') ->
  exists y,
    rc_implicit_app_ctx_stack (req_ctxs s' c) =
      rc_implicit_app_ctx_stack (req_ctxs s c) ++ [y] /\
    app_ctx_stack s' =
      match y with Some a => a :: app_ctx_stack s | None => app_ctx_stack s end /\
    apps s' = apps s /\
    environ_preserve_context (rc_request (req_ctxs s' c)) =
      environ_preserve_context (rc_request (req_ctxs s c)).
Proof.
  intros Hrun.
  unfold push_rest in Hrun.
  unfold app_context, AppContext_push, create_url_adapter, match_request, try_except,
    send, lift_world, of_result, py_append, ls_push,
    bind, modify, gets, ret, raise, emit in Hrun.
  simpl in Hrun.
  repeat step_run Hrun.
  all: injection Hrun as <-; simpl; rewrite ?upd_same; simpl; rewrite ?upd_same; simpl.
  all: eexists; split; [reflexivity|]; simpl; repeat split; reflexivity.
Qed.

(** What the last [RequestContext.pop] does to the application context
    stack. *)
Lemma RequestContext_pop_last_app_stack t exc (s : State) rs x r s' :
  request_ctx_stack s = t :: rs ->
  rc_implicit_app_ctx_stack (req_ctxs s t) = [x] ->
  RequestContext_pop X t exc s = (r, s') ->
  app_ctx_stack s' =
    match x with Some _ => tail (app_ctx_stack s) | None => app_ctx_stack s end.
Proof.
  intros Hst Himp Hrun.
  unfold RequestContext_pop, try_finally, pop_request_ctx_stack, py_assert, resolve_exc,
    bind, modify, gets, ret, raise, emit in Hrun.
  rewrite Himp in Hrun. simpl in Hrun.
  destruct exc as [|e0]; simpl in Hrun; rewrite !upd_same in Hrun; simpl in Hrun.
  all: match type of Hrun with context [do_teardown_request X ?a ?e ?st] =>
         destruct (quiet_do_teardown_request X a e st) as (w & d & Hs3 & Hd);
         unfold exec in Hs3;
         destruct (do_teardown_request X a e st) as [r0 s3];
         simpl in Hs3; subst s3
       end.
  all: destruct r0 as [[]|er]; simpl in Hrun.
  all: try (destruct (has_close _); simpl in Hrun; unfold lift_world in Hrun; simpl in Hrun;
            try destruct (request_close X _) as [[[]|ec] wc]; simpl in Hrun).
  all: rewrite ?Hst in Hrun; simpl in Hrun.
  all: destruct x as [a1|]; simpl in Hrun.
  all: try match type of Hrun with context [AppContext_pop X ?a ?e ?st] =>
         destruct (AppContext_pop_exec X a e st) as (w' & d' & Hs4 & _);
         unfold exec in Hs4;
         destruct (AppContext_pop X a e st) as [r1 s4];
         simpl in Hs4; subst s4
       end.
  all: rewrite ?bool_decide_eq_true_2 in Hrun by reflexivity.
  all: repeat match type of Hrun with
       | context [match ?r with Ok _ => _ | Raise _ => _ end] => destruct r as [[]|?]
       end; simpl in Hrun.
  all: injection Hrun as <- <-.
  all: simpl; destruct (app_ctx_stack s); reflexivity.
Qed.

(** The first push of a context, with no preserved context to reclaim. *)
Lemma first_push ctx (s s1 : State) :
  (forall t, ls_top (request_ctx_stack s) = Some t ->
             rc_preserved (req_ctxs s t) = false) ->
  rc_implicit_app_ctx_stack (req_ctxs s ctx) = [] ->
  RequestContext_push X ctx s = (Ok tt, s1) ->
  exists y,
    request_ctx_stack s1 = ctx :: request_ctx_stack s /\
    rc_implicit_app_ctx_stack (req_ctxs s1 ctx) = [y] /\
    app_ctx_stack s1 =
      match y with Some a => a :: app_ctx_stack s | None => app_ctx_stack s end /\
    rc_app (req_ctxs s1 ctx) = rc_app (req_ctxs s ctx) /\
    rc_preserved (req_ctxs s1 ctx) = rc_preserved (req_ctxs s ctx) /\
    environ_preserve_context (rc_request (req_ctxs s1 ctx)) =
      environ_preserve_context (rc_request (req_ctxs s ctx)) /\
    apps s1 = apps s /\
    exists d, log s1 = log s ++ d /\ no_request_teardown d.
Proof.
  intros Htop Himp Hpush.
  rewrite RequestContext_push_unfold in Hpush. unfold bind in Hpush.
  rewrite reclaim_preserved_skip in Hpush by exact Htop.
  destruct (push_rest_spec X ctx s s1 Hpush)
    as (P1 & _ & P3 & P4 & _ & _ & d & P7 & P8).
  destruct (push_rest_app_stack ctx s s1 Hpush) as (y & Q1 & Q2 & Q3 & Q4).
  exists y. rewrite Himp in Q1. simpl in Q1.
  repeat (split; [assumption|]). exists d. auto.
Qed.

(** [AppContext.pop] with the error given, when the count reaches zero. *)
Lemma AppContext_pop_given (a : nat) (e : option exn) (s : State) :
  (ac_refcnt (app_ctxs s a) - 1 <=? 0) = true ->
  exists w d,
    exec (AppContext_pop X a (Given e)) s =
      set_log (log s ++ EvAppTeardown a e :: d)
        (set_world w
           (set_app_ctx_stack (snd (ls_pop (app_ctx_stack s)))
              (set_app_ctx a
                 (with_refcnt (ac_refcnt (app_ctxs s a) - 1) (app_ctxs s a)) s))) /\
    Forall (fun ev => quiet ev = true) d.
Proof.
  intros Hle.
  unfold exec, AppContext_pop, try_finally, pop_app_ctx_stack, py_assert, resolve_exc,
    bind, modify, gets, ret, raise, emit.
  simpl. rewrite upd_same. simpl. rewrite Hle. simpl.
  destruct (ls_pop (app_ctx_stack s)) as [rv st] eqn:Hpop.
  match goal with |- context [do_teardown_appcontext X ?ap ?ex ?st] =>
    destruct (quiet_do_teardown_appcontext X ap ex st) as (w & d & Hs3 & Hd);
    unfold exec in Hs3;
    destruct (do_teardown_appcontext X ap ex st) as [r s3] end.
  simpl in Hs3; subst s3; simpl; rewrite Hpop.
  destruct r as [[]|e1]; simpl.
  all: try destruct (bool_decide (rv = Some a)); simpl.
  all: try match goal with |- context [send X appcontext_popped ?st] =>
        destruct (quiet_send X appcontext_popped st) as (w' & d2 & Hs4 & Hd2);
        unfold exec in Hs4; rewrite Hs4 end.
  all: first [ exists w', (d ++ d2); split; [|apply Forall_app; auto]
             | exists w, d; split; [|assumption] ].
  all: destruct s as [w_ ei_ ap_ ac_ na_ rc_ nr_ as_ rs_ lg_];
       cbn; rewrite <- ?app_assoc, ?app_nil_r; reflexivity.
Qed.

Lemma auto_pop_last ctx error (s : State) rs y r s' :
  request_ctx_stack s = ctx :: rs ->
  rc_implicit_app_ctx_stack (req_ctxs s ctx) = [y] ->
  environ_preserve_context (rc_request (req_ctxs s ctx)) = false ->
  error = None \/
    preserve_context_on_exception (apps s (rc_app (req_ctxs s ctx))) = false ->
  auto_pop X ctx error s = (r, s') ->
  request_ctx_stack s' = rs /\
  app_ctx_stack s' =
    match y with Some _ => tail (app_ctx_stack s) | None => app_ctx_stack s end /\
  exists d, log s' = log s ++ EvRequestTeardown ctx error :: d /\
            no_request_teardown d.
Proof.
  intros Hst Himp Henv Hpres Hrun.
  unfold auto_pop, bind, gets in Hrun. rewrite Henv in Hrun. simpl in Hrun.
  assert (Hcond : bool_decide (is_Some error)
                  && preserve_context_on_exception (apps s (rc_app (req_ctxs s ctx)))
                  = false).
  { destruct Hpres as [->| ->]; [reflexivity|apply andb_false_r]. }
  rewrite Hcond in Hrun.
  destruct (RequestContext_pop_last X ctx _ s rs y r s' Hst Himp Hrun)
    as (H1 & _ & _ & _ & d & H5 & H6).
  split; [exact H1|]. split; [|eauto].
  exact (RequestContext_pop_last_app_stack ctx _ s rs y r s' Hst Himp Hrun).
Qed.


Section Wsgi.
Context {Body : Type}.
Variable respond : Response -> World -> result Body * World.





End Wsgi.

(** ** The two context managers *)

Section With.
Variable BROKEN_PYPY_CTXMGR_EXIT : bool.

Lemma exec_reraise_if_broken exc_value (s : State) :
  exec (reraise_if_broken BROKEN_PYPY_CTXMGR_EXIT exc_value) s = s.
Proof.
  unfold reraise_if_broken.
  destruct exc_value; [destruct BROKEN_PYPY_CTXMGR_EXIT|]; reflexivity.
Qed.

Lemma exec_bind_reraise (m : M unit) exc_value (s : State) :
  exec (bind m (fun _ => reraise_if_broken BROKEN_PYPY_CTXMGR_EXIT exc_value)) s
  = exec m s.
Proof.
  unfold exec, bind. destruct (m s) as [[[]|e] s1]; [|reflexivity].
  apply exec_reraise_if_broken.
Qed.

(** The state [with_stmt] leaves, once [enter] has returned. *)
Lemma exec_with_stmt {A} (enter : M unit) leave (body : M A) (s s1 : State) :
  enter s = (Ok tt, s1) ->
  exec (with_stmt enter leave body) s =
    match body s1 with
    | (Ok _, s2) => exec (leave None) s2
    | (Raise e, s2) =>
        set_exc_info (exc_info s2) (exec (leave (Some e)) (set_exc_info (Some e) s2))
    end.
Proof.
  intros He. unfold exec, with_stmt, bind. rewrite He.
  destruct (body s1) as [[v|e] s2].
  - destruct (leave None s2) as [[[]|e'] s3]; reflexivity.
  - destruct (leave (Some e) _) as [[[]|e'] s3]; reflexivity.
Qed.

(** X3: [with app_ctx: body], on an application context that is not
    pushed and whose push returns, with a body that leaves the stacks
    alone: afterwards the two stacks are as before, the count is zero again
    and the teardown of the application context has run once, after the
    body, with the exception the body raised, or [None]. *)
Theorem with_app_context_balanced {A} (a : nat) (body : M A) (s s1 : State) :
  frame_m body ->
  ac_refcnt (app_ctxs s a) = 0 ->
  AppContext_push X a s = (Ok tt, s1) ->
  let s' := exec (with_app_context X BROKEN_PYPY_CTXMGR_EXIT a body) s in
  let error := match fst (body s1) with Ok _ => None | Raise e => Some e end in
  app_ctx_stack s' = app_ctx_stack s /\
  request_ctx_stack s' = request_ctx_stack s /\
  ac_refcnt (app_ctxs s' a) = 0 /\
  exists d1 d2,
    log s' = log s ++ [EvSignal appcontext_pushed] ++ d1 ++ EvAppTeardown a error :: d2 /\
    Forall (fun ev => quiet ev = true) d1 /\
    Forall (fun ev => quiet ev = true) d2.
Proof.
  intros Hbody Hcnt Hpush s' error.
  pose proof (AppContext_push_exec X a s) as Hs1. unfold exec in Hs1.
  rewrite Hpush in Hs1. simpl in Hs1.
  unfold s', with_app_context, AppContext_enter. rewrite (exec_with_stmt _ _ _ s s1 Hpush).
  unfold error. clear s' error.
  pose proof (Hbody s1) as (F1 & F2 & F3 & _ & _ & d1 & F6 & F7).
  unfold exec in F1, F2, F3, F6.
  destruct (body s1) as [[v|e] s2]; simpl in *.
  all: unfold AppContext_exit; rewrite exec_bind_reraise.
  all: match goal with |- context [exec (AppContext_pop _ ?a0 (Given ?e0)) ?st] =>
         destruct (AppContext_pop_given a0 e0 st) as (w & d2 & Hpop & Hd2);
         [ simpl; rewrite F3, Hs1; simpl; rewrite upd_same; simpl; rewrite Hcnt;
           reflexivity
         | rewrite Hpop ]
       end.
  all: simpl; rewrite F2, F3, F1, F6, Hs1; simpl; rewrite !upd_same; simpl.
  all: split; [reflexivity|]; split; [reflexivity|]; split; [rewrite Hcnt; reflexivity|].
  all: exists d1, d2; rewrite <- !app_assoc; auto.
Qed.

(** X4: [with request_ctx: body], on a request context that is not pushed,
    whose push returns, with no preserved context on top of the stack and a
    body that leaves the stacks alone: unless the context is kept for
    debugging, afterwards the two stacks are as before and the teardown
    sequence of the context has run once, with the exception the body
    raised, or [None]. *)
Theorem with_request_context_balanced {A} (ctx : nat) (body : M A) (s s1 : State) :
  frame_m body ->
  (forall t, ls_top (request_ctx_stack s) = Some t ->
             rc_preserved (req_ctxs s t) = false) ->
  rc_implicit_app_ctx_stack (req_ctxs s ctx) = [] ->
  RequestContext_push X ctx s = (Ok tt, s1) ->
  environ_preserve_context (rc_request (req_ctxs s ctx)) = false ->
  preserve_context_on_exception (apps s (rc_app (req_ctxs s ctx))) = false \/
    (exists v, fst (body s1) = Ok v) ->
  let s' := exec (with_request_context X BROKEN_PYPY_CTXMGR_EXIT ctx body) s in
  let error := match fst (body s1) with Ok _ => None | Raise e => Some e end in
  request_ctx_stack s' = request_ctx_stack s /\
  app_ctx_stack s' = app_ctx_stack s /\
  exists d1 d2,
    log s' = log s ++ d1 ++ EvRequestTeardown ctx error :: d2 /\
    no_request_teardown d1 /\ no_request_teardown d2.
Proof.
  intros Hbody Htop Himp Hpush Henv Hpres s' error.
  destruct (first_push ctx s s1 Htop Himp Hpush)
    as (y & P1 & P2 & P3 & P4 & P5 & P6 & P7 & d0 & P8 & P9).
  unfold s', with_request_context, RequestContext_enter.
  rewrite (exec_with_stmt _ _ _ s s1 Hpush).
  unfold error. clear s' error.
  pose proof (Hbody s1) as (F1 & F2 & F3 & F4 & F5 & d1 & F6 & F7).
  unfold exec in F1, F2, F3, F4, F5, F6.
  destruct (body s1) as [[v|e] s2]; simpl in *.
  all: pose proof (F4 ctx) as Hv; unfold ctx_view in Hv; injection Hv as V1 V2 V3 V4 V5.
  all: pose proof (F5 (rc_app (req_ctxs s ctx))) as Ha; unfold app_view in Ha;
       injection Ha as A1 A2.
  all: unfold RequestContext_exit; rewrite exec_bind_reraise.
  all: match goal with |- context [exec (auto_pop _ _ ?err) ?st] =>
         unfold exec; destruct (auto_pop X ctx err st) as [r sf] eqn:Hpop;
         destruct (auto_pop_last ctx err st (request_ctx_stack s) y r sf)
           as (R1 & R2 & d2 & R3 & R4);
         [ simpl; congruence | simpl; congruence | simpl; congruence
         | simpl | exact Hpop | ]
       end.
  1,3: first [ left; reflexivity
             | destruct Hpres as [Hp|[v0 Hv0]]; [|discriminate Hv0];
               right; rewrite V1, P4; unfold preserve_context_on_exception in *;
               rewrite A1, A2, P7; exact Hp ].
  all: simpl in *; split; [exact R1|]; split;
    [ rewrite R2, F2, P3; destruct y; reflexivity |].
  all: exists (d0 ++ d1), d2; rewrite R3, F6, P8, <- !app_assoc;
       split; [reflexivity|]; split; [|exact R4];
       apply no_request_teardown_app; [exact P9|apply no_request_teardown_quiet, F7].
Qed.

End With.

End Lifecycle_properties.

(** * Error handlers: registration and fall-through *)

Section Error_handler_properties.
Context {World Response Session : Type}.
Variable X : @externals World Response Session.

Abbreviation pyval := (@pyval Response).
Abbreviation State := (@State World Response Session).
Abbreviation M := (@M World Response Session).
Abbreviation callable := (@callable World).
Abbreviation App := (@App World Response).
Abbreviation handler_t := (@callable exn pyval).
Abbreviation handler_spec_t :=
  (gmap (option string) (gmap (option Z) (gmap string handler_t))).

Lemma _get_exc_class_and_code_Ok x cls code :
  _get_exc_class_and_code X x = Ok (cls, code) ->
  issubclass cls "Exception" = true /\ code = error_code cls /\
  _get_exc_class_and_code X (ByClass cls) = Ok (cls, code).
Proof.
  unfold _get_exc_class_and_code, error_code. intros H.
  destruct x as [n|c0|e0]; [| |discriminate H].
  - destruct (default_exceptions X n) as [c0|]; [|discriminate].
    destruct (issubclass c0 "Exception") eqn:E1; [|discriminate].
    destruct (issubclass c0 "HTTPException") eqn:E2; injection H as <- <-;
      rewrite E1, E2; auto.
  - destruct (issubclass c0 "Exception") eqn:E1; [|discriminate].
    destruct (issubclass c0 "HTTPException") eqn:E2; injection H as <- <-;
      rewrite E1, E2; auto.
Qed.

Lemma set_exc_info_id (s : State) : set_exc_info (exc_info s) s = s.
Proof. destruct s; reflexivity. Qed.

Lemma set_exc_info_twice (s : State) e1 e2 :
  set_exc_info e2 (set_exc_info e1 s) = set_exc_info e2 s.
Proof. destruct s; reflexivity. Qed.

(** What a registration that returns has done. *)
Lemma _register_error_handler_Ok app key x f cls code (s s' : State) :
  _get_exc_class_and_code X x = Ok (cls, code) ->
  _register_error_handler X app key x f s = (Ok tt, s') ->
  s' = set_app app
         (with_error_handler_spec
            (spec_insert (error_handler_spec (apps s app)) key code cls f)
            (apps s app)) s.
Proof.
  intros Hx Hrun.
  unfold _register_error_handler, setupmethod, try_except, of_result,
    bind, gets, modify, raise, ret in Hrun.
  destruct (debug (apps s app) && _got_first_request (apps s app)); [discriminate|].
  destruct x as [n|c0|e0]; [| |discriminate Hx].
  all: rewrite Hx in Hrun; injection Hrun as <-; reflexivity.
Qed.

Lemma find_in_mro_insert (hm : gmap string handler_t) name rest f :
  find_in_mro (<[name := f]> hm) (name :: rest) = Some f.
Proof. simpl. rewrite lookup_insert_eq. reflexivity. Qed.

Lemma bucket_lookup_insert (sp : handler_spec_t) key code cls f rest :
  cls_mro cls = cls_name cls :: rest ->
  bucket_lookup (spec_insert sp key code cls f) (cls_mro cls) (key, code) = Some f.
Proof.
  intros Hmro. unfold bucket_lookup, spec_insert. simpl.
  rewrite lookup_insert_eq. simpl. rewrite lookup_insert_eq.
  rewrite Hmro. apply find_in_mro_insert.
Qed.

(** X5: a handler registered for a class (or for the code of a class) is
    the one found for an exception of exactly that class, in a request of
    the scope it was registered in, and for an application-wide handler also
    in a request of a blueprint that has no handlers of its own. *)
Theorem registered_handler_found (app c : nat) (key : option string)
    (x : code_or_exception) (f : handler_t) (cls : pyclass) (code : option Z)
    (msg : string) (orig : option exn) (s s' : State) :
  _get_exc_class_and_code X x = Ok (cls, code) ->
  head (cls_mro cls) = Some (cls_name cls) ->
  _register_error_handler X app key x f s = (Ok tt, s') ->
  ls_top (request_ctx_stack s) = Some c ->
  key = blueprint (rc_request (req_ctxs s c)) \/
    (key = None /\
     default ∅ (error_handler_spec (apps s app)
                  !! blueprint (rc_request (req_ctxs s c))) = ∅) ->
  fst (_find_error_handler X app (Exn cls msg orig) s') = Ok (Some f).
Proof.
  intros Hx Hhead Hreg Htop Hscope.
  destruct (_get_exc_class_and_code_Ok _ _ _ Hx) as (Hexc & -> & _).
  pose proof (_register_error_handler_Ok _ _ _ _ _ _ _ _ Hx Hreg) as ->.
  destruct (cls_mro cls) as [|n rest] eqn:Hmro; [discriminate|].
  simpl in Hhead. injection Hhead as ->.
  destruct (_find_error_handler_spec X app c (Exn cls msg orig)
              (set_app app
                 (with_error_handler_spec
                    (spec_insert (error_handler_spec (apps s app)) key
                       (error_code cls) cls f) (apps s app)) s))
    as (s2 & Hfind & _); [exact Htop|exact Hexc|].
  rewrite Hfind. simpl. rewrite upd_same. simpl. f_equal.
  rewrite Hmro.
  destruct Hscope as [->|[-> Hempty]].
  - unfold lookup_keys. simpl.
    rewrite <- Hmro, (bucket_lookup_insert _ _ _ _ _ rest Hmro). reflexivity.
  - unfold lookup_keys.
    destruct (blueprint (rc_request (req_ctxs s c))) as [bp|] eqn:Hbp.
    + simpl.
      assert (Hfirst : bucket_lookup
                (spec_insert (error_handler_spec (apps s app)) None (error_code cls) cls f)
                (cls_name cls :: rest) (Some bp, error_code cls) = None).
      { unfold bucket_lookup, spec_insert. simpl.
        rewrite lookup_insert_ne by discriminate. rewrite Hempty.
        rewrite lookup_empty. reflexivity. }
      rewrite Hfirst.
      rewrite <- Hmro, (bucket_lookup_insert _ _ _ _ _ rest Hmro). reflexivity.
    + simpl.
      rewrite <- Hmro, (bucket_lookup_insert _ _ _ _ _ rest Hmro). reflexivity.
Qed.

Lemma handler_entry_spec_insert (sp : handler_spec_t) key code cls f key' code' name' :
  handler_entry (spec_insert sp key code cls f) key' code' name'
  = if bool_decide ((key', code', name') = (key, code, cls_name cls))
    then Some f
    else handler_entry sp key' code' name'.
Proof.
  unfold handler_entry, spec_insert.
  destruct (decide (key' = key)) as [->|Hk].
  - rewrite lookup_insert_eq. cbn [default from_option]. unfold id.
    destruct (decide (code' = code)) as [->|Hc].
    + rewrite lookup_insert_eq. cbn [default from_option]. unfold id.
      destruct (decide (name' = cls_name cls)) as [->|Hn].
      * rewrite lookup_insert_eq, bool_decide_eq_true_2 by reflexivity. reflexivity.
      * rewrite lookup_insert_ne by congruence.
        rewrite bool_decide_eq_false_2 by congruence. reflexivity.
    + rewrite lookup_insert_ne by congruence.
      rewrite bool_decide_eq_false_2 by congruence. reflexivity.
  - rewrite lookup_insert_ne by congruence.
    rewrite bool_decide_eq_false_2 by congruence. reflexivity.
Qed.

(** X6: what registering an error handler does, by the kind of its
    argument.  A registration that raises leaves everything as it was; as a
    setup method it raises [AssertionError] in debug mode once the first
    request has been handled.  Otherwise it raises [ValueError] for an
    instance of [HTTPException], [TypeError] for any other exception
    instance, [KeyError] for a status code that werkzeug's table of default
    exceptions lacks, [AssertionError] for a class that is not an exception
    class; a code the table has registers as its class does; and for an
    exception class it returns, having set the entry of the table for its
    scope, the code of the class and the class to the handler, while every
    other entry of the table and every other application is as before. *)
Theorem register_error_handler_outcomes (app : nat) (key : option string)
    (f : handler_t) (s : State) :
  let register x := _register_error_handler X app key x f s in
  let setup_closed := debug (apps s app) && _got_first_request (apps s app) in
  (forall x e s', register x = (Raise e, s') -> s' = s) /\
  (forall n c, default_exceptions X n = Some c -> register (ByCode n) = register (ByClass c)) /\
  (setup_closed = true ->
   forall x, register x = (Raise (AssertionError setup_msg), s)) /\
  (setup_closed = false ->
   (forall e, isinstance_exn e "HTTPException" = true ->
      exists msg, register (ByInstance e) = (Raise (ValueError msg), s)) /\
   (forall e, isinstance_exn e "HTTPException" = false ->
      exists msg, register (ByInstance e) = (Raise (TypeError msg), s)) /\
   (forall n, default_exceptions X n = None ->
      exists msg, register (ByCode n) = (Raise (KeyError msg), s)) /\
   (forall c, issubclass c "Exception" = false ->
      exists msg, register (ByClass c) = (Raise (AssertionError msg), s)) /\
   (forall c, issubclass c "Exception" = true ->
      exists s',
        register (ByClass c) = (Ok tt, s') /\
        (forall key' code' name',
           handler_entry (error_handler_spec (apps s' app)) key' code' name'
           = if bool_decide ((key', code', name') = (key, error_code c, cls_name c))
             then Some f
             else handler_entry (error_handler_spec (apps s app)) key' code' name') /\
        (forall a', a' <> app -> apps s' a' = apps s a') /\
        request_ctx_stack s' = request_ctx_stack s /\
        app_ctx_stack s' = app_ctx_stack s /\
        log s' = log s)).
Proof.
  intros register setup_closed. subst register setup_closed. cbv beta.
  unfold _register_error_handler, setupmethod, try_except, of_result,
    bind, gets, modify, raise, ret, _get_exc_class_and_code.
  split; [|split; [|split]].
  - intros x e s' H.
    destruct (debug (apps s app) && _got_first_request (apps s app));
      [injection H as _ <-; reflexivity|].
    destruct x as [n|c|e0];
      [destruct (default_exceptions X n) as [c|]| |
       destruct (isinstance_exn e0 "HTTPException")].
    all: simpl in H.
    all: try (destruct (issubclass c "Exception"); [destruct (issubclass c "HTTPException")|]);
         simpl in H; try discriminate H.
    all: try (injection H as _ <-; rewrite ?set_exc_info_twice, ?set_exc_info_id; reflexivity).
  - intros n c Hn. rewrite Hn. reflexivity.
  - intros ->. intros x. reflexivity.
  - intros ->. split; [|split; [|split; [|split]]].
    + intros e ->. eexists. reflexivity.
    + intros e ->. eexists. simpl. reflexivity.
    + intros n ->. eexists. simpl.
      rewrite set_exc_info_twice, set_exc_info_id. reflexivity.
    + intros c ->. eexists. simpl. reflexivity.
    + intros c Hc. rewrite Hc. unfold error_code.
      destruct (issubclass c "HTTPException"); simpl.
      all: eexists; split; [reflexivity|].
      all: split; [intros key' code' name'; cbn; rewrite upd_same; cbn;
                   apply handler_entry_spec_insert|].
      all: split; [intros a' Ha; cbn; apply upd_other; exact Ha|].
      all: split; [reflexivity|]; split; reflexivity.
Qed.

(** X7: an exception for which no handler is registered: an HTTP exception
    that is not trapped is returned as the response value, any other
    exception is raised again; no handler is called and the world is left
    alone. *)
Theorem unhandled_exception (app c : nat) (e : exn) (s : State) :
  ls_top (request_ctx_stack s) = Some c ->
  issubclass (exn_class e) "Exception" = true ->
  exc_info s = Some e ->
  first_handler (error_handler_spec (apps s app)) (cls_mro (exn_class e))
    (lookup_keys (blueprint (rc_request (req_ctxs s c)))
       (error_code (exn_class e))) = None ->
  fst (handle_user_exception X app e s) =
    (if isinstance_exn e "HTTPException" && negb (trap_http_exception (apps s app) e)
     then Ok (VExc e) else Raise e) /\
  log (exec (handle_user_exception X app e) s) = log s /\
  world (exec (handle_user_exception X app e) s) = world s.
Proof.
  intros Htop Hexc Hinfo Hnone.
  destruct (_find_error_handler_spec X app c e s Htop Hexc) as (s2 & Hfind & Hl & Hw).
  rewrite Hnone in Hfind.
  unfold exec, handle_user_exception, handle_http_exception, py_assert,
    bind, gets, ret, raise.
  rewrite Hinfo, exn_is_refl. simpl.
  destruct (isinstance_exn e "HTTPException" && negb (trap_http_exception (apps s app) e)).
  - destruct (cls_code (exn_class e)); [|auto].
    destruct (isinstance_exn e "RoutingException"); [auto|].
    rewrite Hfind. simpl. auto.
  - rewrite Hfind. simpl. auto.
Qed.

End Error_handler_properties.

(** * The dispatcher: hooks that stop, run once, or run at teardown *)

Section Dispatcher_properties.
Context {World Response Session : Type}.
Variable X : @externals World Response Session.

Abbreviation pyval := (@pyval Response).
Abbreviation State := (@State World Response Session).
Abbreviation M := (@M World Response Session).
Abbreviation callable := (@callable World).
Abbreviation App := (@App World Response).
Abbreviation RequestContext := (@RequestContext World Response Session).
Abbreviation view_args_t := (@view_args_t Response).

Lemma call_then_drop {A B} k (f : callable A B) (a : A) (s : State) :
  bind (call k f a) (fun _ => ret tt) s =
    (match fst (fn_run f a (world s)) with Ok _ => Ok tt | Raise e => Raise e end,
     set_log (log s ++ [EvCall k (fn_name f)])
       (set_world (snd (fn_run f a (world s))) s)).
Proof.
  unfold bind, call, emit, modify, lift_world, ret. unfold bind. simpl.
  destruct (fn_run f a (world s)) as [[v|e] w1]; destruct s; reflexivity.
Qed.

Lemma log_set_log_world (s : State) l w : log (set_log l (set_world w s)) = l.
Proof. reflexivity. Qed.

Lemma world_set_log_world (s : State) l w : world (set_log l (set_world w s)) = w.
Proof. reflexivity. Qed.

(** A loop of calls whose results are dropped, when no call raises. *)
Lemma for_each_calls_ok {A B} k (a : A) (funcs : list (callable A B)) (s : State) :
  (forall f, f ∈ funcs -> forall w, exists v, fst (fn_run f a w) = Ok v) ->
  for_each funcs (fun f => bind (call k f a) (fun _ => ret tt)) s =
    (Ok tt, set_log (log s ++ call_events k funcs) (set_world (run_all a funcs (world s)) s)).
Proof.
  revert s. induction funcs as [|f funcs IH]; intros s H; simpl.
  - rewrite app_nil_r, set_log_world_id. reflexivity.
  - unfold bind at 1. rewrite call_then_drop.
    destruct (H f ltac:(left) (world s)) as [v Hf]. rewrite Hf.
    rewrite IH by (intros g Hg; apply H; right; exact Hg).
    rewrite log_set_log_world, world_set_log_world, set_log_world_twice, <- app_assoc.
    reflexivity.
Qed.

(** The same loop when the first call that raises is that of [f]. *)
Lemma for_each_calls_raise {A B} k (a : A) (l1 l2 : list (callable A B)) f e (s : State) :
  (forall g, g ∈ l1 -> forall w, exists v, fst (fn_run g a w) = Ok v) ->
  (forall w, fst (fn_run f a w) = Raise e) ->
  for_each (l1 ++ f :: l2) (fun f => bind (call k f a) (fun _ => ret tt)) s =
    (Raise e,
     set_log (log s ++ call_events k (l1 ++ [f]))
       (set_world (run_all a (l1 ++ [f]) (world s)) s)).
Proof.
  revert s. induction l1 as [|g l1 IH]; intros s H Hf; simpl.
  - unfold bind at 1. rewrite call_then_drop, Hf. reflexivity.
  - unfold bind at 1. rewrite call_then_drop.
    destruct (H g ltac:(left) (world s)) as [v Hg]. rewrite Hg.
    rewrite IH by (first [intros h Hh; apply H; right; exact Hh | exact Hf]).
    rewrite log_set_log_world, world_set_log_world, set_log_world_twice, <- app_assoc.
    reflexivity.
Qed.

(** X8: the teardown functions of a request are called with the error
    given (the exception being handled when none is given), the
    application's before the blueprint's, each group in reverse order of
    registration, and then the [request_tearing_down] signal is sent; the
    first function that raises ends the teardown: the later functions are
    not called and the signal is not sent. *)
Theorem teardown_request_calls (app c : nat) (exc : exc_arg) (s : State) :
  ls_top (request_ctx_stack s) = Some c ->
  let a := apps s app in
  let funcs := teardown_request_order a (blueprint (rc_request (req_ctxs s c))) in
  let e := match exc with Sentinel => exc_info s | Given e => e end in
  ((forall f, f ∈ funcs -> forall w, exists v, fst (fn_run f e w) = Ok v) ->
   (forall w, fst (signal_send X request_tearing_down w) = Ok tt) ->
   do_teardown_request X app exc s =
     (Ok tt,
      set_log (log s ++ call_events TeardownRequest funcs
                 ++ [EvSignal request_tearing_down])
        (set_world (snd (signal_send X request_tearing_down
                           (run_all e funcs (world s)))) s))) /\
  (forall l1 f l2 err,
     funcs = l1 ++ f :: l2 ->
     (forall g, g ∈ l1 -> forall w, exists v, fst (fn_run g e w) = Ok v) ->
     (forall w, fst (fn_run f e w) = Raise err) ->
     do_teardown_request X app exc s =
       (Raise err,
        set_log (log s ++ call_events TeardownRequest (l1 ++ [f]))
          (set_world (run_all e (l1 ++ [f]) (world s)) s))).
Proof.
  intros Htop a funcs e.
  assert (Hshape : do_teardown_request X app exc s =
    bind (for_each funcs (fun f => bind (call TeardownRequest f e) (fun _ => ret tt)))
      (fun _ => send X request_tearing_down) s).
  { unfold funcs, teardown_request_order, e, a.
    unfold do_teardown_request, top_request_context, resolve_exc, bind, gets, ret.
    destruct exc as [|e0]; simpl; rewrite Htop; simpl;
      rewrite chain_blueprint_app by reflexivity; reflexivity. }
  split.
  - intros Hok Hsig. rewrite Hshape. unfold bind at 1.
    rewrite (for_each_calls_ok _ _ _ _ Hok).
    unfold send, bind, emit, modify, lift_world. simpl.
    specialize (Hsig (run_all e funcs (world s))).
    destruct (signal_send X request_tearing_down _) as [r w]. simpl in *. subst r.
    destruct s; simpl. rewrite <- app_assoc. reflexivity.
  - intros l1 f l2 err Hfuncs Hok Hraise. rewrite Hshape, Hfuncs. unfold bind at 1.
    rewrite (for_each_calls_raise _ _ _ _ _ _ _ Hok Hraise). reflexivity.
Qed.

(** X9: the functions to run before the first request are called once, in
    registration order, by the first dispatch that gets through them; if
    one of them raises, the later ones are not called and the application is
    not marked as having served its first request, so that the next
    dispatch calls them all again. *)
Theorem before_first_request_once (app : nat) (s : State) :
  let a := apps s app in
  let funcs := before_first_request_funcs a in
  (_got_first_request a = true ->
   try_trigger_before_first_request_functions app s = (Ok tt, s)) /\
  (_got_first_request a = false ->
   (forall f, f ∈ funcs -> forall w, exists v, fst (fn_run f tt w) = Ok v) ->
   exists s',
     try_trigger_before_first_request_functions app s = (Ok tt, s') /\
     _got_first_request (apps s' app) = true /\
     log s' = log s ++ call_events BeforeFirstRequest funcs /\
     try_trigger_before_first_request_functions app s' = (Ok tt, s')) /\
  (forall l1 f l2 err,
     _got_first_request a = false ->
     funcs = l1 ++ f :: l2 ->
     (forall g, g ∈ l1 -> forall w, exists v, fst (fn_run g tt w) = Ok v) ->
     (forall w, fst (fn_run f tt w) = Raise err) ->
     exists s',
       try_trigger_before_first_request_functions app s = (Raise err, s') /\
       log s' = log s ++ call_events BeforeFirstRequest (l1 ++ [f]) /\
       apps s' = apps s).
Proof.
  intros a funcs.
  assert (Hshape : forall st : State,
    try_trigger_before_first_request_functions app st =
      if _got_first_request (apps st app) then (Ok tt, st)
      else bind (for_each (before_first_request_funcs (apps st app))
                   (fun f => bind (call BeforeFirstRequest f tt) (fun _ => ret tt)))
             (fun _ => modify (fun s0 =>
                set_app app (with_got_first_request (apps s0 app)) s0)) st).
  { intros st. unfold try_trigger_before_first_request_functions, bind, gets, ret.
    destruct (_got_first_request (apps st app)); reflexivity. }
  split; [|split].
  - intros Hg. rewrite Hshape. fold a. rewrite Hg. reflexivity.
  - intros Hg Hok. rewrite Hshape. fold a. rewrite Hg. fold funcs. unfold bind at 1.
    rewrite (for_each_calls_ok _ _ _ _ Hok). unfold modify.
    eexists. split; [reflexivity|]. simpl. rewrite upd_same. simpl.
    split; [reflexivity|]. split; [reflexivity|].
    rewrite Hshape. simpl. rewrite upd_same. reflexivity.
  - intros l1 f l2 err Hg Hfuncs Hok Hraise.
    rewrite Hshape. fold a. rewrite Hg. fold funcs. rewrite Hfuncs. unfold bind at 1.
    rewrite (for_each_calls_raise _ _ _ _ _ _ _ Hok Hraise).
    eexists. split; [reflexivity|]. destruct s; simpl. auto.
Qed.

Lemma call_run {A B} k (f : callable A B) (a : A) (s : State) :
  call k f a s =
    (fst (fn_run f a (world s)),
     set_log (log s ++ [EvCall k (fn_name f)])
       (set_world (snd (fn_run f a (world s))) s)).
Proof.
  unfold call, bind, emit, modify, lift_world. simpl.
  destruct (fn_run f a (world s)) as [r w1]; destruct s; reflexivity.
Qed.

(** The loop over the before-request functions stops at the first one
    that returns a value. *)
Lemma run_before_request_funcs_stop l1 (f : callable unit pyval) l2 v (s : State) :
  (forall g, g ∈ l1 -> forall w, fst (fn_run g tt w) = Ok VNone) ->
  (forall w, fst (fn_run f tt w) = Ok v) ->
  v <> VNone ->
  exists w', run_before_request_funcs (l1 ++ f :: l2) s =
    (Ok v, set_log (log s ++ call_events BeforeRequest (l1 ++ [f])) (set_world w' s)).
Proof.
  revert s. induction l1 as [|g l1 IH]; intros s H Hf Hv; simpl.
  - unfold bind. rewrite call_run, Hf. eexists.
    destruct v; try congruence; reflexivity.
  - unfold bind. rewrite call_run, (H g ltac:(left)).
    destruct (IH (set_log (log s ++ [EvCall BeforeRequest (fn_name g)])
                    (set_world (snd (fn_run g tt (world s))) s))
                ltac:(intros h Hh; apply H; right; exact Hh) Hf Hv) as [w' Hw'].
    rewrite Hw'. exists w'.
    rewrite log_set_log_world, set_log_world_twice, <- app_assoc. reflexivity.
Qed.

Lemma preprocess_request_stop app c l1 f l2 v (s : State) :
  ls_top (request_ctx_stack s) = Some c ->
  url_value_preprocessors (apps s app) = ∅ ->
  pre_request_order (apps s app) (blueprint (rc_request (req_ctxs s c)))
    = l1 ++ f :: l2 ->
  (forall g, g ∈ l1 -> forall w, fst (fn_run g tt w) = Ok VNone) ->
  (forall w, fst (fn_run f tt w) = Ok v) ->
  v <> VNone ->
  runs_ok (preprocess_request app) s (call_events BeforeRequest (l1 ++ [f]))
    (fun rv => rv = v).
Proof.
  intros Htop Hu Hpre H1 Hf Hv.
  unfold runs_ok, preprocess_request, top_request_context, run_url_value_preprocessors,
    bind, gets, ret.
  rewrite Htop. simpl. rewrite Hu.
  unfold scoped_get at 1. rewrite lookup_empty. simpl.
  assert (Hc : chain_blueprint []
            (∅ : gmap (option string)
                   (list (callable (option string * option view_args_t)
                            (option view_args_t))))
            (blueprint (rc_request (req_ctxs s c))) id = []).
  { unfold chain_blueprint. destruct (blueprint _); [|reflexivity].
    rewrite lookup_empty. reflexivity. }
  rewrite Hc. simpl. unfold ret.
  rewrite chain_blueprint_app by reflexivity. unfold scoped_get, id.
  destruct (run_before_request_funcs_stop l1 f l2 v s H1 Hf Hv) as [w' Hw'].
  rewrite <- Hpre in Hw'. exists v, w'. split; [exact Hw'|reflexivity].
Qed.

(** X10: a before-request function that returns a value ends the
    preprocessing: the before-request functions after it and the view
    function are not called, routing is not consulted, and the value goes
    through response coercion and the after-request functions as the
    view's return value would. *)
Theorem before_request_short_circuit (app c : nat) (s : State)
    (l1 l2 : list (callable unit pyval)) (f : callable unit pyval) (v : pyval)
    (sess : Session) :
  let a := apps s app in
  let ctx := req_ctxs s c in
  let req := rc_request ctx in
  let post := post_request_order a ctx (blueprint req) in
  ls_top (request_ctx_stack s) = Some c ->
  before_first_request_funcs a = [] ->
  url_value_preprocessors a = ∅ ->
  pre_request_order a (blueprint req) = l1 ++ f :: l2 ->
  rc_session ctx = Some sess ->
  (forall sg w, fst (signal_send X sg w) = Ok tt) ->
  (forall g, g ∈ l1 -> forall w, fst (fn_run g tt w) = Ok VNone) ->
  (forall w, fst (fn_run f tt w) = Ok v) ->
  v <> VNone ->
  (exists r, make_response X v = Ok r) ->
  (forall g, g ∈ post -> forall r w, exists r', fst (fn_run g r w) = Ok r') ->
  (forall r w, fst (save_session X sess r w) = Ok tt) ->
  exists response s',
    full_dispatch_request X app s = (Ok response, s') /\
    log s' =
      log s ++ [EvSignal request_started] ++ call_events BeforeRequest (l1 ++ [f])
      ++ call_events AfterRequest post ++ [EvSignal request_finished].
Proof.
  intros a ctx req post Htop Hbfr Hu Hpre Hsess Hsig H1 Hf Hv Hmk Hpost Hsave.
  assert (Hcore : forall st : State,
    ls_top (request_ctx_stack st) = Some c ->
    url_value_preprocessors (apps st app) = ∅ ->
    pre_request_order (apps st app) (blueprint (rc_request (req_ctxs st c)))
      = l1 ++ f :: l2 ->
    rc_session (req_ctxs st c) = Some sess ->
    post_request_order (apps st app) (req_ctxs st c)
      (blueprint (rc_request (req_ctxs st c))) = post ->
    runs_ok
      (bind
         (try_except
            (bind (send X request_started) (fun _ =>
               bind (preprocess_request app) (fun rv =>
                 match rv with
                 | VNone => dispatch_request X app
                 | _ => ret rv
                 end)))
            is_exception (handle_user_exception X app))
         (fun rv => finalize_request X app rv false)) st
      (([EvSignal request_started] ++ call_events BeforeRequest (l1 ++ [f]))
       ++ call_events AfterRequest post ++ [EvSignal request_finished])
      (fun _ => True)).
  { intros st Pt Pu Ppre Psess Ppost.
    apply runs_ok_bind with (P := fun rv => rv = v).
    - apply runs_ok_try_except.
      apply runs_ok_bind with (P := fun _ => True); [apply send_ok, Hsig|].
      intros _ w1 _.
      replace (call_events BeforeRequest (l1 ++ [f]))
        with (call_events BeforeRequest (l1 ++ [f]) ++ []) by apply app_nil_r.
      apply runs_ok_bind with (P := fun rv => rv = v).
      + apply (preprocess_request_stop app c l1 f l2 v); assumption.
      + intros rv w2 ->. exists v, w2. split; [|reflexivity].
        destruct v; try congruence; unfold ret; simpl; rewrite app_nil_r;
          rewrite set_log_world_twice; reflexivity.
    - intros rv w1 ->.
      match goal with |- runs_ok _ ?st0 _ _ =>
        pose proof (finalize_request_ok X app c st0 v sess) as Hfin end.
      simpl in Hfin. rewrite Ppost in Hfin. apply Hfin; try assumption.
      apply Hsig. }
  unfold full_dispatch_request. unfold bind at 1.
  unfold try_trigger_before_first_request_functions, bind, gets, ret, modify.
  fold a. rewrite Hbfr. simpl.
  destruct (_got_first_request a) eqn:Eg.
  - destruct (Hcore s Htop Hu Hpre Hsess eq_refl) as (r & w' & Hrun & _).
    unfold bind in Hrun. exists r. eexists. split; [exact Hrun|].
    simpl. rewrite <- ?app_assoc; reflexivity.
  - set (s1 := set_app app (with_got_first_request a) s).
    destruct (Hcore s1) as (r & w' & Hrun & _);
      [unfold s1; simpl; rewrite ?upd_same; simpl; first [assumption|reflexivity] ..|].
    unfold bind in Hrun. exists r. eexists. split; [exact Hrun|].
    unfold s1. simpl. rewrite <- ?app_assoc; reflexivity.
Qed.

End Dispatcher_properties.

(** * Unhandled exceptions, and the contexts at their edges *)

Section Edge_properties.
Context {World Response Session : Type}.
Variable X : @externals World Response Session.

Abbreviation pyval := (@pyval Response).
Abbreviation State := (@State World Response Session).
Abbreviation M := (@M World Response Session).
Abbreviation callable := (@callable World).
Abbreviation App := (@App World Response).
Abbreviation RequestContext := (@RequestContext World Response Session).

(** X11: [handle_exception] first sends [got_request_exception]; if the
    application propagates exceptions it raises the exception again and
    does nothing else; otherwise it logs the exception and hands an
    [InternalServerError] that carries the exception as its
    [original_exception] to the handler registered for that class or for
    code 500, and finalizes what the handler returns, or the
    [InternalServerError] itself when there is none, as coming from the
    error handler. *)
Theorem handle_exception_wraps (app c : nat) (e : exn) (s : State) :
  ls_top (request_ctx_stack s) = Some c ->
  (forall w, fst (signal_send X got_request_exception w) = Ok tt) ->
  let a := apps s app in
  let req := rc_request (req_ctxs s c) in
  let server_error := Exn InternalServerError_cls "" (Some e) in
  let found :=
    first_handler (error_handler_spec a) (cls_mro InternalServerError_cls)
      (lookup_keys (blueprint req) (Some 500)) in
  (propagate_exceptions a = true ->
   fst (handle_exception X app e s) = Raise e /\
   log (exec (handle_exception X app e) s) = log s ++ [EvSignal got_request_exception]) /\
  (propagate_exceptions a = false ->
   exists s1,
     log s1 = log s ++ [EvSignal got_request_exception;
                        EvLog ("Exception on " +:+ path req +:+ " ["
                               +:+ method req +:+ "]")] /\
     world s1 = snd (signal_send X got_request_exception (world s)) /\
     request_ctx_stack s1 = request_ctx_stack s /\
     handle_exception X app e s =
       match found with
       | Some h =>
           bind (call ErrorHandler h server_error)
             (fun rv => finalize_request X app rv true) s1
       | None => finalize_request X app (VExc server_error) true s1
       end).
Proof.
  intros Htop Hsig a req server_error found.
  pose proof (send_ok X got_request_exception s Hsig) as (u & w1 & Hsend & _).
  assert (Hw1 : w1 = snd (signal_send X got_request_exception (world s))).
  { unfold send, bind, emit, modify, lift_world in Hsend. simpl in Hsend.
    destruct (signal_send X got_request_exception (world s)) as [r w].
    injection Hsend as _ Hs. simpl. destruct s; simpl in *. congruence. }
  destruct u.
  assert (Hshape : handle_exception X app e s =
    if propagate_exceptions a
    then (Raise e, set_log (log s ++ [EvSignal got_request_exception]) (set_world w1 s))
    else
      bind (log_exception app) (fun _ =>
        bind (_find_error_handler X app server_error) (fun handler =>
          bind (match handler with
                | Some h => call ErrorHandler h server_error
                | None => ret (VExc server_error)
                end) (fun rv => finalize_request X app rv true)))
        (set_log (log s ++ [EvSignal got_request_exception]) (set_world w1 s))).
  { unfold handle_exception. unfold bind at 1. rewrite Hsend.
    unfold bind at 1. unfold gets at 1. simpl. fold a.
    destruct (propagate_exceptions a); reflexivity. }
  split.
  - intros Hp. unfold exec. rewrite Hshape, Hp. simpl. auto.
  - intros Hp. rewrite Hshape, Hp.
    set (s0 := set_log _ _).
    assert (Hlogexc : log_exception app s0 =
      (Ok tt, set_log (log s0 ++ [EvLog ("Exception on " +:+ path req +:+ " ["
                                          +:+ method req +:+ "]")]) s0)).
    { unfold log_exception, current_request, bind, gets, emit, modify.
      unfold s0 at 1 2. simpl. rewrite Htop. reflexivity. }
    unfold bind at 1. rewrite Hlogexc.
    set (s2 := set_log _ s0).
    destruct (_find_error_handler_spec X app c server_error s2)
      as (s3 & Hfind & Hl3 & Hw3); [exact Htop|reflexivity|].
    pose proof (frame_find_error_handler X app server_error s2) as (F1 & _).
    unfold exec in F1. rewrite Hfind in F1. simpl in F1.
    assert (Hfh : first_handler (error_handler_spec (apps s2 app))
                    (cls_mro (exn_class server_error))
                    (lookup_keys (blueprint (rc_request (req_ctxs s2 c)))
                       (error_code (exn_class server_error))) = found) by reflexivity.
    rewrite Hfh in Hfind.
    unfold bind at 1. rewrite Hfind.
    exists s3. split; [rewrite Hl3; unfold s2, s0; simpl; rewrite <- app_assoc; reflexivity|].
    split; [rewrite Hw3; unfold s2, s0; simpl; exact Hw1|].
    split; [rewrite F1; reflexivity|].
    clearbody found. destruct found; reflexivity.
Qed.

(** X12: when [RequestContext.push] returns, the context is on top of the
    request stack and the top of the application stack is a context of
    the same application, so that [has_request_context] and
    [has_app_context] both answer [True]. *)
Theorem push_gives_both_contexts (ctx : nat) (s s1 : State) :
  RequestContext_push X ctx s = (Ok tt, s1) ->
  ls_top (request_ctx_stack s1) = Some ctx /\
  app_on_top (rc_app (req_ctxs s1 ctx)) s1 /\
  has_request_context s1 = (Ok true, s1) /\
  has_app_context s1 = (Ok true, s1).
Proof.
  intros Hpush. rewrite RequestContext_push_unfold in Hpush. unfold bind in Hpush.
  destruct (reclaim_preserved X s) as [[[]|e] s0]; [|discriminate].
  destruct (push_rest_spec X ctx s0 s1 Hpush) as (P1 & _ & _ & P4 & P5 & _).
  rewrite <- P4 in P5.
  split; [rewrite P1; reflexivity|]. split; [exact P5|].
  unfold has_request_context, has_app_context, bind, gets, ret.
  rewrite P1. destruct P5 as (a & rest & -> & _). simpl. auto.
Qed.

(** X13: [after_this_request] used outside of a request context raises
    [AttributeError]; inside one it adds the function to the context on top
    of the stack only, after the functions added before, and
    [process_response] calls the functions added this way first, in the
    order they were added, before the after-request functions of the
    blueprint and of the application. *)
Theorem after_this_request_runs_first (app c : nat) (f : callable Response Response)
    (response : Response) (sess : Session) (s : State) :
  (request_ctx_stack s = [] ->
   exists msg, after_this_request f s = (Raise (AttributeError msg), s)) /\
  (ls_top (request_ctx_stack s) = Some c ->
   let s1 := exec (after_this_request f) s in
   let a := apps s app in
   let bp := blueprint (rc_request (req_ctxs s c)) in
   let order :=
     rc_after_request_functions (req_ctxs s c) ++ [f]
     ++ rev (in_blueprint (after_request_funcs a) bp)
     ++ rev (default [] (after_request_funcs a !! None)) in
   after_this_request f s = (Ok f, s1) /\
   (forall c', c' <> c -> req_ctxs s1 c' = req_ctxs s c') /\
   (rc_session (req_ctxs s c) = Some sess ->
    (forall g, g ∈ order -> forall r w, exists r', fst (fn_run g r w) = Ok r') ->
    (forall r w, fst (save_session X sess r w) = Ok tt) ->
    runs_ok (process_response X app response) s1
      (call_events AfterRequest order) (fun _ => True))).
Proof.
  split.
  - intros Hst. unfold after_this_request, bind, gets. rewrite Hst. simpl.
    eexists. reflexivity.
  - intros Htop s1 a bp order.
    assert (Hrun : after_this_request f s =
      (Ok f, set_req_ctx c
               (with_after_request_functions
                  (py_append (rc_after_request_functions (req_ctxs s c)) f)
                  (req_ctxs s c)) s)).
    { unfold after_this_request, bind, gets, modify, ret. rewrite Htop. reflexivity. }
    assert (Hs1 : s1 = set_req_ctx c
               (with_after_request_functions
                  (py_append (rc_after_request_functions (req_ctxs s c)) f)
                  (req_ctxs s c)) s).
    { unfold s1, exec. rewrite Hrun. reflexivity. }
    split; [rewrite Hs1; exact Hrun|].
    split; [intros c' Hc'; rewrite Hs1; simpl; apply upd_other, Hc'|].
    intros Hsess Hok Hsave.
    pose proof (process_response_ok X app c s1 response sess) as Hp.
    rewrite Hs1 in Hp. simpl in Hp. rewrite upd_same in Hp. simpl in Hp.
    rewrite Hs1.
    replace (call_events AfterRequest order) with
      (call_events AfterRequest
         (post_request_order (apps s app)
            (with_after_request_functions
               (py_append (rc_after_request_functions (req_ctxs s c)) f) (req_ctxs s c))
            (blueprint (rc_request (req_ctxs s c))))).
    + apply Hp; try assumption.
      intros g Hg. apply Hok. unfold order.
      unfold post_request_order, py_append in Hg. simpl in Hg.
      rewrite <- app_assoc in Hg. exact Hg.
    + unfold order, post_request_order, py_append. simpl.
      rewrite <- app_assoc. reflexivity.
Qed.

(** X14: popping a request context that has no push outstanding raises
    [IndexError] and changes nothing; this is what a second pop finds after
    the pop that ran the teardown. *)
Theorem pop_without_push (ctx : nat) (exc exc' : exc_arg) (s : State) :
  (rc_implicit_app_ctx_stack (req_ctxs s ctx) = [] ->
   RequestContext_pop X ctx exc s = (Raise (IndexError "pop from empty list"), s)) /\
  (forall rs x,
     request_ctx_stack s = ctx :: rs ->
     rc_implicit_app_ctx_stack (req_ctxs s ctx) = [x] ->
     let s1 := exec (RequestContext_pop X ctx exc) s in
     RequestContext_pop X ctx exc' s1 = (Raise (IndexError "pop from empty list"), s1)).
Proof.
  assert (H0 : forall (st : State) ex,
    rc_implicit_app_ctx_stack (req_ctxs st ctx) = [] ->
    RequestContext_pop X ctx ex st = (Raise (IndexError "pop from empty list"), st)).
  { intros st ex H. unfold RequestContext_pop, bind, gets. rewrite H. reflexivity. }
  split; [apply H0|].
  intros rs x Hst Himp s1. apply H0.
  unfold s1, exec.
  destruct (RequestContext_pop X ctx exc s) as [r s'] eqn:Hpop.
  destruct (RequestContext_pop_last X ctx exc s rs x r s' Hst Himp Hpop)
    as (_ & _ & H3 & _). exact H3.
Qed.

(** X15: popping an application context that is not on top of the stack
    never returns: it raises, and the entry on top of the stack, which is
    not its own, is removed all the same; when the count stays above zero
    the exception is the [AssertionError] of the final check and nothing
    else has happened. *)
Theorem pop_wrong_app_context (a : nat) (exc : exc_arg) (s : State) :
  ls_top (app_ctx_stack s) <> Some a ->
  (exists e, fst (AppContext_pop X a exc s) = Raise e) /\
  app_ctx_stack (exec (AppContext_pop X a exc) s) = tail (app_ctx_stack s) /\
  (1 < ac_refcnt (app_ctxs s a) ->
   AppContext_pop X a exc s =
     (Raise (AssertionError "Popped wrong app context."),
      set_app_ctx_stack (tail (app_ctx_stack s))
        (set_app_ctx a
           (with_refcnt (ac_refcnt (app_ctxs s a) - 1) (app_ctxs s a)) s))).
Proof.
  intros Htop.
  assert (Hrv : forall rv st, ls_pop (app_ctx_stack s) = (rv, st) ->
                              bool_decide (rv = Some a) = false).
  { intros rv st H. apply bool_decide_eq_false. intros ->.
    destruct (app_ctx_stack s); simpl in *; [discriminate|].
    injection H as -> _. apply Htop. reflexivity. }
  split; [|split; [apply AppContext_pop_step|]].
  - unfold AppContext_pop, try_finally, pop_app_ctx_stack, py_assert, resolve_exc,
      bind, modify, gets, ret, raise, emit.
    simpl. rewrite upd_same. simpl.
    destruct (ls_pop (app_ctx_stack s)) as [rv st] eqn:Hpop.
    specialize (Hrv rv st eq_refl).
    destruct (ac_refcnt (app_ctxs s a) - 1 <=? 0).
    + destruct exc as [|e0]; simpl.
      all: match goal with |- context [do_teardown_appcontext X ?ap ?ex ?st] =>
        destruct (quiet_do_teardown_appcontext X ap ex st) as (w & d & Hs3 & Hd);
        unfold exec in Hs3;
        destruct (do_teardown_appcontext X ap ex st) as [r s3] end.
      all: simpl in Hs3; subst s3; simpl; rewrite Hpop.
      all: destruct r as [[]|e1]; simpl; rewrite ?Hrv; simpl.
      all: eexists; reflexivity.
    + simpl. rewrite Hpop. simpl. rewrite Hrv. simpl. eexists. reflexivity.
  - intros Hcnt.
    unfold AppContext_pop, try_finally, pop_app_ctx_stack, py_assert, resolve_exc,
      bind, modify, gets, ret, raise, emit.
    simpl. rewrite upd_same. simpl.
    destruct (Z.leb_spec (ac_refcnt (app_ctxs s a) - 1) 0); [lia|].
    simpl.
    destruct (app_ctx_stack s) as [|b rest] eqn:Hs; simpl.
    + reflexivity.
    + rewrite bool_decide_eq_false_2; [reflexivity|].
      intros Hb. injection Hb as ->. apply Htop. reflexivity.
Qed.

End Edge_properties.

(** * URL building hooks and the namespace object: properties *)

Section Url_building_properties.
Context {World Response Session : Type}.

Abbreviation pyval := (@pyval Response).
Abbreviation State := (@State World Response Session).
Abbreviation M := (@M World Response Session).
Abbreviation callable := (@callable World).
Abbreviation view_args_t := (@view_args_t Response).

Lemma lift_world_run {A} (f : World -> result A * World) (s : State) :
  lift_world f s = (fst (f (world s)), set_world (snd (f (world s))) s).
Proof. unfold lift_world. destruct (f (world s)); reflexivity. Qed.

Lemma set_world_twice (s : State) w1 w2 : set_world w2 (set_world w1 s) = set_world w2 s.
Proof. destruct s; reflexivity. Qed.

Lemma set_world_id (s : State) : set_world (world s) s = s.
Proof. destruct s; reflexivity. Qed.

Lemma run_all_app {A B} (a : A) (l1 l2 : list (callable A B)) (w : World) :
  run_all a (l1 ++ l2) w = run_all a l2 (run_all a l1 w).
Proof. unfold run_all. apply fold_left_app. Qed.

(** X16: the handlers of URL build errors are tried in order: with none,
    the error is raised; the first handler that returns a value other
    than [None] decides and the handlers after it are not called; when all
    return [None] the error is raised; a handler that raises a
    [BuildError] replaces the error for the handlers after it, and any other
    exception of a handler is raised at once. *)
Theorem url_build_error_handlers_chain (error : exn) (endpoint : string)
    (values : view_args_t) (s : State) :
  let arg := (error, endpoint, values) in
  handle_url_build_error [] error endpoint values s = (Raise error, s) /\
  (forall l1 h l2 v,
     (forall g, g ∈ l1 -> forall w, fst (fn_run g arg w) = Ok VNone) ->
     (forall w, fst (fn_run h arg w) = Ok v) ->
     v <> VNone ->
     handle_url_build_error (l1 ++ h :: l2) error endpoint values s =
       (Ok v, set_world (run_all arg (l1 ++ [h]) (world s)) s)) /\
  (forall l,
     (forall g, g ∈ l -> forall w, fst (fn_run g arg w) = Ok VNone) ->
     handle_url_build_error l error endpoint values s =
       (Raise error, set_world (run_all arg l (world s)) s)) /\
  (forall h rest e',
     fst (fn_run h arg (world s)) = Raise e' ->
     handle_url_build_error (h :: rest) error endpoint values s =
       if isinstance_exn e' "BuildError"
       then handle_url_build_error rest e' endpoint values
              (set_world (snd (fn_run h arg (world s))) s)
       else (Raise e', set_world (snd (fn_run h arg (world s))) s)).
Proof.
  intros arg.
  assert (Hnone : forall l (st : State),
    (forall g, g ∈ l -> forall w, fst (fn_run g arg w) = Ok VNone) ->
    forall rest,
      handle_url_build_error (l ++ rest) error endpoint values st =
      handle_url_build_error rest error endpoint values
        (set_world (run_all arg l (world st)) st)).
  { induction l as [|g l IH]; intros st H rest; simpl.
    - rewrite set_world_id. reflexivity.
    - rewrite lift_world_run. fold arg. rewrite (H g ltac:(left)).
      rewrite IH by (intros h Hh; apply H; right; exact Hh).
      simpl. rewrite set_world_twice. reflexivity. }
  split; [reflexivity|]. split; [|split].
  - intros l1 h l2 v H1 Hh Hv.
    rewrite (Hnone l1 s H1 (h :: l2)). simpl.
    rewrite lift_world_run. fold arg. rewrite Hh. simpl.
    rewrite set_world_twice, run_all_app. simpl.
    destruct v; try congruence; reflexivity.
  - intros l H.
    rewrite <- (app_nil_r l) at 1. rewrite (Hnone l s H []). reflexivity.
  - intros h rest e' Hh. simpl. rewrite lift_world_run. fold arg. rewrite Hh.
    reflexivity.
Qed.

End Url_building_properties.

Section AppCtxGlobals_properties.
Context {V : Type}.

Lemma dict_get_None (g : list (string * V)) name :
  dict_get g name = None <-> name ∉ map fst g.
Proof.
  induction g as [|[k v] g IH]; simpl.
  - split; [intros _; apply not_elem_of_nil|reflexivity].
  - destruct (String.eqb_spec k name) as [->|Hne].
    + split; [discriminate|]. intros H. exfalso. apply H. left.
    + rewrite IH. rewrite not_elem_of_cons. split; [auto|]. intros [_ H]. exact H.
Qed.

Lemma dict_get_app_None (g : list (string * V)) name n v :
  dict_get g n = None -> dict_get (g ++ [(n, v)]) name =
    match dict_get g name with
    | Some x => Some x
    | None => if String.eqb n name then Some v else None
    end.
Proof.
  intros _. induction g as [|[k x] g IH]; simpl; [reflexivity|].
  destruct (String.eqb k name); [reflexivity|]. exact IH.
Qed.

Lemma dict_del_names (g : list (string * V)) name k :
  k ∈ map fst (dict_del g name) -> k ∈ map fst g.
Proof.
  induction g as [|[k0 v] g IH]; simpl; [auto|].
  destruct (String.eqb k0 name).
  - intros H. right. exact H.
  - simpl. rewrite !elem_of_cons. intros [->|H]; auto.
Qed.

Lemma dict_del_unique (g : list (string * V)) name :
  names_unique g -> names_unique (dict_del g name).
Proof.
  unfold names_unique. induction g as [|[k v] g IH]; simpl; [auto|].
  rewrite NoDup_cons. intros [Hk Hg].
  destruct (String.eqb k name); [exact Hg|].
  simpl. rewrite NoDup_cons. split; [|auto].
  intros H. apply Hk. eapply dict_del_names, H.
Qed.

Lemma dict_get_del (g : list (string * V)) name :
  names_unique g -> dict_get (dict_del g name) name = None.
Proof.
  unfold names_unique. induction g as [|[k v] g IH]; simpl; [auto|].
  rewrite NoDup_cons. intros [Hk Hg].
  destruct (String.eqb_spec k name) as [->|Hne].
  - apply dict_get_None. exact Hk.
  - simpl. destruct (String.eqb_spec k name); [congruence|]. auto.
Qed.

Lemma dict_get_del_other (g : list (string * V)) name other :
  other <> name -> dict_get (dict_del g name) other = dict_get g other.
Proof.
  intros Hne. induction g as [|[k v] g IH]; simpl; [auto|].
  destruct (String.eqb_spec k name) as [->|Hk]; simpl.
  - destruct (String.eqb_spec name other); [congruence|reflexivity].
  - destruct (String.eqb k other); [reflexivity|exact IH].
Qed.

(** X17: the namespace object behaves as a dictionary whose names stay
    unique: [setdefault] returns the value a name already has and changes
    nothing, or stores the default under a new name, last in iteration
    order; what it returns is what [get] then finds; [pop] returns the
    value and removes the name, and the other names keep their values; for a
    name that is not there [pop] returns the default when one is given and
    raises [KeyError] otherwise, changing nothing. *)
Theorem app_ctx_globals_dictionary (g : list (string * V)) (name : string)
    (default : V) :
  names_unique g ->
  let (v, g1) := _AppCtxGlobals_setdefault g name default in
  names_unique g1 /\
  _AppCtxGlobals_get g1 name default = v /\
  _AppCtxGlobals_contains g1 name = true /\
  (_AppCtxGlobals_contains g name = true -> g1 = g) /\
  (_AppCtxGlobals_contains g name = false ->
   v = default /\ _AppCtxGlobals_iter g1 = _AppCtxGlobals_iter g ++ [name]) /\
  (forall d, let (r, g2) := _AppCtxGlobals_pop g1 name d in
     r = Ok v /\ names_unique g2 /\ _AppCtxGlobals_contains g2 name = false /\
     (forall other x, other <> name ->
        _AppCtxGlobals_get g2 other x = _AppCtxGlobals_get g other x)) /\
  (_AppCtxGlobals_contains g name = false ->
   _AppCtxGlobals_pop g name None = (Raise (KeyError name), g) /\
   forall x, _AppCtxGlobals_pop g name (Some x) = (Ok x, g)).
Proof.
  intros Hg.
  unfold _AppCtxGlobals_setdefault, _AppCtxGlobals_get, _AppCtxGlobals_contains,
    _AppCtxGlobals_pop, _AppCtxGlobals_iter.
  destruct (dict_get g name) as [v|] eqn:Hget.
  - rewrite Hget. simpl.
    split; [exact Hg|]. split; [reflexivity|]. split; [reflexivity|].
    split; [reflexivity|]. split; [discriminate|]. split; [|discriminate].
    intros d. split; [reflexivity|]. split; [apply dict_del_unique, Hg|].
    split; [rewrite dict_get_del by exact Hg; reflexivity|].
    intros other x Hne. rewrite dict_get_del_other by exact Hne. reflexivity.
  - assert (Hnew : dict_get (g ++ [(name, default)]) name = Some default).
    { rewrite dict_get_app_None by exact Hget. rewrite Hget, String.eqb_refl.
      reflexivity. }
    assert (Hu : names_unique (g ++ [(name, default)])).
    { unfold names_unique. rewrite map_app. simpl. apply NoDup_app.
      split; [exact Hg|]. split; [|apply NoDup_singleton].
      intros k Hk Hk'. apply list_elem_of_singleton in Hk'. subst k.
      apply dict_get_None in Hget. contradiction. }
    rewrite Hnew. simpl.
    split; [exact Hu|]. split; [reflexivity|]. split; [reflexivity|].
    split; [discriminate|].
    split; [intros _; split; [reflexivity|rewrite map_app; reflexivity]|].
    split.
    + intros d. split; [reflexivity|]. split; [apply dict_del_unique, Hu|].
      split; [rewrite dict_get_del by exact Hu; reflexivity|].
      intros other x Hne. rewrite dict_get_del_other by exact Hne.
      rewrite dict_get_app_None by exact Hget.
      destruct (dict_get g other); [reflexivity|].
      destruct (String.eqb_spec name other); [congruence|reflexivity].
    + intros _. split; [reflexivity|]. intros x. reflexivity.
Qed.

End AppCtxGlobals_properties.

(** * Setting up an application: properties *)

Lemma append_nil_l (s : string) : "" +:+ s = s.
Proof. reflexivity. Qed.

Lemma append_cons (c : ascii) (s1 s2 : string) :
  String c s1 +:+ s2 = String c (s1 +:+ s2).
Proof. reflexivity. Qed.

Lemma rsplit_dot_blueprint_endpoint (name ep : string) :
  rsplit_dot ep = None -> rsplit_dot (blueprint_endpoint name ep) = Some name.
Proof.
  intros Hep. unfold blueprint_endpoint.
  induction name as [|c name IH].
  - rewrite append_nil_l, append_cons, append_nil_l. simpl. rewrite Hep. reflexivity.
  - rewrite append_cons. simpl. rewrite IH. reflexivity.
Qed.

Lemma prefix_dot (c : ascii) (s : string) :
  String.prefix "." (String c s) = Ascii.eqb c ".".
Proof.
  change (String.prefix "." (String c s))
    with (if ascii_dec "." c then String.prefix "" s else false).
  destruct (ascii_dec "." c) as [<-|Hn].
  - destruct s; reflexivity.
  - symmetry. apply Ascii.eqb_neq. congruence.
Qed.

Lemma contains_dot_rsplit (s : string) :
  contains "." s = false <-> rsplit_dot s = None.
Proof.
  induction s as [|c s IH]; [simpl; tauto|].
  change (contains "." (String c s))
    with (String.prefix "." (String c s) || contains "." s).
  rewrite prefix_dot. cbn [rsplit_dot].
  destruct (rsplit_dot s) as [p|].
  - split; [|discriminate]. intros H.
    apply orb_false_iff in H as [_ H]. apply IH in H. discriminate.
  - destruct (Ascii.eqb c ".").
    + split; discriminate.
    + split; [reflexivity|]. intros _. apply IH. reflexivity.
Qed.

Section Setup_properties.
Context {Func : Type} `{EqDecision Func} {Val : Type}.
Variable upper : string -> string.
Variable func_name : Func -> option string.
Variable func_methods : Func -> option methods_arg.
Variable func_required_methods : Func -> option (list string).
Variable func_provide_automatic_options : Func -> option bool.

Abbreviation Setup := (@Setup Func Val).
Abbreviation UrlRule := (@UrlRule Val).
Abbreviation rule_options := (@rule_options Val).
Abbreviation Blueprint := (@Blueprint Func Val).
Abbreviation Heap := (@Heap Func Val).
Abbreviation add_url_rule :=
  (Flask_add_url_rule upper func_name func_methods func_required_methods
     func_provide_automatic_options).

(** X18: a rule added without a say on automatic options always allows
    [OPTIONS]: the rule's methods are the methods given, in upper case,
    those the view function requires, and [OPTIONS]; the automatic answer to
    [OPTIONS] is switched on exactly when [OPTIONS], in any letter case, is
    not among the methods given.  The methods given are those of the
    [methods] option, or [GET] alone when neither the option nor the view
    function names any. *)
Theorem add_url_rule_methods (rule e : string) (view_func : option Func)
    (options : rule_options) (items : list string) (a : Setup) :
  su_debug a && su_got_first_request a = false ->
  opt_methods options = Some (MethodsIter items) \/
    (opt_methods options = None /\ view_func ≫= func_methods = None /\
     items = ["GET"]) ->
  view_func ≫= func_provide_automatic_options = None ->
  let required := default [] (view_func ≫= func_required_methods) in
  exists r,
    su_url_map (snd (add_url_rule rule (Some e) view_func None options a))
      = su_url_map a ++ [r] /\
    ur_rule r = rule /\
    ur_endpoint r = e /\
    "OPTIONS" ∈ ur_methods r /\
    (forall m, m ∈ ur_methods r <->
       m = "OPTIONS" \/ m ∈ map upper items \/ m ∈ required) /\
    ur_provide_automatic_options r = negb (bool_decide ("OPTIONS" ∈ map upper items)).
Proof.
  intros Hguard Hmethods Hpao required.
  unfold Flask_add_url_rule, setup_guard. rewrite Hguard, Hpao.
  assert (Hm : match opt_methods options with
               | Some m => m
               | None =>
                   match view_func ≫= func_methods with
                   | Some m => if methods_truthy m then m else MethodsIter ["GET"]
                   | None => MethodsIter ["GET"]
                   end
               end = MethodsIter items).
  { destruct Hmethods as [->|(-> & -> & ->)]; reflexivity. }
  rewrite Hm. fold required.
  assert (Hin : "OPTIONS" ∈ (list_to_set (map upper items) : gset string)
                <-> "OPTIONS" ∈ map upper items) by apply elem_of_list_to_set.
  destruct (decide ("OPTIONS" ∈ (list_to_set (map upper items) : gset string)))
    as [Hopt|Hopt].
  - rewrite (bool_decide_eq_true_2 _ Hopt).
    rewrite (bool_decide_eq_true_2 ("OPTIONS" ∈ map upper items)) by (apply Hin, Hopt).
    eexists. split.
    { destruct view_func as [f|]; [|reflexivity].
      simpl. destruct (su_view_functions a !! e) as [old|];
        [destruct (bool_decide (old = f))|]; reflexivity. }
    simpl. split; [reflexivity|]. split; [reflexivity|].
    split; [apply elem_of_union; left; exact Hopt|]. split; [|reflexivity].
    intros m. rewrite elem_of_union, !elem_of_list_to_set.
    split; [tauto|]. intros [->|[?|?]]; [left; apply Hin, Hopt|tauto|tauto].
  - rewrite (bool_decide_eq_false_2 _ Hopt).
    rewrite (bool_decide_eq_false_2 ("OPTIONS" ∈ map upper items))
      by (intros ?; apply Hopt, Hin; assumption).
    eexists. split.
    { destruct view_func as [f|]; [|reflexivity].
      simpl. destruct (su_view_functions a !! e) as [old|];
        [destruct (bool_decide (old = f))|]; reflexivity. }
    simpl. split; [reflexivity|]. split; [reflexivity|].
    split; [apply elem_of_union; right; apply elem_of_union; right;
            apply elem_of_singleton; reflexivity|].
    split; [|reflexivity].
    intros m. rewrite !elem_of_union, !elem_of_list_to_set, elem_of_singleton.
    tauto.
Qed.

(** X19: how [add_url_rule] fails: as a setup method it raises
    [AssertionError] in debug mode once the first request has been handled;
    without an endpoint and without a view function it raises
    [AssertionError]; with the methods given as one string it raises
    [TypeError]; in these cases the application is unchanged.  For an
    endpoint that already has another view function it raises
    [AssertionError] and keeps the old function, but the rule has been added
    to the URL map by then.  Adding the function an endpoint already has
    succeeds. *)
Theorem add_url_rule_failures (rule : string) (endpoint : option string)
    (view_func : option Func) (pao : option bool) (options : rule_options)
    (a : Setup) :
  (su_debug a && su_got_first_request a = true ->
   add_url_rule rule endpoint view_func pao options a =
     (Raise (AssertionError setup_msg), a)) /\
  (su_debug a && su_got_first_request a = false ->
   (endpoint = None -> view_func = None ->
    exists msg, add_url_rule rule endpoint view_func pao options a =
                  (Raise (AssertionError msg), a)) /\
   (forall e s, endpoint = Some e -> opt_methods options = Some (MethodsStr s) ->
    add_url_rule rule endpoint view_func pao options a =
      (Raise (TypeError methods_type_error), a)) /\
   (forall e items f old,
      endpoint = Some e -> opt_methods options = Some (MethodsIter items) ->
      view_func = Some f -> su_view_functions a !! e = Some old ->
      let (r, a') := add_url_rule rule endpoint view_func pao options a in
      (if bool_decide (old = f) then r = Ok tt
       else exists msg, r = Raise (AssertionError msg)) /\
      su_view_functions a' !! e = Some old /\
      exists u, su_url_map a' = su_url_map a ++ [u] /\ ur_endpoint u = e)).
Proof.
  unfold Flask_add_url_rule, setup_guard.
  split; [intros ->; reflexivity|]. intros ->.
  split; [|split].
  - intros -> ->. simpl. eexists. reflexivity.
  - intros e s -> ->. reflexivity.
  - intros e items f old -> -> -> Hold. simpl.
    destruct (match pao with
              | Some b => Some b
              | None => func_provide_automatic_options f
              end) as [b|]; simpl.
    2: destruct (bool_decide ("OPTIONS" ∈ _)); simpl.
    all: rewrite Hold.
    all: destruct (bool_decide (old = f)) eqn:Heq; simpl.
    all: split; [first [reflexivity | eexists; reflexivity]|].
    all: split;
      [ first [ exact Hold
              | apply bool_decide_eq_true in Heq; subst old; apply lookup_insert_eq ]
      | eexists; split; reflexivity ].
Qed.

End Setup_properties.

(** * Blueprints: properties *)

Lemma append_slash_not_empty (a : string) : a +:+ "/" <> "".
Proof. destruct a; discriminate. Qed.

Lemma lstrip_slash_spec (s : string) :
  (exists n, s = slashes n +:+ lstrip_slash s) /\
  (forall b, lstrip_slash s <> "/" +:+ b).
Proof.
  induction s as [|c s [[n IHn] IHb]].
  - split; [exists O; reflexivity|]. intros b; discriminate.
  - cbn [lstrip_slash]. destruct (Ascii.eqb_spec c "/"%char) as [->|Hne].
    + split; [|exact IHb]. exists (S n). cbn [slashes].
      rewrite append_cons. f_equal. exact IHn.
    + split; [exists O; reflexivity|].
      intros b Heq. rewrite append_cons, append_nil_l in Heq. congruence.
Qed.

Lemma rstrip_slash_spec (s : string) :
  (exists n, s = rstrip_slash s +:+ slashes n) /\
  (forall a, rstrip_slash s <> a +:+ "/").
Proof.
  induction s as [|c s [[n IHn] IHa]].
  - split; [exists O; reflexivity|]. intros a Heq.
    symmetry in Heq. exact (append_slash_not_empty a Heq).
  - cbn [rstrip_slash]. destruct (rstrip_slash s) as [|d r] eqn:Hr.
    + rewrite append_nil_l in IHn.
      destruct (Ascii.eqb_spec c "/"%char) as [->|Hne].
      * split; [exists (S n); rewrite append_nil_l; cbn [slashes]; congruence|].
        intros a Heq. symmetry in Heq. exact (append_slash_not_empty a Heq).
      * split; [exists n; rewrite append_cons, append_nil_l; congruence|].
        intros [|c' a] Heq.
        -- rewrite append_nil_l in Heq. congruence.
        -- rewrite append_cons in Heq. injection Heq as _ Heq.
           symmetry in Heq. exact (append_slash_not_empty a Heq).
    + split; [exists n; rewrite append_cons; congruence|].
      intros [|c' a] Heq.
      * rewrite append_nil_l in Heq. discriminate.
      * rewrite append_cons in Heq. injection Heq as _ Heq. exact (IHa a Heq).
Qed.

(** X20: the rule of a blueprint under a URL prefix.  Without a prefix the
    rule is kept; an empty rule becomes the prefix itself; otherwise the
    prefix without its trailing slashes and the rule without its leading
    slashes are joined by exactly one slash. *)
Theorem url_prefix_junction (p rule : string) :
  prefixed_rule None rule = rule /\
  prefixed_rule (Some p) "" = p /\
  (rule <> "" ->
   exists a b n m,
     p = a +:+ slashes n /\
     rule = slashes m +:+ b /\
     (forall a', a <> a' +:+ "/") /\
     (forall b', b <> "/" +:+ b') /\
     prefixed_rule (Some p) rule = a +:+ ("/" +:+ b)).
Proof.
  split; [reflexivity|]. split; [reflexivity|]. intros Hrule.
  destruct (rstrip_slash_spec p) as [[n Hn] Ha].
  destruct (lstrip_slash_spec rule) as [[m Hm] Hb].
  exists (rstrip_slash p), (lstrip_slash rule), n, m.
  split; [exact Hn|]. split; [exact Hm|]. split; [exact Ha|]. split; [exact Hb|].
  unfold prefixed_rule. rewrite bool_decide_eq_false_2 by exact Hrule. reflexivity.
Qed.

Section Blueprint_properties.
Context {Func : Type} `{EqDecision Func} {Val : Type}.
Variable upper : string -> string.
Variable func_name : Func -> option string.
Variable func_methods : Func -> option methods_arg.
Variable func_required_methods : Func -> option (list string).
Variable func_provide_automatic_options : Func -> option bool.

Abbreviation Setup := (@Setup Func Val).
Abbreviation UrlRule := (@UrlRule Val).
Abbreviation rule_options := (@rule_options Val).
Abbreviation Blueprint := (@Blueprint Func Val).
Abbreviation Heap := (@Heap Func Val).
Abbreviation deferred := (@deferred Func Val).
Abbreviation register_options := (@register_options Val).
Abbreviation BlueprintSetupState := (@BlueprintSetupState Val).
Abbreviation add_url_rule :=
  (Flask_add_url_rule upper func_name func_methods func_required_methods
     func_provide_automatic_options).
Abbreviation state_add_url_rule :=
  (BlueprintSetupState_add_url_rule upper func_name func_methods func_required_methods
     func_provide_automatic_options).
Abbreviation call_deferred :=
  (run_deferred upper func_name func_methods func_required_methods
     func_provide_automatic_options).
Abbreviation call_deferred_functions :=
  (run_deferred_functions upper func_name func_methods func_required_methods
     func_provide_automatic_options).
Abbreviation register :=
  (Blueprint_register upper func_name func_methods func_required_methods
     func_provide_automatic_options).
Abbreviation accepted := (accepted func_name).
Abbreviation records := (records func_name).
Abbreviation register_blueprint :=
  (Flask_register_blueprint upper func_name func_methods func_required_methods
     func_provide_automatic_options).

Lemma rules_added_refl P (a : Setup) : rules_added P a a [].
Proof.
  unfold rules_added. rewrite app_nil_r.
  do 7 (split; [reflexivity|]). constructor.
Qed.

Lemma rules_added_trans P (a a1 a2 : Setup) l1 l2 :
  rules_added P a a1 l1 -> rules_added P a1 a2 l2 -> rules_added P a a2 (l1 ++ l2).
Proof.
  intros (A1 & A2 & A3 & A4 & A5 & A6 & A7 & A8) (B1 & B2 & B3 & B4 & B5 & B6 & B7 & B8).
  unfold rules_added.
  split; [congruence|]. split; [congruence|]. split; [congruence|].
  split; [congruence|]. split; [congruence|]. split; [congruence|].
  split; [rewrite B7, A7, app_assoc; reflexivity|].
  apply Forall_app; split; assumption.
Qed.

(** [Flask.add_url_rule] adds at most one rule, exactly one when it
    succeeds, and touches only the URL map and the view functions. *)
Lemma add_url_rule_rules_added (P : string -> Prop) rule e view_func pao
    (options : rule_options) (a : Setup) :
  P e ->
  exists new,
    rules_added P a (snd (add_url_rule rule (Some e) view_func pao options a)) new /\
    (fst (add_url_rule rule (Some e) view_func pao options a) = Ok tt -> length new = 1%nat).
Proof.
  intros HP. unfold Flask_add_url_rule, setup_guard.
  destruct (su_debug a && su_got_first_request a).
  { exists []. split; [apply rules_added_refl|discriminate]. }
  destruct (match opt_methods options with
            | Some m => m
            | None => match view_func ≫= func_methods with
                      | Some m => if methods_truthy m then m else MethodsIter ["GET"]
                      | None => MethodsIter ["GET"]
                      end
            end) as [s|items].
  { exists []. split; [apply rules_added_refl|discriminate]. }
  destruct (match pao with
            | Some b => Some b
            | None => view_func ≫= func_provide_automatic_options
            end) as [b|].
  2: destruct (bool_decide ("OPTIONS" ∈ _)).
  all: cbv zeta.
  all: destruct view_func as [f|]; cbn [su_view_functions with_url_map].
  all: try destruct (su_view_functions a !! e) as [old|].
  all: try destruct (bool_decide (old = f)).
  all: eexists [_]; (split; [|reflexivity || discriminate]).
  all: unfold rules_added; cbn.
  all: do 7 (split; [reflexivity|]).
  all: repeat constructor; exact HP.
Qed.

Lemma state_add_url_rule_rules_added (P : string -> Prop) (state : BlueprintSetupState)
    rule endpoint view_func (options : rule_options) (a : Setup) :
  (forall e, match endpoint with
             | Some e => Ok e
             | None => _endpoint_from_view_func func_name view_func
             end = Ok e -> P (blueprint_endpoint (st_blueprint_name state) e)) ->
  exists new,
    rules_added P a (snd (state_add_url_rule state rule endpoint view_func options a)) new /\
    (fst (state_add_url_rule state rule endpoint view_func options a) = Ok tt ->
     length new = 1%nat).
Proof.
  intros HP. unfold BlueprintSetupState_add_url_rule.
  destruct (match endpoint with
            | Some e => Ok e
            | None => _endpoint_from_view_func func_name view_func
            end) as [e|err].
  - apply add_url_rule_rules_added. apply HP. reflexivity.
  - exists []. split; [apply rules_added_refl|discriminate].
Qed.

(** The endpoints that [Blueprint.add_url_rule] accepts have no dot. *)
Lemma accepted_endpoint rule endpoint view_func (options : rule_options)
    (b b' : Blueprint) e :
  Blueprint_add_url_rule func_name rule endpoint view_func options b = Ok b' ->
  match endpoint with
  | Some e => Ok e
  | None => _endpoint_from_view_func func_name view_func
  end = Ok e ->
  rsplit_dot e = None.
Proof.
  intros Hacc He. unfold Blueprint_add_url_rule in Hacc.
  destruct endpoint as [e0|].
  - injection He as ->.
    destruct (bool_decide (e = "")) eqn:Hempty.
    + apply bool_decide_eq_true in Hempty. subst e. reflexivity.
    + destruct (contains "." e) eqn:Hc; [discriminate Hacc|].
      apply contains_dot_rsplit. exact Hc.
  - unfold _endpoint_from_view_func in He.
    destruct view_func as [f|]; [|discriminate He].
    cbn in Hacc. destruct (func_name f) as [n|]; [|discriminate He].
    injection He as ->.
    destruct (contains "." e) eqn:Hc; [discriminate Hacc|].
    apply contains_dot_rsplit. exact Hc.
Qed.

(** The rules that the deferred functions of a blueprint add. *)
Lemma run_deferred_functions_rules (P : string -> Prop) (state : BlueprintSetupState)
    (l : list deferred) (a : Setup) :
  Forall (fun d => forall rule endpoint view_func options e,
            d_action d = A_add_url_rule rule endpoint view_func options ->
            match endpoint with
            | Some e => Ok e
            | None => _endpoint_from_view_func func_name view_func
            end = Ok e -> P (blueprint_endpoint (st_blueprint_name state) e)) l ->
  let a' := snd (call_deferred_functions state l a) in
  su_debug a' = su_debug a /\
  su_got_first_request a' = su_got_first_request a /\
  su_blueprints a' = su_blueprints a /\
  su_blueprint_order a' = su_blueprint_order a /\
  exists new, su_url_map a' = su_url_map a ++ new /\
              Forall (fun u => P (ur_endpoint u)) new.
Proof.
  intros Hl. revert a. induction Hl as [|d l Hd _ IH]; intros a.
  { cbn. do 4 (split; [reflexivity|]). exists []. rewrite app_nil_r.
    split; [reflexivity|constructor]. }
  cbn [run_deferred_functions].
  assert (Hstep : su_debug (snd (call_deferred state d a)) = su_debug a /\
                  su_got_first_request (snd (call_deferred state d a))
                    = su_got_first_request a /\
                  su_blueprints (snd (call_deferred state d a)) = su_blueprints a /\
                  su_blueprint_order (snd (call_deferred state d a))
                    = su_blueprint_order a /\
                  exists new, su_url_map (snd (call_deferred state d a))
                                = su_url_map a ++ new /\
                              Forall (fun u => P (ur_endpoint u)) new).
  { unfold run_deferred.
    destruct (d_once d && negb (st_first_registration state)).
    { cbn. do 4 (split; [reflexivity|]). exists []. rewrite app_nil_r.
      split; [reflexivity|constructor]. }
    destruct (d_action d) as [rule endpoint view_func options|r key f|f|e f] eqn:Hact;
      cbn [run_action].
    2-4: cbn; do 4 (split; [reflexivity|]); exists []; rewrite app_nil_r;
         (split; [reflexivity|constructor]).
    destruct (state_add_url_rule_rules_added P state rule endpoint view_func options a)
      as (new & (R1 & R2 & R3 & R4 & R5 & R6 & R7 & R8) & _).
    { intros e He. exact (Hd _ _ _ _ e eq_refl He). }
    do 4 (split; [assumption|]). exists new. split; assumption. }
  destruct (call_deferred state d a) as [[[]|err] a1]; cbn [snd] in Hstep |- *.
  - destruct Hstep as (S1 & S2 & S3 & S4 & new1 & S5 & S6).
    destruct (IH a1) as (T1 & T2 & T3 & T4 & new2 & T5 & T6).
    split; [congruence|]. split; [congruence|]. split; [congruence|].
    split; [congruence|]. exists (new1 ++ new2).
    split; [rewrite T5, S5, app_assoc; reflexivity|].
    apply Forall_app; split; assumption.
  - exact Hstep.
Qed.

(** The same for [Blueprint.register]. *)
Lemma Blueprint_register_rules (P : string -> Prop) (b : Blueprint)
    (options : register_options) first (a : Setup) :
  P (blueprint_endpoint (bp_name b) "static") ->
  Forall (fun d => forall rule endpoint view_func options e,
            d_action d = A_add_url_rule rule endpoint view_func options ->
            match endpoint with
            | Some e => Ok e
            | None => _endpoint_from_view_func func_name view_func
            end = Ok e -> P (blueprint_endpoint (bp_name b) e))
    (bp_deferred_functions b) ->
  let out := register b options first a in
  fst (snd out) = with_got_registered_once b /\
  su_debug (snd (snd out)) = su_debug a /\
  su_got_first_request (snd (snd out)) = su_got_first_request a /\
  su_blueprints (snd (snd out)) = su_blueprints a /\
  su_blueprint_order (snd (snd out)) = su_blueprint_order a /\
  exists new, su_url_map (snd (snd out)) = su_url_map a ++ new /\
              Forall (fun u => P (ur_endpoint u)) new.
Proof.
  intros Hstatic Hl. unfold Blueprint_register.
  set (b1 := with_got_registered_once b).
  set (state := make_setup_state b1 options first).
  assert (Hstat : exists a1 r1 new1,
            match bp_static b1 with
            | Some (static_url_path, send_static_file) =>
                state_add_url_rule state (static_url_path +:+ "/<path:filename>")
                  (Some "static") (Some send_static_file) (RuleOptions None None None ∅) a
            | None => (Ok tt, a)
            end = (r1, a1) /\ rules_added P a a1 new1).
  { destruct (bp_static b1) as [[path f]|].
    - destruct (state_add_url_rule_rules_added P state (path +:+ "/<path:filename>")
                  (Some "static") (Some f) (RuleOptions None None None ∅) a)
        as (new & Hr & _).
      { intros e He. injection He as <-. exact Hstatic. }
      destruct (state_add_url_rule _ _ _ _ _ a) as [r1 a1].
      exists a1, r1, new. split; [reflexivity|exact Hr].
    - exists a, (Ok tt), []. split; [reflexivity|apply rules_added_refl]. }
  destruct Hstat as (a1 & r1 & new1 & -> & (R1 & R2 & R3 & R4 & R5 & R6 & R7 & R8)).
  destruct r1 as [[]|err].
  - pose proof (run_deferred_functions_rules P state (bp_deferred_functions b1) a1 Hl)
      as (T1 & T2 & T3 & T4 & new2 & T5 & T6).
    destruct (call_deferred_functions state (bp_deferred_functions b1) a1) as [r2 a2].
    cbn [fst snd] in *.
    split; [reflexivity|]. split; [congruence|]. split; [congruence|].
    split; [congruence|]. split; [congruence|]. exists (new1 ++ new2).
    split; [rewrite T5, R7, app_assoc; reflexivity|].
    apply Forall_app; split; assumption.
  - cbn [fst snd]. split; [reflexivity|]. do 4 (split; [assumption|]).
    exists new1. split; assumption.
Qed.

(** X21: every URL rule that registering a blueprint adds to the
    application belongs to the blueprint: the part of its endpoint before
    the last dot, which is what [request.blueprint] gives for a request
    matching the rule, is the blueprint's name.  This holds whether the
    registration succeeds or stops at a failing rule, for the rule of the
    static folder and for every rule that [Blueprint.add_url_rule]
    accepted. *)
Theorem blueprint_rules_belong_to_blueprint (b : Blueprint) (options : register_options)
    (first : bool) (a : Setup) :
  Forall accepted (bp_deferred_functions b) ->
  let a' := snd (snd (register b options first a)) in
  exists new,
    su_url_map a' = su_url_map a ++ new /\
    Forall (fun u => rsplit_dot (ur_endpoint u) = Some (bp_name b)) new.
Proof.
  intros Hacc a'.
  destruct (Blueprint_register_rules
              (fun e => rsplit_dot e = Some (bp_name b)) b options first a)
    as (_ & _ & _ & _ & _ & new & H1 & H2).
  - apply rsplit_dot_blueprint_endpoint. reflexivity.
  - eapply Forall_impl; [exact Hacc|]. intros d Hd rule endpoint view_func opts e Hact He.
    destruct (Hd rule endpoint view_func opts b Hact) as (b' & Hb').
    apply rsplit_dot_blueprint_endpoint.
    exact (accepted_endpoint _ _ _ _ _ _ _ Hb' He).
  - exists new. split; assumption.
Qed.

Lemma registry_append_lookup (r reg : registry) (k key : option string) (f : Func)
    (a : Setup) :
  default [] (su_registry (registry_append r k f a) reg !! key)
  = default [] (su_registry a reg !! key)
    ++ (if bool_decide (r = reg /\ k = key) then [f] else []).
Proof.
  unfold registry_append. cbn [su_registry with_registry].
  destruct (decide (reg = r)) as [->|Hr].
  - destruct (decide (k = key)) as [->|Hk].
    + rewrite lookup_insert_eq, bool_decide_eq_true_2 by (split; reflexivity).
      reflexivity.
    + rewrite lookup_insert_ne by exact Hk.
      rewrite bool_decide_eq_false_2 by (intros [_ ?]; contradiction).
      rewrite app_nil_r. reflexivity.
  - rewrite bool_decide_eq_false_2 by (intros [? _]; congruence).
    rewrite app_nil_r. reflexivity.
Qed.

(** On a first registration every deferred function runs: the hooks are
    appended to the registries in the order recorded. *)
Lemma run_deferred_functions_first (state : BlueprintSetupState) (l : list deferred)
    (a a' : Setup) :
  st_first_registration state = true ->
  call_deferred_functions state l a = (Ok tt, a') ->
  (forall reg key,
     default [] (su_registry a' reg !! key)
     = default [] (su_registry a reg !! key) ++ recorded_scoped reg key l) /\
  su_before_first_request_funcs a'
  = su_before_first_request_funcs a ++ recorded_first_request l.
Proof.
  intros Hfirst. revert a. induction l as [|d l IH]; intros a Hrun.
  { cbn in Hrun. injection Hrun as <-. cbn. split; [intros; rewrite app_nil_r|];
      try rewrite app_nil_r; reflexivity. }
  cbn [run_deferred_functions] in Hrun.
  assert (Hstep : forall a1, call_deferred state d a = (Ok tt, a1) ->
            (forall reg key,
               default [] (su_registry a1 reg !! key)
               = default [] (su_registry a reg !! key) ++ recorded_scoped reg key [d]) /\
            su_before_first_request_funcs a1
            = su_before_first_request_funcs a ++ recorded_first_request [d]).
  { intros a1. unfold run_deferred, recorded_scoped, recorded_first_request.
    rewrite Hfirst, andb_false_r. cbn [flat_map]. rewrite !app_nil_r.
    destruct (d_action d) as [rule endpoint view_func options|r key f|f|e f];
      cbn [run_action].
    - intros Hrule.
      destruct (state_add_url_rule_rules_added (fun _ => True) state rule endpoint
                  view_func options a) as (new & (R1 & R2 & R3 & R4 & _) & _).
      { intros; exact I. }
      rewrite Hrule in R3, R4. cbn [snd] in R3, R4.
      split; [intros; rewrite R3, ?app_nil_r; reflexivity|].
      rewrite R4, ?app_nil_r. reflexivity.
    - intros [= <-]. split; [|rewrite ?app_nil_r; reflexivity].
      intros reg key0. rewrite ?app_nil_r. apply registry_append_lookup.
    - intros [= <-]. split; [intros; rewrite ?app_nil_r; reflexivity|reflexivity].
    - intros [= <-]. split; [intros|]; rewrite ?app_nil_r; reflexivity. }
  destruct (call_deferred state d a) as [[[]|err] a1]; [|discriminate Hrun].
  destruct (Hstep a1 eq_refl) as [S1 S2].
  destruct (IH a1 Hrun) as [T1 T2].
  change (d :: l) with ([d] ++ l).
  unfold recorded_scoped, recorded_first_request in *.
  split.
  - intros reg key. rewrite flat_map_app, T1, S1, app_assoc. reflexivity.
  - rewrite flat_map_app, T2, S2, app_assoc. reflexivity.
Qed.

(** On a later registration only the URL rules are added again. *)
Lemma run_deferred_functions_again (state : BlueprintSetupState) (l : list deferred)
    (a : Setup) :
  st_first_registration state = false ->
  Forall once_or_rule l ->
  exists new,
    rules_added (fun _ => True) a (snd (call_deferred_functions state l a)) new /\
    (fst (call_deferred_functions state l a) = Ok tt ->
     length new = length (List.filter (fun d => negb (d_once d)) l)).
Proof.
  intros Hfirst Hl. revert a. induction Hl as [|d l Hd _ IH]; intros a.
  { exists []. split; [apply rules_added_refl|reflexivity]. }
  cbn [run_deferred_functions].
  assert (Hstep : exists new,
            rules_added (fun _ => True) a (snd (call_deferred state d a)) new /\
            (fst (call_deferred state d a) = Ok tt ->
             length new = length (List.filter (fun d => negb (d_once d)) [d]))).
  { unfold run_deferred. rewrite Hfirst. cbn [negb List.filter].
    rewrite andb_true_r.
    destruct (d_once d) eqn:Honce; cbn [negb].
    { exists []. split; [apply rules_added_refl|reflexivity]. }
    destruct (Hd Honce) as (rule & endpoint & view_func & options & ->).
    cbn [run_action]. apply state_add_url_rule_rules_added. intros; exact I. }
  destruct Hstep as (new1 & Hr1 & Hn1).
  destruct (call_deferred state d a) as [[[]|err] a1]; cbn [fst snd] in Hr1, Hn1.
  - destruct (IH a1) as (new2 & Hr2 & Hn2).
    exists (new1 ++ new2). split; [exact (rules_added_trans _ _ _ _ _ _ Hr1 Hr2)|].
    intros Hok. rewrite length_app, (Hn1 eq_refl), (Hn2 Hok).
    change (d :: l) with ([d] ++ l). rewrite List.filter_app, length_app. reflexivity.
  - exists new1. split; [exact Hr1|discriminate].
Qed.

(** X22: the first registration of a blueprint.  When it succeeds, each
    registry of the application (functions before and after a request, at
    teardown, URL value preprocessors, URL defaults, template context
    processors) has, under every key, the functions it had followed by the
    functions the blueprint recorded for that registry and key, in the
    order recorded; the functions to run before the first request are
    extended likewise; the blueprint is entered under its name and listed
    last by [iter_blueprints]. *)
Theorem register_blueprint_first (id : nat) (options : register_options) (h h' : Heap) :
  su_debug (hp_app h) && su_got_first_request (hp_app h) = false ->
  su_blueprints (hp_app h) !! bp_name (hp_blueprints h id) = None ->
  register_blueprint id options h = (Ok tt, h') ->
  let b := hp_blueprints h id in
  (forall reg key,
     default [] (su_registry (hp_app h') reg !! key)
     = default [] (su_registry (hp_app h) reg !! key)
       ++ recorded_scoped reg key (bp_deferred_functions b)) /\
  su_before_first_request_funcs (hp_app h')
  = su_before_first_request_funcs (hp_app h)
    ++ recorded_first_request (bp_deferred_functions b) /\
  su_blueprints (hp_app h') = <[bp_name b := id]> (su_blueprints (hp_app h)) /\
  Flask_iter_blueprints (hp_app h') = Flask_iter_blueprints (hp_app h) ++ [id] /\
  bp_got_registered_once (hp_blueprints h' id) = true /\
  bp_deferred_functions (hp_blueprints h' id) = bp_deferred_functions b.
Proof.
  intros Hguard Hname Hreg b.
  unfold Flask_register_blueprint in Hreg.
  rewrite Hguard, Hname in Hreg. fold b in Hreg.
  set (a0 := with_blueprint (bp_name b) id (hp_app h)) in Hreg.
  pose proof (Blueprint_register_rules (fun _ => True) b options true a0 I) as Hframe.
  destruct Hframe as (F0 & _ & _ & F3 & F4 & _).
  { apply Forall_forall. intros; exact I. }
  unfold Blueprint_register in Hreg, F0, F3, F4.
  set (b1 := with_got_registered_once b) in *.
  set (state := make_setup_state b1 options true) in *.
  destruct (match bp_static b1 with
            | Some (static_url_path, send_static_file) =>
                state_add_url_rule state (static_url_path +:+ "/<path:filename>")
                  (Some "static") (Some send_static_file) (RuleOptions None None None ∅) a0
            | None => (Ok tt, a0)
            end) as [r1 a1] eqn:Hstatic.
  assert (Hs : su_registry a1 = su_registry a0 /\
               su_before_first_request_funcs a1 = su_before_first_request_funcs a0).
  { destruct (bp_static b1) as [[path f]|].
    - destruct (state_add_url_rule_rules_added (fun _ => True) state
                  (path +:+ "/<path:filename>") (Some "static") (Some f)
                  (RuleOptions None None None ∅) a0)
        as (new & (R1 & R2 & R3 & R4 & _) & _).
      { intros; exact I. }
      rewrite Hstatic in R3, R4. split; assumption.
    - injection Hstatic as _ <-. split; reflexivity. }
  destruct Hs as [Hs1 Hs2].
  destruct r1 as [[]|err].
  - destruct (call_deferred_functions state (bp_deferred_functions b1) a1)
      as [r2 a2] eqn:Hrun.
    cbn [fst snd] in F0, F3, F4.
    injection Hreg as -> <-. cbn [hp_app hp_blueprints].
    destruct (run_deferred_functions_first state _ a1 a2 eq_refl Hrun) as [T1 T2].
    split; [intros reg key; rewrite T1, Hs1; reflexivity|].
    split; [rewrite T2, Hs2; reflexivity|].
    split; [exact F3|]. split; [exact F4|].
    unfold upd. rewrite Nat.eqb_refl. split; reflexivity.
  - discriminate Hreg.
Qed.

(** X23: registering the same blueprint again.  The hooks that the
    blueprint recorded are not registered a second time: the registries,
    the functions to run before the first request, the table of blueprints
    and their order are unchanged.  Its URL rules are added again: when the
    registration succeeds the URL map has grown by one rule for the static
    folder, if any, and one for each rule of the blueprint. *)
Theorem register_blueprint_again (id : nat) (options : register_options) (h : Heap) :
  su_debug (hp_app h) && su_got_first_request (hp_app h) = false ->
  su_blueprints (hp_app h) !! bp_name (hp_blueprints h id) = Some id ->
  Forall once_or_rule (bp_deferred_functions (hp_blueprints h id)) ->
  let b := hp_blueprints h id in
  let r := fst (register_blueprint id options h) in
  let a' := hp_app (snd (register_blueprint id options h)) in
  su_registry a' = su_registry (hp_app h) /\
  su_before_first_request_funcs a' = su_before_first_request_funcs (hp_app h) /\
  su_blueprints a' = su_blueprints (hp_app h) /\
  Flask_iter_blueprints a' = Flask_iter_blueprints (hp_app h) /\
  exists new,
    su_url_map a' = su_url_map (hp_app h) ++ new /\
    (r = Ok tt ->
     length new = (match bp_static b with Some _ => 1 | None => 0 end
                   + length (List.filter (fun d => negb (d_once d))
                               (bp_deferred_functions b)))%nat).
Proof.
  intros Hguard Hname Hl b r a'. subst r a'.
  unfold Flask_register_blueprint.
  rewrite Hguard, Hname, bool_decide_eq_true_2 by reflexivity. fold b.
  unfold Blueprint_register.
  set (b1 := with_got_registered_once b).
  set (state := make_setup_state b1 options false).
  assert (Hstat : exists a1 r1 new1,
            match bp_static b1 with
            | Some (static_url_path, send_static_file) =>
                state_add_url_rule state (static_url_path +:+ "/<path:filename>")
                  (Some "static") (Some send_static_file) (RuleOptions None None None ∅)
                  (hp_app h)
            | None => (Ok tt, hp_app h)
            end = (r1, a1) /\ rules_added (fun _ => True) (hp_app h) a1 new1 /\
            (r1 = Ok tt -> length new1 = match bp_static b with Some _ => 1%nat | None => 0%nat end)).
  { change (bp_static b1) with (bp_static b).
    destruct (bp_static b) as [[path f]|].
    - destruct (state_add_url_rule_rules_added (fun _ => True) state
                  (path +:+ "/<path:filename>") (Some "static") (Some f)
                  (RuleOptions None None None ∅) (hp_app h)) as (new & Hr & Hn).
      { intros; exact I. }
      destruct (state_add_url_rule _ _ _ _ _ (hp_app h)) as [r1 a1].
      exists a1, r1, new. split; [reflexivity|]. split; [exact Hr|exact Hn].
    - exists (hp_app h), (Ok tt), []. split; [reflexivity|].
      split; [apply rules_added_refl|reflexivity]. }
  destruct Hstat as (a1 & r1 & new1 & -> & Hr1 & Hn1).
  destruct r1 as [[]|err].
  - destruct (run_deferred_functions_again state (bp_deferred_functions b1) a1 eq_refl Hl)
      as (new2 & Hr2 & Hn2).
    destruct (call_deferred_functions state (bp_deferred_functions b1) a1) as [r2 a2].
    cbn [fst snd hp_app] in *.
    destruct (rules_added_trans _ _ _ _ _ _ Hr1 Hr2)
      as (_ & _ & R3 & R4 & R5 & R6 & R7 & _).
    do 4 (split; [assumption|]). exists (new1 ++ new2). split; [exact R7|].
    intros Hok. rewrite length_app, (Hn1 eq_refl), (Hn2 Hok). reflexivity.
  - cbn [fst snd hp_app].
    destruct Hr1 as (_ & _ & R3 & R4 & R5 & R6 & R7 & _).
    do 4 (split; [assumption|]). exists new1. split; [exact R7|discriminate].
Qed.

(** X24: how [register_blueprint] fails.  As a setup method it raises
    [AssertionError] in debug mode once the first request has been handled;
    for a blueprint whose name is taken by another blueprint it raises
    [AssertionError]; in both cases nothing changes.  When the first
    registration of a blueprint fails inside the blueprint, the blueprint
    has been entered under its name and in the order of blueprints all the
    same, and is marked as registered once: registering it again is then
    not a first registration. *)
Theorem register_blueprint_failures (id : nat) (options : register_options) (h : Heap) :
  let a := hp_app h in
  let name := bp_name (hp_blueprints h id) in
  (su_debug a && su_got_first_request a = true ->
   register_blueprint id options h = (Raise (AssertionError setup_msg), h)) /\
  (su_debug a && su_got_first_request a = false ->
   (forall other, su_blueprints a !! name = Some other -> other <> id ->
      exists msg, register_blueprint id options h = (Raise (AssertionError msg), h)) /\
   (forall e h', su_blueprints a !! name = None ->
      register_blueprint id options h = (Raise e, h') ->
      su_blueprints (hp_app h') !! name = Some id /\
      Flask_iter_blueprints (hp_app h') = Flask_iter_blueprints a ++ [id] /\
      bp_got_registered_once (hp_blueprints h' id) = true)).
Proof.
  intros a name. subst a name.
  split; [|intros Hguard; split].
  - intros Hguard. unfold Flask_register_blueprint. rewrite Hguard. reflexivity.
  - intros other Hother Hne. unfold Flask_register_blueprint.
    rewrite Hguard, Hother, bool_decide_eq_false_2 by exact Hne.
    eexists. reflexivity.
  - intros e h' Hname Hreg. unfold Flask_register_blueprint in Hreg.
    rewrite Hguard, Hname in Hreg.
    set (b := hp_blueprints h id) in *.
    set (a0 := with_blueprint (bp_name b) id (hp_app h)) in Hreg.
    pose proof (Blueprint_register_rules (fun _ => True) b options true a0 I) as Hframe.
    destruct Hframe as (F0 & _ & _ & F3 & F4 & _).
    { apply Forall_forall. intros; exact I. }
    destruct (register b options true a0) as [r [b' a']].
    cbn [fst snd] in F0, F3, F4. injection Hreg as -> <-. cbn [hp_app hp_blueprints].
    split; [rewrite F3; apply lookup_insert_eq|]. split; [exact F4|].
    unfold upd. rewrite Nat.eqb_refl, F0. reflexivity.
Qed.

(** X25: a blueprint built with the recording methods is well formed.
    Starting from a blueprint with nothing recorded, after any number of
    calls of [add_url_rule], [endpoint] and the methods that record hooks,
    the blueprint has kept its name; every function it has recorded is
    either wrapped by [record_once] or adds a URL rule whose endpoint and
    view function name have no dot; and each call has added exactly one
    function after those recorded before. *)
Theorem built_blueprint_well_formed (b0 b : Blueprint) :
  bp_deferred_functions b0 = [] ->
  rtc records b0 b ->
  bp_name b = bp_name b0 /\
  Forall once_or_rule (bp_deferred_functions b) /\
  Forall accepted (bp_deferred_functions b) /\
  (forall b', records b b' ->
     exists d, bp_deferred_functions b' = bp_deferred_functions b ++ [d]).
Proof.
  intros Hempty Hsteps.
  assert (Hstep : forall b1 b2 : Blueprint, records b1 b2 ->
            bp_name b2 = bp_name b1 /\
            exists d, bp_deferred_functions b2 = bp_deferred_functions b1 ++ [d] /\
                      once_or_rule d /\ accepted d).
  { intros b1 b2 Hr.
    destruct Hr as [rule endpoint view_func options b' Hadd| | | | | | | | | | | | | | ].
    2-15: split; [reflexivity|]; eexists; split; [reflexivity|];
          (split; [intros Honce; discriminate Honce
                  |intros ? ? ? ? ? Hact; discriminate Hact]).
    assert (Hb' : b' = record (Deferred false
                                 (A_add_url_rule rule endpoint view_func options)) b1).
    { unfold Blueprint_add_url_rule in Hadd.
      destruct (negb _); [discriminate Hadd|].
      destruct (negb _); [discriminate Hadd|]. congruence. }
    subst b'. split; [reflexivity|]. eexists. split; [reflexivity|]. split.
    - intros _. do 4 eexists. reflexivity.
    - intros rule' endpoint' view_func' options' b' Hact. cbn in Hact.
      injection Hact as <- <- <- <-.
      unfold Blueprint_add_url_rule in Hadd |- *.
      destruct (negb _); [discriminate Hadd|].
      destruct (negb _); [discriminate Hadd|]. eexists. reflexivity. }
  assert (Hinv : bp_name b = bp_name b0 /\
                 Forall once_or_rule (bp_deferred_functions b) /\
                 Forall accepted (bp_deferred_functions b)).
  { revert b Hsteps. apply rtc_ind_r.
    - rewrite Hempty. split; [reflexivity|]. split; apply Forall_nil; exact I.
    - intros b1 b _ Hr (I1 & I2 & I3).
      destruct (Hstep b1 b Hr) as (S1 & d & S2 & S3 & S4).
      split; [congruence|]. rewrite S2.
      split; apply Forall_app; (split; [assumption|]);
        apply Forall_cons; (split; [assumption|apply Forall_nil; exact I]). }
  destruct Hinv as (I1 & I2 & I3).
  split; [exact I1|]. split; [exact I2|]. split; [exact I3|].
  intros b' Hr. destruct (Hstep b b' Hr) as (_ & d & Hd & _). exists d. exact Hd.
Qed.

End Blueprint_properties.

(** * Registering teardown functions *)

Section Registration_properties.
Context {World Response Session : Type}.
Variable X : @externals World Response Session.

Abbreviation pyval := (@pyval Response).
Abbreviation State := (@State World Response Session).
Abbreviation callable := (@callable World).


End Registration_properties.

(** * URL defaults of the endpoints of a blueprint *)

Section Url_defaults_properties.
Context {World Response Session : Type}.

Abbreviation State := (@State World Response Session).
Abbreviation callable := (@callable World).
Abbreviation view_args_t := (@view_args_t Response).

Lemma run_url_default_functions_app
    (l1 l2 : list (callable (string * view_args_t) view_args_t))
    (endpoint : string) (values : view_args_t) (s : State) :
  run_url_default_functions (l1 ++ l2) endpoint values s
  = bind (run_url_default_functions l1 endpoint values)
      (fun values => run_url_default_functions l2 endpoint values) s.
Proof.
  revert values s. induction l1 as [|f l1 IH]; intros values s; [reflexivity|].
  cbn [List.app run_url_default_functions]. unfold bind.
  destruct (lift_world (fn_run f (endpoint, values)) s) as [[v|e] s1]; [|reflexivity].
  rewrite IH. reflexivity.
Qed.

(** X27: the URL defaults that apply to an endpoint.  For the endpoint
    that a blueprint gives to one of its rules, the blueprint's name, a dot
    and an endpoint without dots, the application-wide functions are called
    first and then the functions of that blueprint, each on the values the
    one before left; a function that raises ends the calls.  For an
    endpoint without dots only the application-wide functions are
    called. *)
Theorem url_defaults_of_blueprint_endpoint
    (url_default_functions :
       gmap (option string) (list (callable (string * view_args_t) view_args_t)))
    (name ep endpoint : string) (values : view_args_t) (s : State) :
  (contains "." ep = false ->
   inject_url_defaults url_default_functions (blueprint_endpoint name ep) values s
   = bind (run_url_default_functions (scoped_get url_default_functions None)
             (blueprint_endpoint name ep) values)
       (fun values =>
          run_url_default_functions (scoped_get url_default_functions (Some name))
            (blueprint_endpoint name ep) values) s) /\
  (contains "." endpoint = false ->
   inject_url_defaults url_default_functions endpoint values s
   = run_url_default_functions (scoped_get url_default_functions None)
       endpoint values s) /\
  (forall f rest e,
     fst (fn_run f (endpoint, values) (world s)) = Raise e ->
     fst (run_url_default_functions (f :: rest) endpoint values s) = Raise e).
Proof.
  split; [|split].
  - intros Hep. unfold inject_url_defaults.
    rewrite (rsplit_dot_blueprint_endpoint name ep) by (apply contains_dot_rsplit, Hep).
    apply run_url_default_functions_app.
  - intros Hep. unfold inject_url_defaults.
    apply contains_dot_rsplit in Hep. rewrite Hep. reflexivity.
  - intros f rest e Hf. cbn [run_url_default_functions]. unfold bind, lift_world.
    destruct (fn_run f (endpoint, values) (world s)) as [[v|e'] w]; cbn in Hf |- *;
      congruence.
Qed.

End Url_defaults_properties.

(** * The properties on the concrete application *)

Import Example.



Ltac split_all := repeat match goal with |- _ /\ _ => split end.

Ltac by_computation := intros; split_all; vm_compute; reflexivity.

(** P6: the blueprint's handler for 404 is preferred to the application's
    handler for [NotFound]. *)
Lemma error_handler_precedence_witness :
  (ls_top (request_ctx_stack s_p6) = Some 0%nat /\
   issubclass (exn_class not_found) "Exception" = true /\
   exc_info s_p6 = Some not_found) /\
  option_map fn_name
    (first_handler (error_handler_spec (apps s_p6 0)) (cls_mro (exn_class not_found))
       (lookup_keys (Some "bp") (Some 404))) = Some "bp_404" /\
  fst (_find_error_handler X0 0 not_found s_p6) =
    Ok (first_handler (error_handler_spec (apps s_p6 0)) (cls_mro (exn_class not_found))
          (lookup_keys (blueprint (rc_request (req_ctxs s_p6 0)))
             (error_code (exn_class not_found)))) /\
  log (exec (handle_user_exception X0 0 not_found) s_p6) =
    log s_p6 ++ [EvCall ErrorHandler "bp_404"].
Proof.
  assert (H1 : ls_top (request_ctx_stack s_p6) = Some 0%nat) by (vm_compute; reflexivity).
  assert (H2 : issubclass (exn_class not_found) "Exception" = true)
    by (vm_compute; reflexivity).
  assert (H3 : exc_info s_p6 = Some not_found) by (vm_compute; reflexivity).
  pose proof (error_handler_precedence X0 0 0 not_found s_p6 H1 H2 H3) as [Hf _].
  split_all; try assumption; vm_compute; reflexivity.
Defined.

(** A [Teapot] raised in the blueprint: the class walk that ignores the
    code finds the blueprint's handler for [NotFound], a superclass;
    [_find_error_handler] finds none, and no handler is called. *)
Lemma error_handler_class_walk_counterexample :
  fst (_find_error_handler X0 0 teapot s_teapot) = Ok None /\
  log (exec (handle_user_exception X0 0 teapot) s_teapot) = log s_teapot /\
  option_map fn_name
    (spec_find_error_handler (error_handler_spec (apps s_teapot 0)) (Some "bp") teapot)
    = Some "bp_not_found".
Proof. by_computation. Qed.

(** A second push of an application context, at count 1, puts it on the
    stack again and emits the notification again; the pop that brings the
    count back to 1 removes an entry. *)
Lemma appcontext_push_again_counterexample :
  let s1 := exec (AppContext_push X0 0) s0 in
  ac_refcnt (app_ctxs s1 0) = 1 /\
  app_ctx_stack s1 = [0%nat] /\
  app_ctx_stack (exec (AppContext_push X0 0) s1) = [0%nat; 0%nat] /\
  log (exec (AppContext_push X0 0) s1) = log s1 ++ [EvSignal appcontext_pushed] /\
  app_ctx_stack (exec (AppContext_pop X0 0 Sentinel) (exec (AppContext_push X0 0) s1))
    = [0%nat].
Proof. by_computation. Qed.

(** An after-request function raises: suppressed and logged from the error
    handler, raised otherwise. *)
Lemma finalize_request_failures_witness :
  let r := MkResponse "Hello" 200 [] in
  let s1 := exec (process_response X0 0 r) s_failing_after in
  (make_response X0 (VStr "Hello") = Ok r /\
   process_response X0 0 r s_failing_after = (Raise boom, s1) /\
   is_exception boom = true) /\
  fst (finalize_request X0 0 (VStr "Hello") true s_failing_after) = Ok r /\
  log (exec (finalize_request X0 0 (VStr "Hello") true) s_failing_after) =
    log s1 ++ [EvLog finalize_failed_msg] /\
  fst (finalize_request X0 0 (VStr "Hello") false s_failing_after) = Raise boom.
Proof.
  intros r s1.
  assert (H1 : make_response X0 (VStr "Hello") = Ok r) by (vm_compute; reflexivity).
  assert (H2 : process_response X0 0 r s_failing_after = (Raise boom, s1))
    by (vm_compute; reflexivity).
  assert (H3 : is_exception boom = true) by (vm_compute; reflexivity).
  pose proof (finalize_request_failures X0 0 (VStr "Hello") true s_failing_after s1 r
                boom H1 H2 H3) as [[Ha Hb] _].
  pose proof (finalize_request_failures X0 0 (VStr "Hello") false s_failing_after s1 r
                boom H1 H2 H3) as [[Hc _] _].
  split_all; assumption.
Defined.

(** A return value of [None] entered from the error handler: the
    [TypeError] of the coercion is raised and nothing is logged; so it is
    when a handler for 500 returns [None]. *)
Lemma finalize_request_coercion_counterexample :
  fst (finalize_request X0 0 VNone true s_failing_after) =
    Raise (TypeError returned_none_msg) /\
  log (exec (finalize_request X0 0 VNone true) s_failing_after) = log s_failing_after /\
  fst (handle_exception X0 0 boom s_500) = Raise (TypeError returned_none_msg).
Proof. by_computation. Qed.

(** A 4-tuple. *)
Lemma make_response_type_errors_witness :
  exists msg,
    make_response X0 (VTuple [VStr "a"; VInt 200; VHeaders []; VNone]) =
      Raise (TypeError msg) /\
    msg = invalid_tuple_msg.
Proof.
  destruct (make_response_type_errors X0
              (VTuple [VStr "a"; VInt 200; VHeaders []; VNone])) as (msg & Hm & Hs).
  - apply rejected_arity; discriminate.
  - exists msg. split; [exact Hm|].
    apply (Hs _ eq_refl); discriminate.
Defined.

(** Context 0 preserved after one push, then context 1 pushed. *)
Lemma preserved_context_reclaimed_witness :
  let s' := exec (RequestContext_push X0 1) s_preserved_once in
  (request_ctx_stack s_preserved_once = [0%nat] /\
   rc_preserved (req_ctxs s_preserved_once 0) = true /\
   rc_implicit_app_ctx_stack (req_ctxs s_preserved_once 0) = [Some 0%nat] /\
   RequestContext_push X0 1 s_preserved_once = (Ok tt, s')) /\
  count_events (is_request_teardown 0) (log s') =
    S (count_events (is_request_teardown 0) (log s_preserved_once)) /\
  (0%nat ∉ request_ctx_stack s') /\
  rc_preserved (req_ctxs s' 0) = false.
Proof.
  intros s'.
  assert (H1 : request_ctx_stack s_preserved_once = [0%nat]) by (vm_compute; reflexivity).
  assert (H2 : rc_preserved (req_ctxs s_preserved_once 0) = true)
    by (vm_compute; reflexivity).
  assert (H3 : rc_implicit_app_ctx_stack (req_ctxs s_preserved_once 0) = [Some 0%nat])
    by (vm_compute; reflexivity).
  assert (H4 : RequestContext_push X0 1 s_preserved_once = (Ok tt, s'))
    by (vm_compute; reflexivity).
  pose proof (preserved_context_reclaimed X0 1 0 s_preserved_once s' [] (Some 0%nat)
                H1 H2 H3 ltac:(discriminate) ltac:(apply not_elem_of_nil) H4)
    as ((d & Hlog & Hd) & Hnot & Hp).
  split_all; try assumption.
  rewrite Hlog, count_events_app. simpl. rewrite Hd. lia.
Defined.

(** C8 fails for a preserved context with nested pushes: context 0
    preserved after two pushes, then context 1 pushed: the push returns, no
    teardown sequence of context 0 has run and it is still on the stack,
    preserved, although the push was to invalidate it (ctx.py 440-447). *)
Lemma preserved_nested_counterexample :
  let s' := exec (RequestContext_push X0 1) s_preserved_twice in
  ls_top (request_ctx_stack s_preserved_twice) = Some 0%nat /\
  rc_preserved (req_ctxs s_preserved_twice 0) = true /\
  fst (RequestContext_push X0 1 s_preserved_twice) = Ok tt /\
  count_events (is_request_teardown 0) (log s') = 0%nat /\
  request_ctx_stack s' = [1%nat; 0%nat] /\
  rc_preserved (req_ctxs s' 0) = true.
Proof. by_computation. Qed.

(** A path the router does not know: [match_request] returns and stores
    the [NotFound]. *)
Lemma match_request_never_raises_witness :
  (rc_url_adapter (req_ctxs s_missing 0) = Some (route "/missing") /\
   (forall e, fst (route "/missing" (world s_missing)) = Raise e ->
              is_http_exception e = true)) /\
  exists s', match_request 0 s_missing = (Ok tt, s') /\
             routing_exception (rc_request (req_ctxs s' 0)) = Some not_found.
Proof.
  assert (H1 : rc_url_adapter (req_ctxs s_missing 0) = Some (route "/missing"))
    by (vm_compute; reflexivity).
  assert (H2 : forall e, fst (route "/missing" (world s_missing)) = Raise e ->
                         is_http_exception e = true).
  { intros e He. vm_compute in He. injection He as <-. vm_compute. reflexivity. }
  destruct (match_request_never_raises X0 0 s_missing (route "/missing") H1 H2)
    as [(s' & Hrun & Hm) _].
  split; [split; assumption|].
  exists s'. split; [exact Hrun|]. exact (proj1 Hm).
Defined.

(** Before-request functions A, B and after-request functions C, D run as
    A, B, index, D, C. *)
Lemma hook_order_witness :
  exists response s',
    full_dispatch_request X0 0 s_hooks = (Ok response, s') /\
    log s' = log s_hooks ++
      [EvSignal request_started; EvCall BeforeRequest "A"; EvCall BeforeRequest "B";
       EvCall ViewFunction "index"; EvCall AfterRequest "D"; EvCall AfterRequest "C";
       EvSignal request_finished] /\
    world s' = ["A"; "B"; "index"; "D"; "C"].
Proof.
  assert (Hpre : pre_request_order (apps s_hooks 0)
                   (blueprint (rc_request (req_ctxs s_hooks 0))) =
                 [recorder "A" VNone; recorder "B" VNone]) by (vm_compute; reflexivity).
  assert (Hpost : post_request_order (apps s_hooks 0) (req_ctxs s_hooks 0)
                    (blueprint (rc_request (req_ctxs s_hooks 0))) =
                  [after_recorder "D"; after_recorder "C"]) by (vm_compute; reflexivity).
  destruct (hook_order X0 0 0 s_hooks (MkRule "index" true) []
              (recorder "index" (VStr "Hello")) true) as (r & s' & Hrun & Hlog).
  1-9: vm_compute; reflexivity.
  - intros sg w. reflexivity.
  - intros f Hf w. rewrite Hpre in Hf.
    repeat (apply elem_of_cons in Hf as [->|Hf]; [reflexivity|]).
    apply elem_of_nil in Hf. destruct Hf.
  - intros w. eexists _, _. split; reflexivity.
  - intros f Hf r w. rewrite Hpost in Hf.
    repeat (apply elem_of_cons in Hf as [->|Hf]; [eexists; reflexivity|]).
    apply elem_of_nil in Hf. destruct Hf.
  - intros r w. reflexivity.
  - exists r, s'. split; [exact Hrun|].
    rewrite Hlog, Hpre, Hpost. split; [reflexivity|].
    replace s' with (exec (full_dispatch_request X0 0) s_hooks)
      by (unfold exec; rewrite Hrun; reflexivity).
    vm_compute. reflexivity.
Defined.

(** * The further properties on the concrete application *)



(** [with app_ctx: body] on the application context 0. *)
Lemma with_app_context_balanced_witness :
  let s' := exec (with_app_context X0 false 0 with_body) s0 in
  app_ctx_stack s' = [] /\
  request_ctx_stack s' = [] /\
  ac_refcnt (app_ctxs s' 0) = 0 /\
  exists d1 d2,
    log s' = [EvSignal appcontext_pushed] ++ d1 ++ EvAppTeardown 0 None :: d2 /\
    Forall (fun ev => quiet ev = true) d1 /\
    Forall (fun ev => quiet ev = true) d2.
Proof.
  intros s'.
  assert (H1 : ac_refcnt (app_ctxs s0 0) = 0) by (vm_compute; reflexivity).
  assert (H2 : AppContext_push X0 0 s0 = (Ok tt, exec (AppContext_push X0 0) s0))
    by (vm_compute; reflexivity).
  exact (with_app_context_balanced X0 false 0 with_body s0 _
           (frame_lift_world _) H1 H2).
Defined.

(** [with request_ctx: body] on a request context for [/]. *)
Lemma with_request_context_balanced_witness :
  let s' := exec (with_request_context X0 false 0 with_body) s_created in
  request_ctx_stack s' = [] /\
  app_ctx_stack s' = [] /\
  exists d1 d2,
    log s' = d1 ++ EvRequestTeardown 0 None :: d2 /\
    no_request_teardown d1 /\ no_request_teardown d2.
Proof.
  intros s'.
  assert (H1 : forall t, ls_top (request_ctx_stack s_created) = Some t ->
                         rc_preserved (req_ctxs s_created t) = false)
    by (intros t H; vm_compute in H; discriminate).
  assert (H2 : rc_implicit_app_ctx_stack (req_ctxs s_created 0) = [])
    by (vm_compute; reflexivity).
  assert (H3 : RequestContext_push X0 0 s_created = (Ok tt, with_request_to "/" s0))
    by (vm_compute; reflexivity).
  assert (H4 : environ_preserve_context (rc_request (req_ctxs s_created 0)) = false)
    by (vm_compute; reflexivity).
  assert (H5 : preserve_context_on_exception
                 (apps s_created (rc_app (req_ctxs s_created 0))) = false)
    by (vm_compute; reflexivity).
  exact (with_request_context_balanced X0 false 0 with_body s_created _
           (frame_lift_world _) H1 H2 H3 H4 (or_introl H5)).
Defined.
(** A handler registered in the blueprint for the class [NotFound] is
    found for a [NotFound] raised in a request of the blueprint. *)
Lemma registered_handler_found_witness :
  let f := recorder "bp_not_found" (VStr "bp") in
  let s := with_request_to "/bp/" s0 in
  let s' := exec (_register_error_handler X0 0 (Some "bp") (ByClass NotFound_cls) f) s in
  fst (_find_error_handler X0 0 not_found s') = Ok (Some f).
Proof.
  intros f s s'.
  assert (H1 : _get_exc_class_and_code X0 (ByClass NotFound_cls)
               = Ok (NotFound_cls, Some 404)) by (vm_compute; reflexivity).
  assert (H2 : head (cls_mro NotFound_cls) = Some (cls_name NotFound_cls))
    by (vm_compute; reflexivity).
  assert (H3 : _register_error_handler X0 0 (Some "bp") (ByClass NotFound_cls) f s
               = (Ok tt, s')) by (vm_compute; reflexivity).
  assert (H4 : ls_top (request_ctx_stack s) = Some 0%nat) by (vm_compute; reflexivity).
  assert (H5 : Some "bp" = blueprint (rc_request (req_ctxs s 0)))
    by (vm_compute; reflexivity).
  exact (registered_handler_found X0 0 0 (Some "bp") (ByClass NotFound_cls) f
           NotFound_cls (Some 404) "" None s s' H1 H2 H3 H4 (or_introl H5)).
Defined.

(** A [NotFound] with no handler registered is returned as the response
    value; a [RuntimeError] would be raised again. *)
Lemma unhandled_exception_witness :
  let s := being_handled not_found (with_request_to "/" s0) in
  fst (handle_user_exception X0 0 not_found s) = Ok (VExc not_found) /\
  log (exec (handle_user_exception X0 0 not_found) s) = log s /\
  world (exec (handle_user_exception X0 0 not_found) s) = world s.
Proof.
  intros s.
  assert (H1 : ls_top (request_ctx_stack s) = Some 0%nat) by (vm_compute; reflexivity).
  assert (H2 : issubclass (exn_class not_found) "Exception" = true)
    by (vm_compute; reflexivity).
  assert (H3 : exc_info s = Some not_found) by (vm_compute; reflexivity).
  assert (H4 : first_handler (error_handler_spec (apps s 0))
                 (cls_mro (exn_class not_found))
                 (lookup_keys (blueprint (rc_request (req_ctxs s 0)))
                    (error_code (exn_class not_found))) = None)
    by (vm_compute; reflexivity).
  assert (H5 : isinstance_exn not_found "HTTPException"
               && negb (trap_http_exception (apps s 0) not_found) = true)
    by (vm_compute; reflexivity).
  pose proof (unhandled_exception X0 0 0 not_found s H1 H2 H3 H4) as (A1 & A2 & A3).
  rewrite H5 in A1. split_all; assumption.
Defined.

(** Teardown functions T1 and T2: T2 is called first. *)
Lemma teardown_request_calls_witness :
  ls_top (request_ctx_stack s_teardown) = Some 0%nat /\
  world (exec (do_teardown_request X0 0 Sentinel) s_teardown)
  = world s_teardown ++ ["T2"; "T1"] /\
  log (exec (do_teardown_request X0 0 Sentinel) s_teardown)
  = log s_teardown ++ [EvCall TeardownRequest "T2"; EvCall TeardownRequest "T1";
                       EvSignal request_tearing_down].
Proof.
  assert (H1 : ls_top (request_ctx_stack s_teardown) = Some 0%nat)
    by (vm_compute; reflexivity).
  assert (Hfuncs : teardown_request_order (apps s_teardown 0)
                     (blueprint (rc_request (req_ctxs s_teardown 0)))
                   = [recorder "T2" VNone; recorder "T1" VNone])
    by (vm_compute; reflexivity).
  pose proof (teardown_request_calls X0 0 0 Sentinel s_teardown H1) as [Hok _].
  cbv zeta in Hok. rewrite Hfuncs in Hok.
  unfold exec. rewrite Hok.
  - split; [exact H1|]. split; vm_compute; reflexivity.
  - intros f Hf w.
    repeat (apply elem_of_cons in Hf as [->|Hf]; [eexists; reflexivity|]).
    apply elem_of_nil in Hf. destruct Hf.
  - intros w. reflexivity.
Defined.

(** Before-request functions A, stop and B: B and the view function are
    not called. *)
Lemma before_request_short_circuit_witness :
  exists response s',
    full_dispatch_request X0 0 s_short_circuit = (Ok response, s') /\
    log s' =
      log s_short_circuit
      ++ [EvSignal request_started; EvCall BeforeRequest "A"; EvCall BeforeRequest "stop";
          EvSignal request_finished].
Proof.
  assert (Hpost : post_request_order (apps s_short_circuit 0) (req_ctxs s_short_circuit 0)
                    (blueprint (rc_request (req_ctxs s_short_circuit 0))) = [])
    by (vm_compute; reflexivity).
  destruct (before_request_short_circuit X0 0 0 s_short_circuit
              [recorder "A" VNone] [recorder "B" VNone]
              (recorder "stop" (VStr "stopped")) (VStr "stopped") true)
    as (r & s' & Hrun & Hlog).
  1-5: vm_compute; reflexivity.
  - intros sg w. reflexivity.
  - intros g Hg w.
    repeat (apply elem_of_cons in Hg as [->|Hg]; [reflexivity|]).
    apply elem_of_nil in Hg. destruct Hg.
  - intros w. reflexivity.
  - discriminate.
  - eexists. vm_compute. reflexivity.
  - intros g Hg. rewrite Hpost in Hg. apply elem_of_nil in Hg. destruct Hg.
  - intros r w. reflexivity.
  - exists r, s'. split; [exact Hrun|]. rewrite Hlog, Hpost. reflexivity.
Defined.

(** A [RuntimeError] in an application that does not propagate exceptions
    and has a handler for code 500: the handler is called with the
    [InternalServerError] that wraps the exception. *)
Lemma handle_exception_wraps_witness :
  let s := being_handled boom s_500 in
  exists s1,
    log s1 = log s ++ [EvSignal got_request_exception; EvLog "Exception on / [GET]"] /\
    handle_exception X0 0 boom s =
      bind (call ErrorHandler (recorder "on_500" VNone)
              (Exn InternalServerError_cls "" (Some boom)))
        (fun rv => finalize_request X0 0 rv true) s1.
Proof.
  intros s.
  assert (H1 : ls_top (request_ctx_stack s) = Some 0%nat) by (vm_compute; reflexivity).
  assert (H2 : forall w, fst (signal_send X0 got_request_exception w) = Ok tt)
    by (intros w; reflexivity).
  assert (H3 : propagate_exceptions (apps s 0) = false) by (vm_compute; reflexivity).
  assert (H4 : first_handler (error_handler_spec (apps s 0))
                 (cls_mro InternalServerError_cls)
                 (lookup_keys (blueprint (rc_request (req_ctxs s 0))) (Some 500))
               = Some (recorder "on_500" VNone)) by (vm_compute; reflexivity).
  assert (H5 : "Exception on " +:+ path (rc_request (req_ctxs s 0)) +:+ " ["
               +:+ method (rc_request (req_ctxs s 0)) +:+ "]" = "Exception on / [GET]")
    by (vm_compute; reflexivity).
  pose proof (handle_exception_wraps X0 0 0 boom s H1 H2) as [_ Hwrap].
  cbv zeta in Hwrap. destruct (Hwrap H3) as (s1 & A1 & _ & _ & A2).
  rewrite H4 in A2. rewrite H5 in A1.
  exists s1. split; assumption.
Defined.

(** After the push of a request context both contexts are there. *)
Lemma push_gives_both_contexts_witness :
  let s1 := with_request_to "/" s0 in
  ls_top (request_ctx_stack s1) = Some 0%nat /\
  app_on_top (rc_app (req_ctxs s1 0)) s1 /\
  has_request_context s1 = (Ok true, s1) /\
  has_app_context s1 = (Ok true, s1).
Proof.
  intros s1.
  assert (H : RequestContext_push X0 0 s_created = (Ok tt, s1))
    by (vm_compute; reflexivity).
  exact (push_gives_both_contexts X0 0 s_created s1 H).
Defined.

(** Application context 1 is on top: popping context 0 raises and removes
    the entry of context 1. *)
Lemma pop_wrong_app_context_witness :
  (exists e, fst (AppContext_pop X0 0 Sentinel s_two_app_contexts) = Raise e) /\
  app_ctx_stack (exec (AppContext_pop X0 0 Sentinel) s_two_app_contexts)
  = tail (app_ctx_stack s_two_app_contexts).
Proof.
  assert (H : ls_top (app_ctx_stack s_two_app_contexts) <> Some 0%nat)
    by (intros H; vm_compute in H; discriminate).
  pose proof (pop_wrong_app_context X0 0 Sentinel s_two_app_contexts H) as (A1 & A2 & _).
  split; assumption.
Defined.

(** A namespace with [user] and [db]: [setdefault] of the new name [lang]
    stores the default, and [pop] removes it again. *)
Lemma app_ctx_globals_dictionary_witness :
  let g := [("user", 1); ("db", 2)] in
  names_unique g /\
  _AppCtxGlobals_setdefault g "lang" 3 = (3, g ++ [("lang", 3)]) /\
  _AppCtxGlobals_get (g ++ [("lang", 3)]) "lang" 0 = 3 /\
  fst (_AppCtxGlobals_pop (g ++ [("lang", 3)]) "lang" None) = Ok 3.
Proof.
  intros g.
  assert (H : names_unique g).
  { unfold names_unique. cbn.
    repeat (apply NoDup_cons; split;
            [intros Hin; repeat (apply elem_of_cons in Hin as [Hin|Hin];
                                 [discriminate Hin|]);
             apply elem_of_nil in Hin; destruct Hin|]).
    apply NoDup_nil. exact I. }
  assert (Hset : _AppCtxGlobals_setdefault g "lang" 3 = (3, g ++ [("lang", 3)]))
    by (vm_compute; reflexivity).
  pose proof (app_ctx_globals_dictionary g "lang" 3 H) as Hd.
  rewrite Hset in Hd. destruct Hd as (_ & A2 & _ & _ & _ & A6 & _).
  specialize (A6 None).
  destruct (_AppCtxGlobals_pop (g ++ [("lang", 3)]) "lang" None) as [r g2].
  destruct A6 as (A6 & _).
  split; [exact H|]. split; [exact Hset|]. split; [|exact A6].
  vm_compute. reflexivity.
Defined.

(** A rule for the methods [get] and [post] allows GET, POST and OPTIONS,
    and answers OPTIONS automatically. *)
Lemma add_url_rule_methods_witness :
  let options := RuleOptions (Some (MethodsIter ["get"; "post"])) None None ∅ in
  exists r,
    su_url_map (snd (Flask_add_url_rule upper0 func_name0 func_methods0
                       func_required_methods0 func_provide_automatic_options0
                       "/" (Some "index") (Some "index") None options setup0)) = [r] /\
    ur_endpoint r = "index" /\
    (forall m, m ∈ ur_methods r <-> m = "OPTIONS" \/ m = "GET" \/ m = "POST") /\
    ur_provide_automatic_options r = true.
Proof.
  intros options.
  assert (H1 : su_debug setup0 && su_got_first_request setup0 = false)
    by (vm_compute; reflexivity).
  assert (H2 : opt_methods options = Some (MethodsIter ["get"; "post"])) by reflexivity.
  assert (H3 : Some "index" ≫= func_provide_automatic_options0 = None) by reflexivity.
  destruct (add_url_rule_methods upper0 func_name0 func_methods0 func_required_methods0
              func_provide_automatic_options0 "/" "index" (Some "index") options
              ["get"; "post"] setup0 H1 (or_introl H2) H3)
    as (r & A1 & _ & A3 & _ & A5 & A6).
  exists r. split; [exact A1|]. split; [exact A3|]. split.
  - intros m. rewrite A5.
    change (map upper0 ["get"; "post"]) with ["GET"; "POST"].
    change (default [] (Some "index" ≫= func_required_methods0)) with (@nil string).
    rewrite !elem_of_cons, !elem_of_nil. tauto.
  - rewrite A6. vm_compute. reflexivity.
Defined.

(** The rule that the registration of the example blueprint adds has the
    endpoint [bp.index]: it belongs to the blueprint [bp]. *)
Lemma blueprint_rules_belong_to_blueprint_witness :
  Forall (accepted func_name0) (bp_deferred_functions bp_example) /\
  exists new,
    su_url_map (hp_app heap1) = new /\
    Forall (fun u => rsplit_dot (ur_endpoint u) = Some "bp") new /\
    map ur_endpoint new = ["bp.index"] /\
    map ur_rule new = ["/bp/"].
Proof.
  assert (H : Forall (accepted func_name0) (bp_deferred_functions bp_example)).
  { change (bp_deferred_functions bp_example) with
      [Deferred false (A_add_url_rule "/" (Some "index") (Some "bp_index") no_options);
       Deferred true (A_scoped R_before_request_funcs (Some "bp") "auth");
       Deferred true (A_before_first_request "warm_up");
       Deferred true (A_scoped R_teardown_request_funcs (Some "bp") "close")].
    repeat (apply Forall_cons; split;
            [intros rule endpoint view_func options b Heq; cbn in Heq;
             try discriminate Heq; injection Heq as <- <- <- <-;
             eexists; reflexivity|]).
    apply Forall_nil. exact I. }
  split; [exact H|].
  destruct (blueprint_rules_belong_to_blueprint upper0 func_name0 func_methods0
              func_required_methods0 func_provide_automatic_options0
              bp_example no_register_options true
              (with_blueprint "bp" 0 setup0) H) as (new & A1 & A2).
  assert (Happ : su_url_map (hp_app heap1)
                 = su_url_map (snd (snd (Blueprint_register upper0 func_name0 func_methods0
                     func_required_methods0 func_provide_automatic_options0
                     bp_example no_register_options true (with_blueprint "bp" 0 setup0)))))
    by (vm_compute; reflexivity).
  change (su_url_map (with_blueprint "bp" 0 setup0) ++ new) with new in A1.
  exists new. split; [rewrite Happ; exact A1|]. split; [exact A2|].
  rewrite <- A1. split; vm_compute; reflexivity.
Defined.

(** The first registration of the example blueprint: its before-request
    function, its function to run before the first request and its
    teardown function are registered. *)
Lemma register_blueprint_first_witness :
  su_registry (hp_app heap1) R_before_request_funcs !! Some "bp" = Some ["auth"] /\
  su_registry (hp_app heap1) R_teardown_request_funcs !! Some "bp" = Some ["close"] /\
  su_before_first_request_funcs (hp_app heap1) = ["warm_up"] /\
  su_blueprints (hp_app heap1) !! "bp" = Some 0%nat /\
  Flask_iter_blueprints (hp_app heap1) = [0%nat] /\
  forall reg key,
    default [] (su_registry (hp_app heap1) reg !! key)
    = recorded_scoped reg key (bp_deferred_functions bp_example).
Proof.
  assert (H1 : su_debug (hp_app heap0) && su_got_first_request (hp_app heap0) = false)
    by (vm_compute; reflexivity).
  assert (H2 : su_blueprints (hp_app heap0) !! bp_name (hp_blueprints heap0 0) = None)
    by (vm_compute; reflexivity).
  assert (H3 : Flask_register_blueprint upper0 func_name0 func_methods0
                 func_required_methods0 func_provide_automatic_options0
                 0 no_register_options heap0 = (Ok tt, heap1))
    by (vm_compute; reflexivity).
  pose proof (register_blueprint_first upper0 func_name0 func_methods0
                func_required_methods0 func_provide_automatic_options0
                0 no_register_options heap0 heap1 H1 H2 H3) as (A1 & A2 & A3 & A4 & _).
  split; [vm_compute; reflexivity|]. split; [vm_compute; reflexivity|].
  split; [rewrite A2; vm_compute; reflexivity|].
  split; [rewrite A3; apply lookup_insert_eq|].
  split; [rewrite A4; vm_compute; reflexivity|].
  intros reg key. rewrite A1. reflexivity.
Defined.

(** The example blueprint registered a second time: its functions are not
    registered again, its rule is added again. *)
Lemma register_blueprint_again_witness :
  let h2 := snd (Flask_register_blueprint upper0 func_name0 func_methods0
                   func_required_methods0 func_provide_automatic_options0
                   0 no_register_options heap1) in
  su_registry (hp_app h2) = su_registry (hp_app heap1) /\
  su_before_first_request_funcs (hp_app h2) = ["warm_up"] /\
  Flask_iter_blueprints (hp_app h2) = [0%nat] /\
  exists new, su_url_map (hp_app h2) = su_url_map (hp_app heap1) ++ new /\
              length new = 1%nat.
Proof.
  intros h2.
  assert (H1 : su_debug (hp_app heap1) && su_got_first_request (hp_app heap1) = false)
    by (vm_compute; reflexivity).
  assert (H2 : su_blueprints (hp_app heap1) !! bp_name (hp_blueprints heap1 0)
               = Some 0%nat) by (vm_compute; reflexivity).
  assert (Hdef : bp_deferred_functions (hp_blueprints heap1 0)
                 = [Deferred false
                      (A_add_url_rule "/" (Some "index") (Some "bp_index") no_options);
                    Deferred true (A_scoped R_before_request_funcs (Some "bp") "auth");
                    Deferred true (A_before_first_request "warm_up");
                    Deferred true (A_scoped R_teardown_request_funcs (Some "bp") "close")])
    by (vm_compute; reflexivity).
  assert (H3 : Forall once_or_rule (bp_deferred_functions (hp_blueprints heap1 0))).
  { rewrite Hdef.
    repeat (apply Forall_cons; split;
            [intros Honce; cbn in Honce; try discriminate Honce;
             do 4 eexists; reflexivity|]).
    apply Forall_nil. exact I. }
  assert (H4 : fst (Flask_register_blueprint upper0 func_name0 func_methods0
                      func_required_methods0 func_provide_automatic_options0
                      0 no_register_options heap1) = Ok tt) by (vm_compute; reflexivity).
  assert (H5 : bp_static (hp_blueprints heap1 0) = None) by (vm_compute; reflexivity).
  pose proof (register_blueprint_again upper0 func_name0 func_methods0
                func_required_methods0 func_provide_automatic_options0
                0 no_register_options heap1 H1 H2 H3)
    as (A1 & A2 & _ & A4 & new & A5 & A6).
  specialize (A6 H4). rewrite H5, Hdef in A6. subst h2.
  split; [exact A1|].
  split; [rewrite A2; vm_compute; reflexivity|].
  split; [rewrite A4; vm_compute; reflexivity|].
  exists new. split; [exact A5|exact A6].
Defined.

(** The example blueprint is built by four calls of recording methods. *)
Lemma built_blueprint_well_formed_witness :
  rtc (records func_name0) bp_empty bp_example /\
  bp_name bp_example = "bp" /\
  Forall once_or_rule (bp_deferred_functions bp_example) /\
  Forall (accepted func_name0) (bp_deferred_functions bp_example).
Proof.
  assert (H1 : bp_deferred_functions bp_empty = []) by reflexivity.
  assert (H2 : rtc (records func_name0) bp_empty bp_example).
  { change bp_example with
      (Blueprint_teardown_request "close"
         (Blueprint_before_app_first_request "warm_up"
            (Blueprint_before_request "auth"
               (record (Deferred false
                          (A_add_url_rule "/" (Some "index") (Some "bp_index") no_options))
                  bp_empty)))).
    eapply rtc_l;
      [apply (records_add_url_rule func_name0 bp_empty "/" (Some "index")
                (Some "bp_index") no_options); reflexivity|].
    eapply rtc_l; [apply (records_before_request func_name0 _ "auth")|].
    eapply rtc_l; [apply (records_before_app_first_request func_name0 _ "warm_up")|].
    eapply rtc_l; [apply (records_teardown_request func_name0 _ "close")|].
    apply rtc_refl. }
  pose proof (built_blueprint_well_formed func_name0 bp_empty bp_example H1 H2)
    as (A1 & A2 & A3 & _).
  split; [exact H2|]. split; [exact A1|]. split; assumption.
Defined.
